(** * Aadhaar data dashboard: the ingestion, cleaning and aggregation pipeline

    A shallow embedding of [app.py]: the state-name correction table
    [st_corr], the loader [create], the six aggregation functions
    ([enrol_date_wise], [enrol_state_wise], [bio_date_wise], ...) and the two
    dispatchers [date_wise] and [state_wise] and the view [index], followed
    by the properties of the pipeline.

    Modelling conventions.
    - A pandas [DataFrame] is a list of rows plus the list of its numeric
      column names.  Every row carries the two columns the code addresses by
      attribute ([state], [date]) and a dictionary from column name to an
      [int64] cell.  Text columns other than [state] play no part in the
      code and are left out.
    - Missing values are not represented: the state of a row is a text, its
      date a text and then a day, its cells integers.  A frame of the code
      can hold NaN as a state or in a cell (a blank cell, or a file whose
      header lacks the column) and NaT as a date (a blank date); such a
      frame is no value of the model.  A cell that a row lacks reads as 0
      here; the statements that read cells carry the hypothesis
      [int64_measures], under which no cell is lacking, and the statements
      on the cleaning carry the hypothesis that the state column is a column
      of texts.
    - [int64] cells are integers of [Z]; every addition the code performs on
      them ([+] on Series, [sum], [cumsum]) wraps around modulo [2^64].
    - The code assigns columns in place ([df['month'] = ...]); functions that
      do so return the frame they leave behind next to their result.
    - Exceptions are values of [exn]; a Python function that falls off its
      end returns [None].
    - The figure a function saves is part of its result: the frame it is
      drawn from and the columns drawn.
    - The parsers of pandas are parameters: [strptime] for
      [pd.to_datetime(_, format='%d-%m-%Y')] and [to_datetime] for
      [pd.to_datetime(_)].
    - The view [index] ends in the keyword arguments it gives to
      [render_template], or in the exception that leaves it; a table is the
      text [to_html] renders, a parameter.
    - A character is a code point below 256. *)

From stdpp Require Import gmap strings list fin_maps.
From Stdlib Require Import ZArith Lia Ascii String List Bool Sorting.Sorted.
Import ListNotations.

Local Open Scope string_scope.
Local Open Scope list_scope.

(** ** Python string methods used by [create] *)

Module Str.

(** [str.lower] on one code point: [A-Z] and the upper-case letters of the
    Latin-1 block ([U+00C0]-[U+00DE] except the multiplication sign). *)
Definition lower_char (c : ascii) : ascii :=
  let n := N_of_ascii c in
  if ((65 <=? n) && (n <=? 90) || (192 <=? n) && (n <=? 222) && negb (n =? 215))%N
  then ascii_of_N (n + 32) else c.

Fixpoint lower (s : string) : string :=
  match s with
  | EmptyString => EmptyString
  | String c t => String (lower_char c) (lower t)
  end.

(** [str.isspace] on one code point: what [str.strip()] removes. *)
Definition is_space (c : ascii) : bool :=
  let n := N_of_ascii c in
  ((9 <=? n) && (n <=? 13) || (28 <=? n) && (n <=? 32) || (n =? 133) || (n =? 160))%N.

Fixpoint lstrip (s : string) : string :=
  match s with
  | EmptyString => EmptyString
  | String c t => if is_space c then lstrip t else s
  end.

Fixpoint rstrip (s : string) : string :=
  match s with
  | EmptyString => EmptyString
  | String c t =>
      match rstrip t with
      | EmptyString => if is_space c then EmptyString else String c EmptyString
      | t' => String c t'
      end
  end.

Definition strip (s : string) : string := rstrip (lstrip s).

(** [s.replace(old, new)]: every occurrence of [old], found left to right
    without overlap.  [skip] counts the characters of a matched occurrence
    that are still to be dropped. *)
Fixpoint replace_from (old new : string) (skip : nat) (s : string) : string :=
  match s with
  | EmptyString => EmptyString
  | String c t =>
      match skip with
      | S k => replace_from old new k t
      | O =>
          if String.prefix old s
          then new ++ replace_from old new (String.length old - 1) t
          else String c (replace_from old new 0 t)
      end
  end.

(** With an empty [old], Python inserts [new] before every character and
    at the end. *)
Fixpoint interleave (new s : string) : string :=
  match s with
  | EmptyString => new
  | String c t => new ++ String c (interleave new t)
  end.

Definition replace (old new s : string) : string :=
  match old with
  | EmptyString => interleave new s
  | _ => replace_from old new 0 s
  end.

(** [s.split(sep)] for a one-character separator. *)
Fixpoint split (sep : ascii) (s : string) : list string :=
  match s with
  | EmptyString => [EmptyString]
  | String c t =>
      if Ascii.eqb c sep then EmptyString :: split sep t
      else match split sep t with
           | h :: r => String c h :: r
           | [] => [String c EmptyString]
           end
  end.

(** [s.endswith(suffix)] *)
Definition endswith (s suffix : string) : bool :=
  let n := String.length s in
  let k := String.length suffix in
  (k <=? n)%nat && String.eqb (String.substring (n - k) k s) suffix.

End Str.

(** ** [int64] cells *)

Local Open Scope Z_scope.

(** Two's-complement reduction of an integer to the [int64] range. *)
Definition wrap64 (z : Z) : Z := (z + 2^63) mod 2^64 - 2^63.

(** [+] on [int64] values, as numpy performs it. *)
Definition add64 (a b : Z) : Z := wrap64 (a + b).

(** [Series.sum()] on an [int64] column. *)
Definition sum64 (l : list Z) : Z := fold_left add64 l 0.

(** [Series.cumsum()] on an [int64] column: the running [sum64]. *)
Fixpoint cumsum_from (acc : Z) (l : list Z) : list Z :=
  match l with
  | [] => []
  | x :: t => let acc' := add64 acc x in acc' :: cumsum_from acc' t
  end.

(** The first value of the result is [add64 0 x], which is [x] for every
    [int64] value [x]. *)
Definition cumsum (l : list Z) : list Z := cumsum_from 0 l.

(** [a + b] on two Series with the same index. *)
Definition series_add (a b : list Z) : list Z := zip_with add64 a b.

(** [c + s] for a scalar [c] and a Series [s]. *)
Definition scalar_add (c : Z) (s : list Z) : list Z := List.map (add64 c) s.

(** ** Exceptions and results *)

Inductive exn : Type :=
| FileNotFoundError   (* os.listdir on a missing folder *)
| ParserError         (* pd.read_csv on a file it cannot parse *)
| ValueError          (* pd.concat([]), pd.to_datetime on a bad date *)
| KeyError.           (* a column that is not in the frame *)

Inductive outcome (A : Type) : Type :=
| Ret (a : A)
| Raise (e : exn).
Arguments Ret {A} a.
Arguments Raise {A} e.

(** Sequencing: an exception ends the computation. *)
Definition bind {A B : Type} (m : outcome A) (k : A -> outcome B) : outcome B :=
  match m with
  | Ret a => k a
  | Raise e => Raise e
  end.

#[global] Instance outcome_ret : MRet outcome := fun A a => Ret a.
#[global] Instance outcome_bind : MBind outcome := fun A B k m => bind m k.

(** A [for] loop that collects one result per element and stops at the first
    exception. *)
Fixpoint collect {A B : Type} (f : A -> outcome B) (l : list A) : outcome (list B) :=
  match l with
  | [] => Ret []
  | a :: t => b ← f a; bs ← collect f t; Ret (b :: bs)
  end.

(** ** Timestamps and monthly periods *)

(** The dates of the data set are calendar days. *)
Record Timestamp : Type := mkTs { ts_year : Z; ts_month : Z; ts_day : Z }.

(** Chronological order. *)
Definition ts_compare (a b : Timestamp) : comparison :=
  match ts_year a ?= ts_year b with
  | Eq => match ts_month a ?= ts_month b with
          | Eq => ts_day a ?= ts_day b
          | c => c
          end
  | c => c
  end.

Definition ts_eqb (a b : Timestamp) : bool :=
  match ts_compare a b with Eq => true | _ => false end.
Definition ts_ltb (a b : Timestamp) : bool :=
  match ts_compare a b with Lt => true | _ => false end.
Definition ts_leb (a b : Timestamp) : bool :=
  match ts_compare a b with Gt => false | _ => true end.

(** A value that may be [NaT] ([None]).  Every comparison with [NaT] is
    false. *)
Definition ts_lt (a b : option Timestamp) : bool :=
  match a, b with Some x, Some y => ts_ltb x y | _, _ => false end.
Definition ts_le (a b : option Timestamp) : bool :=
  match a, b with Some x, Some y => ts_leb x y | _, _ => false end.
Definition ts_eq (a b : option Timestamp) : bool :=
  match a, b with Some x, Some y => ts_eqb x y | _, _ => false end.

(** [Series.min()] and [Series.max()] of a date column; [NaT] when empty. *)
Definition ts_min (l : list Timestamp) : option Timestamp :=
  match l with
  | [] => None
  | x :: t => Some (fold_left (fun m y => if ts_ltb y m then y else m) t x)
  end.

Definition ts_max (l : list Timestamp) : option Timestamp :=
  match l with
  | [] => None
  | x :: t => Some (fold_left (fun m y => if ts_ltb m y then y else m) t x)
  end.

(** [.dt.to_period('M')]: the ordinal of the month, counted from 1970-01 as
    pandas does. *)
Definition to_period_M (t : Timestamp) : Z := (ts_year t - 1970) * 12 + (ts_month t - 1).

(** ** Data frames *)

Record Row (S D : Type) : Type := mkRow {
  state : S;                 (* the [state] column *)
  date : D;                  (* the [date] column *)
  cells : gmap string Z      (* the [int64] columns, by name *)
}.
Arguments mkRow {S D} state date cells.
Arguments state {S D} r.
Arguments date {S D} r.
Arguments cells {S D} r.

Record DataFrame (S D : Type) : Type := mkDF {
  columns : list string;     (* names of the [int64] columns, in order *)
  rows : list (Row S D)
}.
Arguments mkDF {S D} columns rows.
Arguments columns {S D} d.
Arguments rows {S D} d.

Section Frames.
Context {S D : Type}.

(** The cell of a row in column [c].  A row that lacks the cell, which in
    the code holds NaN there, reads as 0: [cell] is the value the code reads
    only for a row that holds the cell. *)
Definition cell (r : Row S D) (c : string) : Z := default 0 (cells r !! c).

(** The row with [v] stored in column [c]. *)
Definition set_cell (r : Row S D) (c : string) (v : Z) : Row S D :=
  mkRow (state r) (date r) (<[c := v]> (cells r)).

(** The row with another value in [state]. *)
Definition with_state {S' : Type} (r : Row S D) (s : S') : Row S' D :=
  mkRow s (date r) (cells r).

(** [c in df.columns] *)
Definition has_column (df : DataFrame S D) (c : string) : bool :=
  existsb (String.eqb c) (columns df).

(** The values of a column, top to bottom. *)
Definition column (df : DataFrame S D) (c : string) : list Z :=
  List.map (fun r => cell r c) (rows df).

(** [df[c]] *)
Definition getitem (df : DataFrame S D) (c : string) : outcome (list Z) :=
  if has_column df c then Ret (column df c) else Raise KeyError.

(** [df[c] = values]: overwrites the column, or appends a new one.  The code
    always assigns a Series computed from the frame itself, with one value
    per row. *)
Definition setitem (df : DataFrame S D) (c : string) (values : list Z) : DataFrame S D :=
  mkDF (if has_column df c then columns df else columns df ++ [c])
       (zip_with (fun r v => set_cell r c v) (rows df) values).

(** [df[mask]] for a mask computed row by row. *)
Definition select (p : Row S D -> bool) (df : DataFrame S D) : DataFrame S D :=
  mkDF (columns df) (List.filter p (rows df)).

(** [df[[c1, ..., cn]]] *)
Definition project (cs : list string) (df : DataFrame S D) : outcome (DataFrame S D) :=
  if forallb (has_column df) cs
  then Ret (mkDF cs (List.map (fun r =>
               mkRow (state r) (date r)
                     (list_to_map (List.map (fun c => (c, cell r c)) cs))) (rows df)))
  else Raise KeyError.
End Frames.

(** ** State name correction dictionary *)

(** The items of the dictionary literal, in source order. *)
Definition st_corr_items : list (string * string) :=
    [("andaman", "andaman and nicobar island");
     ("nicobar islands", "andaman and nicobar island");
     ("dadra", "dadra and nagar haveli");
     ("the dadra", "dadra and nagar haveli");
     ("nagar haveli", "dadra and nagar haveli");
     ("daman", "daman and diu");
     ("diu", "daman and diu");
     ("jammu", "jammu and kashmir");
     ("kashmir", "jammu and kashmir");
     ("orissa", "odisha");
     ("pondicherry", "puducherry");
     ("west  bengal", "west bengal");
     ("west bangal", "west bengal");
     ("westbengal", "west bengal");
     ("tamilnadu", "tamil nadu");
     ("uttaranchal", "uttarakhand");
     ("chhatisgarh", "chhattisgarh");
     ("west bengli", "west bengal");
     ("jaipur", "rajasthan");
     ("darbhanga", "bihar");
     ("puttenhalli", "karnataka");
     ("raja annamalai puram", "tamil nadu");
     ("nagpur", "maharashtra");
     ("madanapalle", "andhra pradesh");
     ("balanagar", "telangana")].

Definition st_corr : gmap string string := list_to_map st_corr_items.

(** [Series.replace(d)] on one value: a value that is a key of [d] becomes
    the value stored under it, any other value stays as it is. *)
Definition replace_value (d : gmap string string) (s : string) : string :=
  default s (d !! s).

(** ** The loader: [create] *)

(** An entry of a data folder: its name, and what [pd.read_csv] returns on
    it (the parsed frame, whose [date] column still holds text, or an
    exception). *)
Record File : Type := mkFile {
  fname : string;
  read_csv : outcome (DataFrame string string)
}.

(** [D_FOLDER]: each sub-folder with its listing, in [os.listdir] order. *)
Definition DataFolder : Type := gmap string (list File).

Section Cleaning.
Context {D : Type}.

(** [df['state'] = df['state'].f(...)]: a column rewritten value by value. *)
Definition map_state {S S' : Type} (f : S -> S') (df : DataFrame S D) : DataFrame S' D :=
  mkDF (columns df) (List.map (fun r => with_state r (f (state r))) (rows df)).

(** [df.explode('state')]: one row per element of the list in [state], the
    other columns repeated.  ([str.split] never returns an empty list, for
    which pandas would keep one row with a missing state.) *)
Definition explode (df : DataFrame (list string) D) : DataFrame string D :=
  mkDF (columns df) (flat_map (fun r => List.map (with_state r) (state r)) (rows df)).

(** Lines 100-118 of [create]: the cleaning of the [state] column, for a
    column of texts.  ([reset_index] renumbers the rows, which the model
    addresses by position.  On a column that [pd.read_csv] has read as
    numbers the [.str] methods raise [AttributeError], and a blank state
    stays NaN: neither is a frame of texts.) *)
Definition clean_state (df : DataFrame string D) : DataFrame string D :=
  let df := map_state Str.lower df in
  let df := map_state (Str.replace "&" ",") df in
  let df := map_state (Str.replace " and " ",") df in
  let df := map_state (Str.replace "/" ",") df in
  let df := map_state (Str.split ",") df in
  let df := explode df in
  let df := map_state Str.strip df in
  let df := select (fun r => negb (String.eqb (state r) "100000")) df in
  let df := map_state (replace_value st_corr) df in
  df.
End Cleaning.

(** [clean_state] on one value.  The candidates a region text is split
    into: lower-cased, cut at the separators and trimmed. *)
Definition candidates (s : string) : list string :=
  List.map Str.strip
    (Str.split ","
       (Str.replace "/" "," (Str.replace " and " "," (Str.replace "&" "," (Str.lower s))))).

(** The regions of a region text: its candidates other than the sentinel,
    after the correction dictionary. *)
Definition normalize (s : string) : list string :=
  List.map (replace_value st_corr)
    (List.filter (fun c => negb (String.eqb c "100000")) (candidates s)).

(** The columns of [a], then those of [b] that [a] lacks. *)
Definition union_columns (a b : list string) : list string :=
  a ++ List.filter (fun c => negb (existsb (String.eqb c) a)) b.

(** [pd.concat(dataframes, ignore_index=True)].  The files of one folder
    share their header; the columns of the result are those of the frames,
    in order of first appearance. *)
Definition pd_concat {S D : Type} (dfs : list (DataFrame S D)) : outcome (DataFrame S D) :=
  match dfs with
  | [] => Raise ValueError
  | _ => Ret (mkDF (fold_left union_columns (List.map columns dfs) [])
                   (flat_map rows dfs))
  end.

Section Create.
(** [pd.to_datetime(text, format='%d-%m-%Y')] on one value that is a text:
    the day it is parsed to, or [None] when pandas raises because the text
    does not match the format.  (A blank date is no text: pandas turns it
    into NaT, which a record of the model cannot hold.) *)
Variable strptime : string -> option Timestamp.

Definition parse_dates (df : DataFrame string string) : outcome (DataFrame string Timestamp) :=
  rs ← collect (fun r => match strptime (date r) with
                         | Some t => Ret (mkRow (state r) t (cells r))
                         | None => Raise ValueError
                         end) (rows df);
  Ret (mkDF (columns df) rs).

Definition create (data : DataFolder) (selected_folder : string)
  : outcome (DataFrame string Timestamp) :=
  match data !! selected_folder with
  | None => Raise FileNotFoundError
  | Some listing =>
      let csv_files := List.filter (fun f => Str.endswith (fname f) ".csv") listing in
      dataframes ← collect read_csv csv_files;
      df ← pd_concat dataframes;
      let df := clean_state df in
      parse_dates df
  end.
End Create.

(** The value of a decimal digit. *)
Definition digit (c : ascii) : option Z :=
  let n := N_of_ascii c in
  if ((48 <=? n) && (n <=? 57))%N then Some (Z.of_N n - 48) else None.

(** A parser for the format of the data set: two digits, a dash, two digits,
    a dash, four digits. *)
Definition parse_dmy (s : string) : option Timestamp :=
  match s with
  | String d1 (String d2 (String "-" (String m1 (String m2 (String "-"
      (String y1 (String y2 (String y3 (String y4 EmptyString))))))))) =>
      match digit d1, digit d2, digit m1, digit m2,
            digit y1, digit y2, digit y3, digit y4 with
      | Some a, Some b, Some c, Some d, Some e, Some f, Some g, Some h =>
          let dd := 10 * a + b in
          let mm := 10 * c + d in
          if (1 <=? dd) && (dd <=? 31) && (1 <=? mm) && (mm <=? 12)
          then Some (mkTs (1000 * e + 100 * f + 10 * g + h) mm dd)
          else None
      | _, _, _, _, _, _, _, _ => None
      end
  | _ => None
  end.

(** ** Grouping and summing *)

Section GroupKeys.
Context {K : Type} (eqb leb : K -> K -> bool).

(** Insertion of a key into an ascending list without repetition. *)
Fixpoint insert_key (k : K) (ks : list K) : list K :=
  match ks with
  | [] => [k]
  | k' :: t =>
      if eqb k k' then ks
      else if leb k k' then k :: ks
      else k' :: insert_key k t
  end.

(** The group keys of a [groupby]: the distinct keys, ascending
    ([sort=True] is the default). *)
Definition group_keys (ks : list K) : list K := fold_right insert_key [] ks.
End GroupKeys.

(** The sums of the columns [cs] over the rows of one group. *)
Definition sum_cells {S D : Type} (cs : list string) (g : list (Row S D)) : gmap string Z :=
  list_to_map (List.map (fun c => (c, sum64 (List.map (fun r => cell r c) g))) cs).

(** [df.groupby(keys, as_index=False)[cs].sum()], which is also
    [df.groupby(keys, as_index=False).agg({c: 'sum' for c in cs})]: one row
    per group key, built by [out] from the key and the sums of the group. *)
Definition groupby_sum {S D K S' : Type}
    (key : Row S D -> K) (eqb leb : K -> K -> bool)
    (out : K -> gmap string Z -> Row S' unit)
    (cs : list string) (rs : list (Row S D)) : list (Row S' unit) :=
  List.map (fun k => out k (sum_cells cs (List.filter (fun r => eqb (key r) k) rs)))
           (group_keys eqb leb (List.map key rs)).

Definition month_state_eqb (a b : Z * string) : bool :=
  (fst a =? fst b) && String.eqb (snd a) (snd b).
Definition month_state_leb (a b : Z * string) : bool :=
  (fst a <? fst b) || ((fst a =? fst b) && String.leb (snd a) (snd b)).

(** [df.groupby(["month", "state"], as_index=False)[cs].sum()] *)
Definition groupby_month_state {D : Type} (cs : list string) (df : DataFrame string D)
  : outcome (DataFrame string unit) :=
  if has_column df "month" && forallb (has_column df) cs
  then Ret (mkDF ("month" :: cs)
              (groupby_sum (fun r => (cell r "month", state r))
                           month_state_eqb month_state_leb
                           (fun k sums => mkRow (snd k) tt (<["month" := fst k]> sums))
                           cs (rows df)))
  else Raise KeyError.

(** [df.groupby('month', as_index=False).agg({c: 'sum', ...})] *)
Definition groupby_month {S D : Type} (cs : list string) (df : DataFrame S D)
  : outcome (DataFrame unit unit) :=
  if has_column df "month" && forallb (has_column df) cs
  then Ret (mkDF ("month" :: cs)
              (groupby_sum (fun r => cell r "month") Z.eqb Z.leb
                           (fun k sums => mkRow tt tt (<["month" := k]> sums))
                           cs (rows df)))
  else Raise KeyError.

(** [df.groupby('state', as_index=False).agg({c: 'sum', ...})] *)
Definition groupby_state {D : Type} (cs : list string) (df : DataFrame string D)
  : outcome (DataFrame string unit) :=
  if forallb (has_column df) cs
  then Ret (mkDF cs
              (groupby_sum (fun r => state r) String.eqb String.leb
                           (fun k sums => mkRow k tt sums)
                           cs (rows df)))
  else Raise KeyError.

(** ** Figures *)

(** What a saved figure shows: the frame it was drawn from, the columns
    drawn as bars and the columns drawn as lines (titles, colours and axis
    labels are left out). *)
Record Figure (S : Type) : Type := mkFigure {
  fig_data : DataFrame S unit;
  fig_bars : list string;
  fig_lines : list string
}.
Arguments mkFigure {S} fig_data fig_bars fig_lines.
Arguments fig_data {S} f.
Arguments fig_bars {S} f.
Arguments fig_lines {S} f.

(** The frame of canonical records: every record holds a region and a
    day. *)
Abbreviation Records := (DataFrame string Timestamp).
(** What a date-wise analysis returns: the summary table, the figure and
    the path of the figure. *)
Abbreviation DateResult := (DataFrame unit unit * Figure unit * string)%type.
(** What a state-wise analysis returns. *)
Abbreviation StateResult := (DataFrame string unit * Figure string * string)%type.

(** [df['month'] = df['date'].dt.to_period('M')] *)
Definition set_month (df : Records) : Records :=
  setitem df "month" (List.map (fun r => to_period_M (date r)) (rows df)).

(** ** Date-wise analyses *)

Definition enrol_date_wise (df : Records) (stv : string) : outcome DateResult * Records :=
  let df := set_month df in
  (mt ← groupby_month_state ["age_0_5"; "age_5_17"; "age_18_greater"; "total"] df;
   let c1 := 0 in
   '(dts, filename) ←
     (if negb (String.eqb stv "")
      then dts ← groupby_month ["age_0_5"; "age_5_17"; "age_18_greater"; "total"]
                   (select (fun r => String.eqb (state r) stv) mt);
           Ret (dts, ("date_plot_" ++ Str.replace " " "-" stv ++ ".png")%string)
      else dts ← groupby_month ["age_0_5"; "age_5_17"; "age_18_greater"; "total"] mt;
           Ret (dts, "date_plot.png"));
   let dts := setitem dts "c_age_0_5" (scalar_add c1 (cumsum (column dts "age_0_5"))) in
   let dts := setitem dts "c_age_5_17" (scalar_add c1 (cumsum (column dts "age_5_17"))) in
   let dts := setitem dts "c_age_18_greater"
                (scalar_add c1 (cumsum (column dts "age_18_greater"))) in
   let dts := setitem dts "c_total"
                (series_add (series_add (column dts "c_age_0_5") (column dts "c_age_5_17"))
                            (column dts "c_age_18_greater")) in
   let fig := mkFigure dts ["age_0_5"; "age_5_17"; "age_18_greater"; "total"]
                           ["c_age_0_5"; "c_age_5_17"; "c_age_18_greater"; "c_total"] in
   dts ← project ["month"; "age_0_5"; "age_5_17"; "age_18_greater"; "total"] dts;
   Ret (dts, fig, ("plots/" ++ filename)%string),
   df).

Definition bio_date_wise (df : Records) (stv : string) : outcome DateResult * Records :=
  let df := set_month df in
  (mt ← groupby_month_state ["bio_age_5_17"; "bio_age_17_"; "total"] df;
   let c1 := 0 in
   '(dts, filename) ←
     (if negb (String.eqb stv "")
      then dts ← groupby_month ["bio_age_5_17"; "bio_age_17_"; "total"]
                   (select (fun r => String.eqb (state r) stv) mt);
           Ret (dts, ("date_plot_" ++ Str.replace " " "-" stv ++ ".png")%string)
      else dts ← groupby_month ["bio_age_5_17"; "bio_age_17_"; "total"] mt;
           Ret (dts, "date_plot.png"));
   let dts := setitem dts "c_bio_age_5_17" (scalar_add c1 (cumsum (column dts "bio_age_5_17"))) in
   let dts := setitem dts "c_bio_age_17_" (scalar_add c1 (cumsum (column dts "bio_age_17_"))) in
   let dts := setitem dts "c_total"
                (series_add (column dts "c_bio_age_5_17") (column dts "c_bio_age_17_")) in
   let fig := mkFigure dts ["bio_age_5_17"; "bio_age_17_"; "total"]
                           ["c_bio_age_5_17"; "c_bio_age_17_"; "c_total"] in
   dts ← project ["month"; "bio_age_5_17"; "bio_age_17_"; "total"] dts;
   Ret (dts, fig, ("plots/" ++ filename)%string),
   df).

Definition demo_date_wise (df : Records) (stv : string) : outcome DateResult * Records :=
  let df := set_month df in
  (mt ← groupby_month_state ["demo_age_5_17"; "demo_age_17_"; "total"] df;
   let c1 := 0 in
   '(dts, filename) ←
     (if negb (String.eqb stv "")
      then dts ← groupby_month ["demo_age_5_17"; "demo_age_17_"; "total"]
                   (select (fun r => String.eqb (state r) stv) mt);
           Ret (dts, ("date_plot_" ++ Str.replace " " "-" stv ++ ".png")%string)
      else dts ← groupby_month ["demo_age_5_17"; "demo_age_17_"; "total"] mt;
           Ret (dts, "date_plot.png"));
   let dts := setitem dts "c_demo_age_5_17" (scalar_add c1 (cumsum (column dts "demo_age_5_17"))) in
   let dts := setitem dts "c_demo_age_17_" (scalar_add c1 (cumsum (column dts "demo_age_17_"))) in
   let dts := setitem dts "c_total"
                (series_add (column dts "c_demo_age_5_17") (column dts "c_demo_age_17_")) in
   let fig := mkFigure dts ["demo_age_5_17"; "demo_age_17_"; "total"]
                           ["c_demo_age_5_17"; "c_demo_age_17_"; "c_total"] in
   dts ← project ["month"; "demo_age_5_17"; "demo_age_17_"; "total"] dts;
   Ret (dts, fig, ("plots/" ++ filename)%string),
   df).

(** ** State-wise analyses *)

Section Analyses.
(** [pd.to_datetime(text)] on the text of a date bound: a timestamp,
    [NaT], or an exception. *)
Variable to_datetime : string -> outcome (option Timestamp).

Definition date_min (df : Records) : option Timestamp := ts_min (List.map date (rows df)).
Definition date_max (df : Records) : option Timestamp := ts_max (List.map date (rows df)).

(** [pd.to_datetime(s) if s != '' else df.date.min()] *)
Definition start_bound (df : Records) (s : string) : outcome (option Timestamp) :=
  if negb (String.eqb s "") then to_datetime s else Ret (date_min df).

(** [pd.to_datetime(e) if e != '' else df.date.max()] *)
Definition end_bound (df : Records) (e : string) : outcome (option Timestamp) :=
  if negb (String.eqb e "") then to_datetime e else Ret (date_max df).

(** [df['date'].between(s, e)] on one row: both ends included. *)
Definition between (s e : option Timestamp) (r : Row string Timestamp) : bool :=
  ts_le s (Some (date r)) && ts_le (Some (date r)) e.

Definition state_plot_name (df : Records) (s e : option Timestamp) : string :=
  if ts_eq s (date_min df) && ts_eq e (date_max df)
  then "state_plot.png" else "temp_state_plot.png".

Definition enrol_state_wise (df : Records) (s e : string) : outcome StateResult * Records :=
  (s ← start_bound df s;
   e ← end_bound df e;
   sts ← groupby_state ["age_0_5"; "age_5_17"; "age_18_greater"; "total"] df;
   sts ← (if ts_lt (date_min df) s || ts_lt e (date_max df)
          then groupby_state ["age_0_5"; "age_5_17"; "age_18_greater"; "total"]
                 (select (between s e) df)
          else Ret sts);
   let fig := mkFigure sts ["age_0_5"; "age_5_17"; "age_18_greater"] [] in
   let filename := state_plot_name df s e in
   Ret (sts, fig, ("plots/" ++ filename)%string),
   df).

Definition bio_state_wise (df : Records) (s e : string) : outcome StateResult * Records :=
  (s ← start_bound df s;
   e ← end_bound df e;
   sts ← groupby_state ["bio_age_5_17"; "bio_age_17_"; "total"] df;
   sts ← (if ts_lt (date_min df) s || ts_lt e (date_max df)
          then groupby_state ["bio_age_5_17"; "bio_age_17_"; "total"]
                 (select (between s e) df)
          else Ret sts);
   let fig := mkFigure sts ["bio_age_5_17"; "bio_age_17_"] [] in
   let filename := state_plot_name df s e in
   Ret (sts, fig, ("plots/" ++ filename)%string),
   df).

Definition demo_state_wise (df : Records) (s e : string) : outcome StateResult * Records :=
  (s ← start_bound df s;
   e ← end_bound df e;
   sts ← groupby_state ["demo_age_5_17"; "demo_age_17_"; "total"] df;
   sts ← (if ts_lt (date_min df) s || ts_lt e (date_max df)
          then groupby_state ["demo_age_5_17"; "demo_age_17_"; "total"]
                 (select (between s e) df)
          else Ret sts);
   let fig := mkFigure sts ["demo_age_5_17"; "demo_age_17_"] [] in
   let filename := state_plot_name df s e in
   Ret (sts, fig, ("plots/" ++ filename)%string),
   df).

(** ** Dispatchers *)

(** [df['total'] = df[a] + df[b]]: the frame is left as it was when a
    column is missing. *)
Definition set_total (df : Records) (total : outcome (list Z)) : outcome Records :=
  t ← total; Ret (setitem df "total" t).

(** The result of a dispatcher: [Ret None] is Python's [None], returned
    when no branch is taken. *)
Definition dispatch {A : Type} (df : Records) (total : outcome (list Z))
    (analysis : Records -> outcome A * Records) : outcome (option A) * Records :=
  match set_total df total with
  | Raise e => (Raise e, df)
  | Ret df => let '(res, df) := analysis df in (a ← res; Ret (Some a), df)
  end.

Definition date_wise (selected_folder : string) (df : Records) (stv : string)
  : outcome (option DateResult) * Records :=
  if String.eqb selected_folder "api_data_aadhar_enrolment" then
    dispatch df
      (a ← getitem df "age_0_5"; b ← getitem df "age_5_17";
       c ← getitem df "age_18_greater"; Ret (series_add (series_add a b) c))
      (fun df => enrol_date_wise df stv)
  else if String.eqb selected_folder "api_data_aadhar_biometric" then
    dispatch df
      (a ← getitem df "bio_age_5_17"; b ← getitem df "bio_age_17_"; Ret (series_add a b))
      (fun df => bio_date_wise df stv)
  else if String.eqb selected_folder "api_data_aadhar_demographic" then
    dispatch df
      (a ← getitem df "demo_age_5_17"; b ← getitem df "demo_age_17_"; Ret (series_add a b))
      (fun df => demo_date_wise df stv)
  else (Ret None, df).

Definition state_wise (selected_folder : string) (df : Records) (s e : string)
  : outcome (option StateResult) * Records :=
  if String.eqb selected_folder "api_data_aadhar_enrolment" then
    dispatch df
      (a ← getitem df "age_0_5"; b ← getitem df "age_5_17";
       c ← getitem df "age_18_greater"; Ret (series_add (series_add a b) c))
      (fun df => enrol_state_wise df s e)
  else if String.eqb selected_folder "api_data_aadhar_biometric" then
    dispatch df
      (a ← getitem df "bio_age_5_17"; b ← getitem df "bio_age_17_"; Ret (series_add a b))
      (fun df => bio_state_wise df s e)
  else if String.eqb selected_folder "api_data_aadhar_demographic" then
    dispatch df
      (a ← getitem df "demo_age_5_17"; b ← getitem df "demo_age_17_"; Ret (series_add a b))
      (fun df => demo_state_wise df s e)
  else (Ret None, df).
End Analyses.

(** * The home page *)

(** [Series.unique()]: the values in order of first appearance. *)
Definition unique (l : list string) : list string :=
  fold_left (fun seen x => if existsb (String.eqb x) seen then seen else seen ++ [x]) l [].

Fixpoint insort (x : string) (l : list string) : list string :=
  match l with
  | [] => [x]
  | y :: t => if String.leb x y then x :: l else y :: insort x t
  end.

(** [sorted(values)] on strings. *)
Definition sorted (l : list string) : list string := fold_right insort [] l.

Definition digit_of (n : Z) : ascii := ascii_of_N (48 + Z.to_N (n mod 10)).
Definition digits2 (n : Z) : string := String (digit_of (n / 10)) (String (digit_of n) "").
Definition digits4 (n : Z) : string :=
  String (digit_of (n / 1000)) (String (digit_of (n / 100)) (digits2 n)).

(** [Timestamp.strftime('%Y-%m-%d')]; a Timestamp holds a year of four
    digits. *)
Definition strftime (t : Timestamp) : string :=
  digits4 (ts_year t) ++ "-" ++ digits2 (ts_month t) ++ "-" ++ digits2 (ts_day t).

(** What the view reads of a request. *)
Record Request : Type := mkRequest { method : string; form : gmap string string }.

(** [request.form.get(key, default)] *)
Definition form_get (req : Request) (key dflt : string) : string :=
  match form req !! key with
  | Some v => v
  | None => dflt
  end.

(** The keyword arguments of [render_template("index.html", ...)]; [None]
    is Python's [None]. *)
Record Page : Type := mkPage {
  subfolders : list string;
  selected_folder : option string;
  date_table : option string;
  state_table : option string;
  date_plot : option string;
  state_plot : option string;
  states : list string;
  min_date : option string;
  max_date : option string;
  view_type : string }.

(** What a request ends in: a rendered page, or an exception that leaves
    the view.  [RaisedTypeError] is the [TypeError] of unpacking [None]. *)
Inductive reply : Type :=
| Rendered (page : Page)
| Raised (e : exn)
| RaisedTypeError.

Section Index.
Variable strptime : string -> option Timestamp.
Variable to_datetime : string -> outcome (option Timestamp).
(** [DataFrame.to_html(index=False)] *)
Variable to_html : forall S : Type, DataFrame S unit -> string.
(** [os.listdir(D_FOLDER)], each name with [os.path.isdir] of its path. *)
Variable listdir : outcome (list (string * bool)).
Variable data : DataFolder.

(** The view.  The figure an analysis saves is not part of the page; the
    frame is local to the request. *)
Definition index (req : Request) : reply :=
  match listdir with
  | Raise e => Raised e
  | Ret names =>
      let subfolders := List.map fst (List.filter snd names) in
      if String.eqb (method req) "POST" then
        let selected_folder := form_get req "datafolder" "" in
        let view_type := form_get req "view_type" "date" in
        let action := form_get req "action" "load" in
        match create strptime data selected_folder with
        | Raise e => Raised e
        | Ret df =>
            let states := sorted (unique (List.map state (rows df))) in
            match date_min df, date_max df with
            | Some lo, Some hi =>
                let min_date := strftime lo in
                let max_date := strftime hi in
                if String.eqb action "generate" then
                  if String.eqb view_type "date" then
                    let stv := form_get req "state_filter" "" in
                    match fst (date_wise selected_folder df stv) with
                    | Raise e => Raised e
                    | Ret None => RaisedTypeError
                    | Ret (Some (date_summary, _, date_plot)) =>
                        Rendered (mkPage subfolders (Some selected_folder)
                                    (Some (to_html unit date_summary)) None
                                    (Some date_plot) None
                                    states (Some min_date) (Some max_date) view_type)
                    end
                  else if String.eqb view_type "state" then
                    let s := form_get req "start_date" "" in
                    let e := form_get req "end_date" "" in
                    match fst (state_wise to_datetime selected_folder df s e) with
                    | Raise e => Raised e
                    | Ret None => RaisedTypeError
                    | Ret (Some (state_summary, _, state_plot)) =>
                        Rendered (mkPage subfolders (Some selected_folder)
                                    None (Some (to_html string state_summary))
                                    None (Some state_plot)
                                    states (Some min_date) (Some max_date) view_type)
                    end
                  else
                    Rendered (mkPage subfolders (Some selected_folder) None None None None
                                states (Some min_date) (Some max_date) view_type)
                else
                  Rendered (mkPage subfolders (Some selected_folder) None None None None
                              states (Some min_date) (Some max_date) view_type)
            | _, _ => Raised ValueError
            end
        end
      else
        Rendered (mkPage subfolders None None None None None [] None None "date")
  end.
End Index.

(** * Definitions used in the statements *)

(** The records one raw row is turned into. *)
Definition records_of {D : Type} (r : Row string D) : list (Row string D) :=
  List.map (with_state r) (normalize (state r)).

(** The sum a dispatcher stores in [total], row by row. *)
Definition enrol_total (r : Row string Timestamp) : Z :=
  add64 (add64 (cell r "age_0_5") (cell r "age_5_17")) (cell r "age_18_greater").

(** The same for the biometric data set. *)
Definition bio_total (r : Row string Timestamp) : Z :=
  add64 (cell r "bio_age_5_17") (cell r "bio_age_17_").

(** The same for the demographic data set. *)
Definition demo_total (r : Row string Timestamp) : Z :=
  add64 (cell r "demo_age_5_17") (cell r "demo_age_17_").

(** A Series computed from the columns of [df] one row at a time. *)
Definition rowwise (df : Records) (total : outcome (list Z))
    (f : Row string Timestamp -> Z) : Prop :=
  forall t, total = Ret t -> t = List.map f (rows df).

(** [r'] is [r] except, possibly, for the cells of the columns [cs]. *)
Definition same_outside (cs : list string) (r r' : Row string Timestamp) : Prop :=
  state r' = state r /\ date r' = date r
  /\ forall c, ~ In c cs -> cells r' !! c = cells r !! c.

(** [r'] is [r] with the month of its date stored in the column [month]. *)
Definition month_added (r r' : Row string Timestamp) : Prop :=
  same_outside ["month"] r r' /\ cells r' !! "month" = Some (to_period_M (date r)).

(** Congruence modulo [2^64]. *)
Definition eqm64 (a b : Z) : Prop := a mod 2^64 = b mod 2^64.

(** The sum of a list, in [Z]. *)
Definition zsum (l : list Z) : Z := fold_right Z.add 0 l.

(** In a row that satisfies [lin ms], [total] is the sum of the measures
    [ms], modulo [2^64]. *)
Definition lin {S D : Type} (ms : list string) (r : Row S D) : Prop :=
  eqm64 (cell r "total") (zsum (List.map (cell r) ms)).

(** [pd.to_datetime] restricted to the texts a date picker sends: four
    digits, a dash, two digits, a dash, two digits. *)
Definition parse_iso (s : string) : outcome (option Timestamp) :=
  match s with
  | String y1 (String y2 (String y3 (String y4 (String "-" (String m1 (String m2
      (String "-" (String d1 (String d2 EmptyString))))))))) =>
      match digit y1, digit y2, digit y3, digit y4,
            digit m1, digit m2, digit d1, digit d2 with
      | Some a, Some b, Some c, Some d, Some e, Some f, Some g, Some h =>
          let mm := 10 * e + f in
          let dd := 10 * g + h in
          if (1 <=? dd) && (dd <=? 31) && (1 <=? mm) && (mm <=? 12)
          then Ret (Some (mkTs (1000 * a + 100 * b + 10 * c + d) mm dd))
          else Raise ValueError
      | _, _, _, _, _, _, _, _ => Raise ValueError
      end
  | _ => Raise ValueError
  end.

(** A record of the enrolment data set. *)
Definition enrolment_row (s : string) (d : Timestamp) (a b c : Z) : Row string Timestamp :=
  mkRow s d (list_to_map [("age_0_5", a); ("age_5_17", b); ("age_18_greater", c)]).

(** The three records of the worked example: two for Bihar in January 2024
    and one for Odisha in February 2024. *)
Definition example_records : Records :=
  mkDF ["age_0_5"; "age_5_17"; "age_18_greater"]
       [enrolment_row "bihar" (mkTs 2024 1 5) 10 5 2;
        enrolment_row "bihar" (mkTs 2024 1 20) 3 1 0;
        enrolment_row "odisha" (mkTs 2024 2 10) 1 1 1].

(** Records for January and March 2024 only. *)
Definition sparse_records : Records :=
  mkDF ["age_0_5"; "age_5_17"; "age_18_greater"]
       [enrolment_row "bihar" (mkTs 2024 3 9) 4 0 1;
        enrolment_row "bihar" (mkTs 2024 1 5) 10 5 2;
        enrolment_row "odisha" (mkTs 2024 1 7) 1 1 1].

(** A record set that already holds [total] and not yet [month]. *)
Definition one_enrolment_record : Records :=
  mkDF ["age_0_5"; "age_5_17"; "age_18_greater"; "total"]
       [mkRow "bihar" (mkTs 2024 1 5)
              (list_to_map [("age_0_5", 10); ("age_5_17", 5);
                            ("age_18_greater", 2); ("total", 17)])].

(** A folder with one CSV file of one row, for the region "Daman & Diu". *)
Definition daman_folder : DataFolder :=
  {[ "api_data_aadhar_enrolment" :=
       [mkFile "part_0.csv"
          (Ret (mkDF ["age_0_5"; "age_5_17"; "age_18_greater"]
                  [mkRow "Daman & Diu" "01-03-2025"
                     (list_to_map [("age_0_5", 4); ("age_5_17", 2);
                                   ("age_18_greater", 1)])]))] ]}.

(** The columns each analysis sums: the measures of its data set and
    [total]. *)
Definition enrol_cols : list string := ["age_0_5"; "age_5_17"; "age_18_greater"; "total"].

(** The same for the biometric data set. *)
Definition bio_cols : list string := ["bio_age_5_17"; "bio_age_17_"; "total"].

(** The same for the demographic data set. *)
Definition demo_cols : list string := ["demo_age_5_17"; "demo_age_17_"; "total"].

(** The rows of [dts] before the cumulative columns are added: the sums per
    month and state, restricted to [stv] unless it is empty, summed again per
    month. *)
Definition monthly_rows (cs : list string) (stv : string) (rs : list (Row string Timestamp))
  : list (Row unit unit) :=
  let mt := groupby_sum (fun r => (cell r "month", state r)) month_state_eqb month_state_leb
              (fun k sums => mkRow (snd k) tt (<["month" := fst k]> sums)) cs rs in
  groupby_sum (fun r => cell r "month") Z.eqb Z.leb
    (fun k sums => mkRow tt tt (<["month" := k]> sums)) cs
    (if negb (String.eqb stv "")
     then List.filter (fun r => String.eqb (state r) stv) mt else mt).

(** The frame [dts] before the cumulative columns are added. *)
Definition monthly (cs : list string) (stv : string) (df : Records) : DataFrame unit unit :=
  mkDF ("month" :: cs) (monthly_rows cs stv (rows (set_month df))).

(** The file name of the figure of a date-wise analysis. *)
Definition plot_name (stv : string) : string :=
  if negb (String.eqb stv "")
  then ("date_plot_" ++ Str.replace " " "-" stv ++ ".png")%string else "date_plot.png".

(** The frame the figure of each analysis is drawn from. *)
Definition enrol_series (df : Records) (stv : string) : DataFrame unit unit :=
  let dts := monthly enrol_cols stv df in
  let dts := setitem dts "c_age_0_5" (scalar_add 0 (cumsum (column dts "age_0_5"))) in
  let dts := setitem dts "c_age_5_17" (scalar_add 0 (cumsum (column dts "age_5_17"))) in
  let dts := setitem dts "c_age_18_greater"
               (scalar_add 0 (cumsum (column dts "age_18_greater"))) in
  setitem dts "c_total"
    (series_add (series_add (column dts "c_age_0_5") (column dts "c_age_5_17"))
                (column dts "c_age_18_greater")).

(** The same for the biometric data set. *)
Definition bio_series (df : Records) (stv : string) : DataFrame unit unit :=
  let dts := monthly bio_cols stv df in
  let dts := setitem dts "c_bio_age_5_17" (scalar_add 0 (cumsum (column dts "bio_age_5_17"))) in
  let dts := setitem dts "c_bio_age_17_" (scalar_add 0 (cumsum (column dts "bio_age_17_"))) in
  setitem dts "c_total"
    (series_add (column dts "c_bio_age_5_17") (column dts "c_bio_age_17_")).

(** The same for the demographic data set. *)
Definition demo_series (df : Records) (stv : string) : DataFrame unit unit :=
  let dts := monthly demo_cols stv df in
  let dts := setitem dts "c_demo_age_5_17"
               (scalar_add 0 (cumsum (column dts "demo_age_5_17"))) in
  let dts := setitem dts "c_demo_age_17_"
               (scalar_add 0 (cumsum (column dts "demo_age_17_"))) in
  setitem dts "c_total"
    (series_add (column dts "c_demo_age_5_17") (column dts "c_demo_age_17_")).

(** The three folder names the dispatchers know. *)
Definition known_folder (folder : string) : Prop :=
  folder = "api_data_aadhar_enrolment" \/ folder = "api_data_aadhar_biometric"
  \/ folder = "api_data_aadhar_demographic".

(** The measure columns of each data set. *)
Definition measures_of (folder : string) : list string :=
  if String.eqb folder "api_data_aadhar_enrolment"
  then ["age_0_5"; "age_5_17"; "age_18_greater"]
  else if String.eqb folder "api_data_aadhar_biometric"
  then ["bio_age_5_17"; "bio_age_17_"]
  else if String.eqb folder "api_data_aadhar_demographic"
  then ["demo_age_5_17"; "demo_age_17_"]
  else [].

(** The sum stored in [total] for each data set. *)
Definition total_of (folder : string) : Row string Timestamp -> Z :=
  if String.eqb folder "api_data_aadhar_enrolment" then enrol_total
  else if String.eqb folder "api_data_aadhar_biometric" then bio_total
  else demo_total.

(** The frame drawn for each data set. *)
Definition series_of (folder : string) : Records -> string -> DataFrame unit unit :=
  if String.eqb folder "api_data_aadhar_enrolment" then enrol_series
  else if String.eqb folder "api_data_aadhar_biometric" then bio_series
  else demo_series.

(** The record set once a dispatcher has assigned [total]. *)
Definition with_total (folder : string) (df : Records) : Records :=
  mkDF (if has_column df "total" then columns df else columns df ++ ["total"])
       (List.map (fun r => set_cell r "total" (total_of folder r)) (rows df)).

(** The result of a dispatcher that returned one. *)
Definition result_of {A : Type} (o : outcome (option A)) (d : A) : A :=
  match o with
  | Ret (Some a) => a
  | _ => d
  end.

(** A table without columns and rows. *)
Definition empty_table {S : Type} : DataFrame S unit := mkDF [] [].

(** What the date-wise analysis returns on [sparse_records]. *)
Definition sparse_result : DateResult :=
  result_of (fst (date_wise "api_data_aadhar_enrolment" sparse_records ""))
            (empty_table, mkFigure empty_table [] [], "").

(** What the date-wise analysis returns on [example_records]. *)
Definition example_result : DateResult :=
  result_of (fst (date_wise "api_data_aadhar_enrolment" example_records ""))
            (empty_table, mkFigure empty_table [] [], "").

(** Every character of a text passes the test [p]. *)
Fixpoint all_chars (p : ascii -> bool) (s : string) : bool :=
  match s with
  | EmptyString => true
  | String c t => p c && all_chars p t
  end.

(** The characters [create] turns into commas. *)
Definition is_separator (c : ascii) : bool :=
  Ascii.eqb c "&" || Ascii.eqb c "/" || Ascii.eqb c ",".

(** A region name as [create] leaves it: in lower case, without space
    around it, without any of the characters [&], [/] and [,], and other
    than the sentinel. *)
Definition cleaned (s : string) : Prop :=
  Str.lower s = s /\ Str.strip s = s
  /\ all_chars (fun c => negb (is_separator c)) s = true
  /\ s <> "100000".

(** The frame [pd.concat] builds from a non-empty list of frames. *)
Definition concatenated {S D : Type} (frames : list (DataFrame S D)) : DataFrame S D :=
  mkDF (fold_left union_columns (List.map columns frames) []) (flat_map rows frames).

(** Strict lexicographic order on texts, by code point. *)
Definition string_lt (a b : string) : Prop := String.compare a b = Lt.

(** Strict order on the keys (month, state). *)
Definition month_state_lt (a b : Z * string) : Prop :=
  fst a < fst b \/ (fst a = fst b /\ string_lt (snd a) (snd b)).

(** The value a dispatcher works with in column [c] of a record: the sum of
    the measures for [total], the cell of the record otherwise. *)
Definition value_of (folder : string) (r : Row string Timestamp) (c : string) : Z :=
  if String.eqb c "total" then total_of folder r else cell r c.

(** The table of a state-wise analysis for the bounds [ts] and [te]: the
    sums per state over the records dated from [ts] to [te], both
    included. *)
Definition table_by_state (folder : string) (df : Records) (ts te : Timestamp)
  : DataFrame string unit :=
  mkDF (measures_of folder ++ ["total"])
       (groupby_sum (fun r => state r) String.eqb String.leb
                    (fun k sums => mkRow k tt sums)
                    (measures_of folder ++ ["total"])
                    (List.filter (between (Some ts) (Some te))
                                 (rows (with_total folder df)))).

(** A state passes the region filter [stv]: every state does when [stv] is
    empty. *)
Definition passes (stv : string) (x : string) : bool :=
  String.eqb stv "" || String.eqb x stv.

(** The [int64] sum of column [c] over the records of month [m] that pass
    the region filter. *)
Definition month_sum (folder : string) (df : Records) (stv : string) (m : Z) (c : string)
  : Z :=
  wrap64 (zsum (List.map (fun r => value_of folder r c)
                  (List.filter (fun r => (to_period_M (date r) =? m) && passes stv (state r))
                               (rows df)))).

(** A frame whose only row with a bad date is a sentinel row, and a folder
    whose only file holds it. *)
Definition sentinel_frame : DataFrame string string :=
  mkDF ["age_0_5"]
       [mkRow "100000" "no date" {[ "age_0_5" := 1 ]};
        mkRow "Goa" "02-01-2024" {[ "age_0_5" := 2 ]}].

Definition sentinel_folder : DataFolder :=
  {[ "api_data_aadhar_enrolment" := [mkFile "a.csv" (Ret sentinel_frame)] ]}.

(** The records [create] returns for [daman_folder]. *)
Definition daman_records : Records :=
  mkDF ["age_0_5"; "age_5_17"; "age_18_greater"]
       [enrolment_row "daman and diu" (mkTs 2025 3 1) 4 2 1;
        enrolment_row "daman and diu" (mkTs 2025 3 1) 4 2 1].

(** A data directory with a folder that is none of the three data sets and
    a folder whose only file has a header and no row. *)
Definition other_data : DataFolder :=
  {[ "aadhar_saturation" :=
       [mkFile "part_0.csv"
          (Ret (mkDF ["persons"]
                  [mkRow "Goa" "01-03-2025" (list_to_map [("persons", 7)])]))];
     "api_data_aadhar_biometric" :=
       [mkFile "header.csv" (Ret (mkDF ["bio_age_5_17"; "bio_age_17_"] []))] ]}.

(** A POST request with the given fields. *)
Definition post (fields : list (string * string)) : Request :=
  mkRequest "POST" (list_to_map fields).

(** A request to generate the date-wise view of the enrolment data, and the
    page it is answered with when tables are rendered as "<table>". *)
Definition generate_request : Request :=
  post [("datafolder", "api_data_aadhar_enrolment"); ("action", "generate")].

Definition generated_page : Page :=
  mkPage ["api_data_aadhar_enrolment"] (Some "api_data_aadhar_enrolment")
         (Some "<table>") None (Some "plots/date_plot.png") None
         ["daman and diu"] (Some "2025-03-01") (Some "2025-03-01") "date".

(** ** Frames without missing values *)

(** A value an [int64] column can hold. *)
Definition int64 (z : Z) : bool := (- 2^63 <=? z) && (z <? 2^63).

(** Every record of [df] holds an [int64] in each measure column of the data
    set.  In the code a record that lacks one (a blank cell, or a file
    whose header lacks the column) holds NaN there and the column is a
    column of floats; the statements on sums are about frames without such
    a record, where [cell] is the value the code reads. *)
Definition int64_measures (folder : string) (df : Records) : bool :=
  forallb (fun r => forallb (fun c => match cells r !! c with
                                      | Some v => int64 v
                                      | None => false
                                      end)
                            (measures_of folder))
          (rows df).

(** The letters that occur in none of the spellings [pd.read_csv] takes for
    a number, a boolean or a missing value (digits, signs, [e], [inf],
    [nan], [true], [false], [NA], [null], [None], [#N/A], [1.#QNAN],
    [-1.#IND], hexadecimal digits). *)
Definition text_letter (c : ascii) : bool :=
  existsb (Ascii.eqb c) (list_ascii_of_string "ghkmpvwzGHKMPVWZ").

(** A state that [pd.read_csv] reads as a text: a column that holds one is
    a column of texts, on which the [.str] methods of [create] work. *)
Definition reads_as_text (s : string) : bool :=
  negb (all_chars (fun c => negb (text_letter c)) s).

(** The state column of a frame read from one file is a column of texts:
    the frame has no row, or a row whose state reads as a text. *)
Definition text_states {D : Type} (df : DataFrame string D) : bool :=
  match rows df with
  | [] => true
  | _ => existsb (fun r => reads_as_text (state r)) (rows df)
  end.

(** ** Calendar months *)

(** Chronological order on calendar months (year, month). *)
Definition calendar_lt (a b : Z * Z) : Prop :=
  fst a < fst b \/ (fst a = fst b /\ snd a < snd b).

(** The ordinal pandas gives the calendar month [ym] in a column of monthly
    periods: the number of months since January 1970. *)
Definition month_ordinal (ym : Z * Z) : Z := (fst ym - 1970) * 12 + (snd ym - 1).

(** The calendar month with ordinal [m]. *)
Definition calendar_month (m : Z) : Z * Z := (1970 + m / 12, m mod 12 + 1).

(** * Properties *)

(** ** The string methods and the date parser, on examples *)

Example lower_ex : Str.lower "Daman & Diu" = "daman & diu".
Proof. reflexivity. Qed.

Example replace_and_ex : Str.replace " and " "," "a and and b and c" = "a,and b,c".
Proof. reflexivity. Qed.

Example replace_empty_ex : Str.replace "" "-" "ab" = "-a-b-".
Proof. reflexivity. Qed.

Example split_ex : Str.split "," "a,,b," = ["a"; ""; "b"; ""].
Proof. reflexivity. Qed.

Example strip_ex : Str.strip "  west  bengal " = "west  bengal".
Proof. reflexivity. Qed.

Example endswith_ex :
  Str.endswith "a.csv" ".csv" = true /\ Str.endswith "csv" ".csv" = false.
Proof. split; reflexivity. Qed.

Example parse_dmy_ex : parse_dmy "05-01-2024" = Some (mkTs 2024 1 5).
Proof. reflexivity. Qed.

Lemma split_nonempty (sep : ascii) (s : string) : Str.split sep s <> [].
Proof.
  destruct s as [| c t]; cbn [Str.split]; [discriminate |].
  destruct (Ascii.eqb c sep); [discriminate |].
  destruct (Str.split sep t); discriminate.
Qed.

(** ** The correction dictionary *)

(** No key is written twice in the dictionary literal, so every item is an
    entry of the dictionary. *)
Lemma st_corr_keys_distinct : List.NoDup (List.map fst st_corr_items).
Proof. apply NoDup_ListNoDup. apply (bool_decide_unpack _). vm_compute. exact I. Qed.

Lemma st_corr_values_are_not_keys :
  map_Forall (fun _ v => st_corr !! v = None) st_corr.
Proof.
  apply map_Forall_to_list.
  let l := eval vm_compute in (map_to_list st_corr) in
  change (map_to_list st_corr) with l.
  repeat (constructor; [vm_compute; reflexivity |]).
  constructor.
Qed.

Lemma replace_value_fixed (s v : string) :
  st_corr !! s = Some v -> replace_value st_corr v = v.
Proof.
  intros Hs. unfold replace_value.
  now rewrite (st_corr_values_are_not_keys s v Hs).
Qed.

(** C9: the alias substitution is idempotent, and no value of the
    correction dictionary is itself one of its keys. *)
Theorem C9_alias_substitution_idempotent :
  (forall s : string,
      replace_value st_corr (replace_value st_corr s) = replace_value st_corr s)
  /\ map_Forall (fun _ v => st_corr !! v = None) st_corr.
Proof.
  split; [| exact st_corr_values_are_not_keys].
  intros s. unfold replace_value at 2 3.
  destruct (st_corr !! s) as [v |] eqn:Hs; simpl.
  - now apply replace_value_fixed with s.
  - unfold replace_value. now rewrite Hs.
Qed.

(** ** Cleaning of the [state] column *)

Section CleaningFacts.
Context {D : Type}.
Implicit Types (r : Row string D) (df : DataFrame string D).

Lemma fan_out_one (r0 : Row string D) (l : list string) :
  List.map (fun r : Row string D => with_state r (replace_value st_corr (state r)))
    (List.filter (fun r : Row string D => negb (String.eqb (state r) "100000"))
       (List.map (fun r : Row string D => with_state r (Str.strip (state r)))
          (List.map (with_state r0) l)))
  = List.map (with_state r0)
      (List.map (replace_value st_corr)
         (List.filter (fun c => negb (String.eqb c "100000")) (List.map Str.strip l))).
Proof.
  induction l as [| c l IH]; simpl; [reflexivity |].
  destruct (negb (String.eqb (Str.strip c) "100000")); simpl; now rewrite IH.
Qed.

(** [clean_state] works row by row: the cleaned frame is the
    concatenation of the records of each raw row, in order. *)
Lemma clean_state_rows df :
  rows (clean_state df) = flat_map records_of (rows df).
Proof.
  unfold clean_state, map_state, explode, select; simpl.
  induction (rows df) as [| r rs IH]; simpl; [reflexivity |].
  rewrite !List.map_app, List.filter_app, List.map_app.
  fold (@flat_map (Row (list string) D) (Row string D)).
  rewrite IH. f_equal.
  unfold records_of, normalize, candidates.
  rewrite <- fan_out_one. reflexivity.
Qed.

Lemma clean_state_app cols (pre post : list (Row string D)) r :
  rows (clean_state (mkDF cols (pre ++ r :: post)))
  = rows (clean_state (mkDF cols pre)) ++ records_of r
      ++ rows (clean_state (mkDF cols post)).
Proof.
  rewrite !clean_state_rows; simpl.
  rewrite List.flat_map_app. reflexivity.
Qed.
End CleaningFacts.

Lemma normalize_daman_and_diu :
  normalize "Daman & Diu" = ["daman and diu"; "daman and diu"].
Proof. vm_compute. reflexivity. Qed.

Lemma normalize_jammu_and_kashmir :
  normalize "Jammu and Kashmir" = ["jammu and kashmir"; "jammu and kashmir"].
Proof. vm_compute. reflexivity. Qed.

(** C1, what the code does where the claim asks for one record: a raw row
    whose region text is "Daman & Diu" is turned into two records, both
    with region "daman and diu", and a row with "Jammu and Kashmir" into
    two records, both with region "jammu and kashmir".  The correction
    dictionary maps both halves of each name back to the one name, and the
    values of the row are repeated in each record, so that every sum counts
    the row twice. *)
Theorem C1_alias_tokens_give_two_records :
  forall (D : Type) (cols : list string) (pre post : list (Row string D))
         (d : D) (cs : gmap string Z),
    rows (clean_state (mkDF cols (pre ++ mkRow "Daman & Diu" d cs :: post)))
    = rows (clean_state (mkDF cols pre))
        ++ [mkRow "daman and diu" d cs; mkRow "daman and diu" d cs]
        ++ rows (clean_state (mkDF cols post))
    /\
    rows (clean_state (mkDF cols (pre ++ mkRow "Jammu and Kashmir" d cs :: post)))
    = rows (clean_state (mkDF cols pre))
        ++ [mkRow "jammu and kashmir" d cs; mkRow "jammu and kashmir" d cs]
        ++ rows (clean_state (mkDF cols post)).
Proof.
  intros D cols pre post d cs. split; rewrite clean_state_app; unfold records_of; simpl state.
  - rewrite normalize_daman_and_diu. reflexivity.
  - rewrite normalize_jammu_and_kashmir. reflexivity.
Qed.

(** C1 fails on the code: the row "Daman & Diu" does not give exactly one
    record. *)
Lemma C1_one_record_refuted :
  ~ (exists rec : Row string string,
        rows (clean_state (mkDF ["age_0_5"]
                [mkRow "Daman & Diu" "01-01-2024" {[ "age_0_5" := 7 ]}])) = [rec]
        /\ state rec = "daman and diu").
Proof.
  intros [rec [H _]].
  rewrite clean_state_rows in H. cbn [rows flat_map] in H.
  unfold records_of in H. cbn [state] in H.
  rewrite normalize_daman_and_diu in H.
  discriminate H.
Qed.



(** ** Loading *)

(** C10: when the folder exists but lists no file whose name ends in
    ".csv", [create] does not return an empty frame: the concatenation of
    zero frames raises. *)
Theorem C10_folder_without_csv_fails :
  forall (strptime : string -> option Timestamp) (data : DataFolder)
         (selected_folder : string) (listing : list File),
    data !! selected_folder = Some listing ->
    List.filter (fun f => Str.endswith (fname f) ".csv") listing = [] ->
    create strptime data selected_folder = Raise ValueError.
Proof.
  intros strptime data folder listing Hdir Hcsv.
  unfold create. rewrite Hdir, Hcsv. reflexivity.
Qed.

Lemma C10_folder_without_csv_witness :
  create parse_dmy
    {[ "api_data_aadhar_enrolment" := [mkFile "README.txt" (Raise ParserError)] ]}
    "api_data_aadhar_enrolment"
  = Raise ValueError.
Proof.
  apply (C10_folder_without_csv_fails parse_dmy _ _
           [mkFile "README.txt" (Raise ParserError)]).
  - vm_compute. reflexivity.
  - vm_compute. reflexivity.
Defined.

(** What [create] has done when it returns a frame: the listing was read,
    its CSV files parsed and concatenated, the states cleaned and the dates
    parsed. *)
Lemma create_inv (strptime : string -> option Timestamp) (data : DataFolder)
    (selected_folder : string) (df : Records) :
  create strptime data selected_folder = Ret df ->
  exists listing frames raw,
    data !! selected_folder = Some listing
    /\ collect read_csv (List.filter (fun f => Str.endswith (fname f) ".csv") listing)
       = Ret frames
    /\ pd_concat frames = Ret raw
    /\ parse_dates strptime (clean_state raw) = Ret df.
Proof.
  unfold create. destruct (data !! selected_folder) as [listing |]; [| discriminate].
  destruct (collect read_csv _) as [frames | err] eqn:Hread; [| discriminate].
  cbn [mbind outcome_bind bind].
  destruct (pd_concat frames) as [raw | err] eqn:Hcat; [| discriminate].
  cbn [mbind outcome_bind bind]. intros H. now exists listing, frames, raw.
Qed.

Lemma collect_Forall2 {A B : Type} (f : A -> outcome B) (l : list A) (l' : list B) :
  collect f l = Ret l' -> Forall2 (fun a b => f a = Ret b) l l'.
Proof.
  revert l'. induction l as [| a l IH]; intros l'; cbn [collect].
  - intros [= <-]. constructor.
  - destruct (f a) as [b | err] eqn:Hfa; [| discriminate]. cbn [mbind outcome_bind bind].
    destruct (collect f l) as [bs | err]; [| discriminate]. cbn [mbind outcome_bind bind].
    intros [= <-]. constructor; [exact Hfa | now apply IH].
Qed.

(** Parsing the dates keeps the rows, in order, with their state and their
    cells. *)
Lemma parse_dates_rows (strptime : string -> option Timestamp)
    (raw : DataFrame string string) (df : Records) :
  parse_dates strptime raw = Ret df ->
  columns df = columns raw
  /\ Forall2 (fun r r' => state r' = state r /\ strptime (date r) = Some (date r')
                          /\ cells r' = cells r)
             (rows raw) (rows df).
Proof.
  unfold parse_dates.
  destruct (collect _ (rows raw)) as [rs | err] eqn:Hrs; [| discriminate].
  cbn [mbind outcome_bind bind]. intros [= <-]. split; [reflexivity |]. cbn [rows].
  apply collect_Forall2 in Hrs.
  induction Hrs as [| r r' l l' Hr _ IH]; constructor; [| exact IH].
  destruct (strptime (date r)) as [t |]; [| discriminate].
  injection Hr as <-. auto.
Qed.

(** Loaded from that folder, the row is two records. *)
Example create_daman_and_diu :
  create parse_dmy daman_folder "api_data_aadhar_enrolment"
  = Ret (mkDF ["age_0_5"; "age_5_17"; "age_18_greater"]
           [enrolment_row "daman and diu" (mkTs 2025 3 1) 4 2 1;
            enrolment_row "daman and diu" (mkTs 2025 3 1) 4 2 1]).
Proof. vm_compute. reflexivity. Qed.

(** ** Frames: columns read and assigned row by row *)

Lemma zip_with_map_map {A B C E : Type} (f : B -> C -> E) (g : A -> B) (h : A -> C)
    (l : list A) :
  zip_with f (List.map g l) (List.map h l) = List.map (fun x => f (g x) (h x)) l.
Proof. induction l as [| x l IH]; simpl; [reflexivity | now rewrite IH]. Qed.

Lemma zip_with_map_r_same {A B C : Type} (f : A -> B -> C) (g : A -> B) (l : list A) :
  zip_with f l (List.map g l) = List.map (fun x => f x (g x)) l.
Proof. induction l as [| x l IH]; simpl; [reflexivity | now rewrite IH]. Qed.

Lemma series_add_map {A : Type} (g h : A -> Z) (l : list A) :
  series_add (List.map g l) (List.map h l) = List.map (fun x => add64 (g x) (h x)) l.
Proof. apply zip_with_map_map. Qed.

Section FrameFacts.
Context {S D : Type}.
Implicit Types (df : DataFrame S D) (r : Row S D).

Lemma getitem_ret df c v : getitem df c = Ret v -> v = column df c.
Proof. unfold getitem. destruct (has_column df c); congruence. Qed.

Lemma setitem_rows df c (f : Row S D -> Z) :
  rows (setitem df c (List.map f (rows df)))
  = List.map (fun r => set_cell r c (f r)) (rows df).
Proof. unfold setitem; simpl. apply zip_with_map_r_same. Qed.

Lemma cell_set_cell_eq r c v : cell (set_cell r c v) c = v.
Proof. unfold cell, set_cell; simpl. now rewrite lookup_insert_eq. Qed.

Lemma cell_set_cell_ne r c c' v : c <> c' -> cell (set_cell r c v) c' = cell r c'.
Proof. intros Hne. unfold cell, set_cell; simpl. now rewrite lookup_insert_ne. Qed.

Lemma map_date_set_cell c (f : Row S D -> Z) (l : list (Row S D)) :
  List.map date (List.map (fun r => set_cell r c (f r)) l) = List.map date l.
Proof. rewrite List.map_map. apply List.map_ext. reflexivity. Qed.
End FrameFacts.

Lemma enrol_total_rowwise (df : Records) :
  rowwise df (a ← getitem df "age_0_5"; b ← getitem df "age_5_17";
              c ← getitem df "age_18_greater"; Ret (series_add (series_add a b) c))
          enrol_total.
Proof.
  intros t. unfold getitem.
  destruct (has_column df "age_0_5"), (has_column df "age_5_17"),
    (has_column df "age_18_greater"); simpl; try discriminate.
  intros [= <-]. unfold column. now rewrite !series_add_map.
Qed.

Lemma bio_total_rowwise (df : Records) :
  rowwise df (a ← getitem df "bio_age_5_17"; b ← getitem df "bio_age_17_";
              Ret (series_add a b))
          bio_total.
Proof.
  intros t. unfold getitem.
  destruct (has_column df "bio_age_5_17"), (has_column df "bio_age_17_");
    simpl; try discriminate.
  intros [= <-]. unfold column. now rewrite !series_add_map.
Qed.

Lemma demo_total_rowwise (df : Records) :
  rowwise df (a ← getitem df "demo_age_5_17"; b ← getitem df "demo_age_17_";
              Ret (series_add a b))
          demo_total.
Proof.
  intros t. unfold getitem.
  destruct (has_column df "demo_age_5_17"), (has_column df "demo_age_17_");
    simpl; try discriminate.
  intros [= <-]. unfold column. now rewrite !series_add_map.
Qed.

(** What [df['total'] = ...] leaves behind. *)
Lemma set_total_ret (df df' : Records) total f :
  rowwise df total f ->
  set_total df total = Ret df' ->
  df' = mkDF (if has_column df "total" then columns df else columns df ++ ["total"])
             (List.map (fun r => set_cell r "total" (f r)) (rows df)).
Proof.
  intros Hrow. unfold set_total.
  destruct total as [t | e]; simpl; [| discriminate].
  intros [= <-]. rewrite (Hrow t eq_refl).
  unfold setitem at 1. f_equal. apply zip_with_map_r_same.
Qed.

Lemma set_total_dates (df df' : Records) total f :
  rowwise df total f ->
  set_total df total = Ret df' ->
  List.map date (rows df') = List.map date (rows df).
Proof.
  intros Hrow Hset. rewrite (set_total_ret _ _ _ _ Hrow Hset); simpl.
  apply map_date_set_cell.
Qed.

(** ** Dispatchers *)

Section DispatcherFacts.
Variable to_datetime : string -> outcome (option Timestamp).

(** C2, as the code has it: for a folder name that is none of the three
    known ones, neither dispatcher raises; each returns [None] and leaves
    the frame as it was. *)
Theorem C2_unknown_folder_returns_none :
  forall (selected_folder : string) (df : Records) (stv s e : string),
    selected_folder <> "api_data_aadhar_enrolment" ->
    selected_folder <> "api_data_aadhar_biometric" ->
    selected_folder <> "api_data_aadhar_demographic" ->
    date_wise selected_folder df stv = (Ret None, df)
    /\ state_wise to_datetime selected_folder df s e = (Ret None, df).
Proof.
  intros folder df stv s e H1 H2 H3.
  apply String.eqb_neq in H1, H2, H3.
  unfold date_wise, state_wise. rewrite H1, H2, H3. split; reflexivity.
Qed.

Lemma start_bound_default (df df' : Records) (s : string) :
  List.map date (rows df') = List.map date (rows df) ->
  to_datetime s = Ret (date_min df) ->
  start_bound to_datetime df' s = Ret (date_min df').
Proof.
  intros Hd Hs. unfold start_bound, date_min in *. rewrite Hd.
  destruct (negb (String.eqb s "")); [exact Hs | reflexivity].
Qed.

Lemma end_bound_default (df df' : Records) (e : string) :
  List.map date (rows df') = List.map date (rows df) ->
  to_datetime e = Ret (date_max df) ->
  end_bound to_datetime df' e = Ret (date_max df').
Proof.
  intros Hd He. unfold end_bound, date_max in *. rewrite Hd.
  destruct (negb (String.eqb e "")); [exact He | reflexivity].
Qed.

(** The three state-wise analyses read their bounds through
    [start_bound] and [end_bound] only. *)
Lemma state_wise_by_bounds (df : Records) (s e s' e' : string) :
  start_bound to_datetime df s = start_bound to_datetime df s' ->
  end_bound to_datetime df e = end_bound to_datetime df e' ->
  enrol_state_wise to_datetime df s e = enrol_state_wise to_datetime df s' e'
  /\ bio_state_wise to_datetime df s e = bio_state_wise to_datetime df s' e'
  /\ demo_state_wise to_datetime df s e = demo_state_wise to_datetime df s' e'.
Proof.
  intros Hs He.
  unfold enrol_state_wise, bio_state_wise, demo_state_wise.
  rewrite Hs, He. repeat split; reflexivity.
Qed.

(** C4: the region aggregation called with the texts of the smallest and
    the largest date of the record set returns what it returns when called
    with no bounds. *)
Theorem C4_default_range_is_full_range :
  forall (selected_folder : string) (df : Records) (s e : string),
    to_datetime s = Ret (date_min df) ->
    to_datetime e = Ret (date_max df) ->
    state_wise to_datetime selected_folder df s e
    = state_wise to_datetime selected_folder df "" "".
Proof.
  intros folder df s e Hs He.
  assert (Hgen : forall (df' : Records),
             List.map date (rows df') = List.map date (rows df) ->
             enrol_state_wise to_datetime df' s e = enrol_state_wise to_datetime df' "" ""
             /\ bio_state_wise to_datetime df' s e = bio_state_wise to_datetime df' "" ""
             /\ demo_state_wise to_datetime df' s e = demo_state_wise to_datetime df' "" "").
  { intros df' Hd. apply state_wise_by_bounds.
    - now rewrite (start_bound_default df df' s Hd Hs).
    - now rewrite (end_bound_default df df' e Hd He). }
  unfold state_wise.
  destruct (String.eqb folder "api_data_aadhar_enrolment");
    [| destruct (String.eqb folder "api_data_aadhar_biometric");
       [| destruct (String.eqb folder "api_data_aadhar_demographic"); [| reflexivity]]];
    unfold dispatch;
    match goal with
    | |- context [set_total df ?t] => destruct (set_total df t) as [df' | err] eqn:Hset
    end; try reflexivity.
  - pose proof (set_total_dates _ _ _ _ (enrol_total_rowwise df) Hset) as Hd.
    now rewrite (proj1 (Hgen df' Hd)).
  - pose proof (set_total_dates _ _ _ _ (bio_total_rowwise df) Hset) as Hd.
    now rewrite (proj1 (proj2 (Hgen df' Hd))).
  - pose proof (set_total_dates _ _ _ _ (demo_total_rowwise df) Hset) as Hd.
    now rewrite (proj2 (proj2 (Hgen df' Hd))).
Qed.
End DispatcherFacts.

(** ** What the analyses leave behind in the record set *)

Lemma Forall2_map_same {A B : Type} (P : A -> B -> Prop) (f : A -> B) (l : list A) :
  (forall x, P x (f x)) -> Forall2 P l (List.map f l).
Proof. intros H. induction l; simpl; constructor; auto. Qed.

Lemma same_outside_refl cs r : same_outside cs r r.
Proof. repeat split. Qed.

Lemma same_outside_set_cell cs r c v : In c cs -> same_outside cs r (set_cell r c v).
Proof.
  intros Hin. repeat split. intros c' Hc'. simpl.
  apply lookup_insert_ne. intros ->. contradiction.
Qed.

Lemma same_outside_trans cs r1 r2 r3 :
  same_outside cs r1 r2 -> same_outside cs r2 r3 -> same_outside cs r1 r3.
Proof.
  intros (Hs1 & Hd1 & Hc1) (Hs2 & Hd2 & Hc2). repeat split; try congruence.
  intros c Hc. rewrite (Hc2 c Hc). now apply Hc1.
Qed.

Lemma set_month_rows (df : Records) :
  rows (set_month df)
  = List.map (fun r => set_cell r "month" (to_period_M (date r))) (rows df).
Proof. unfold set_month. apply (setitem_rows df "month"). Qed.

Lemma set_month_adds_month (df : Records) :
  Forall2 month_added (rows df) (rows (set_month df)).
Proof.
  rewrite set_month_rows. apply Forall2_map_same. intros r. split.
  - apply same_outside_set_cell. now left.
  - simpl. apply lookup_insert_eq.
Qed.

Lemma set_month_outside_total_month (df : Records) :
  Forall2 (same_outside ["total"; "month"]) (rows df) (rows (set_month df)).
Proof.
  rewrite set_month_rows. apply Forall2_map_same. intros r.
  apply same_outside_set_cell. right. now left.
Qed.

Lemma set_total_outside (df df' : Records) total f cs :
  In "total" cs ->
  rowwise df total f ->
  set_total df total = Ret df' ->
  Forall2 (same_outside cs) (rows df) (rows df').
Proof.
  intros Hin Hrow Hset. rewrite (set_total_ret _ _ _ _ Hrow Hset); simpl.
  apply Forall2_map_same. intros r. now apply same_outside_set_cell.
Qed.

Lemma Forall2_same_outside_refl cs (l : list (Row string Timestamp)) :
  Forall2 (same_outside cs) l l.
Proof. induction l; constructor; auto using same_outside_refl. Qed.

Lemma Forall2_same_outside_trans cs (l1 l2 l3 : list (Row string Timestamp)) :
  Forall2 (same_outside cs) l1 l2 -> Forall2 (same_outside cs) l2 l3 ->
  Forall2 (same_outside cs) l1 l3.
Proof.
  intros H12. revert l3. induction H12 as [| a b l1 l2 Hab _ IH]; intros l3 H23.
  - inversion H23. constructor.
  - inversion H23 as [| b' c l2' l3' Hbc Hrest]; subst. constructor.
    + now apply same_outside_trans with b.
    + now apply IH.
Qed.

(** C7, as the specification states it, fails: the date-wise analysis
    changes the record set it is given. *)
Lemma C7_date_wise_changes_records :
  snd (enrol_date_wise one_enrolment_record "") <> one_enrolment_record
  /\ snd (date_wise "api_data_aadhar_enrolment" one_enrolment_record "")
     <> one_enrolment_record.
Proof.
  split; intros H; apply (f_equal columns) in H; vm_compute in H; discriminate H.
Qed.

Section FrameEffects.
Variable to_datetime : string -> outcome (option Timestamp).

(** C7, as the code has it: the three state-wise analyses leave the record
    set exactly as it was; the three date-wise analyses keep the records,
    their order, their state, their date and every column but [month], in
    which they store the month of each record's date.  Through the
    dispatchers, no column other than [total] (and [month], date-wise) is
    touched. *)
Theorem C7_frame_left_by_the_analyses :
  forall (selected_folder : string) (df : Records) (stv s e : string),
    (snd (enrol_state_wise to_datetime df s e) = df
     /\ snd (bio_state_wise to_datetime df s e) = df
     /\ snd (demo_state_wise to_datetime df s e) = df)
    /\ (Forall2 month_added (rows df) (rows (snd (enrol_date_wise df stv)))
        /\ Forall2 month_added (rows df) (rows (snd (bio_date_wise df stv)))
        /\ Forall2 month_added (rows df) (rows (snd (demo_date_wise df stv))))
    /\ Forall2 (same_outside ["total"; "month"]) (rows df)
         (rows (snd (date_wise selected_folder df stv)))
    /\ Forall2 (same_outside ["total"]) (rows df)
         (rows (snd (state_wise to_datetime selected_folder df s e))).
Proof.
  intros folder df stv s e.
  split; [repeat split |].
  split; [repeat split; apply set_month_adds_month |].
  assert (Hin : In "total" ["total"; "month"]) by now left.
  split; [| clear Hin; assert (Hin : In "total" ["total"]) by now left].
  - unfold date_wise.
    destruct (String.eqb folder "api_data_aadhar_enrolment");
      [| destruct (String.eqb folder "api_data_aadhar_biometric");
         [| destruct (String.eqb folder "api_data_aadhar_demographic");
            [| apply Forall2_same_outside_refl]]];
      unfold dispatch;
      match goal with
      | |- context [set_total df ?t] => destruct (set_total df t) as [df' | err] eqn:Hset
      end; simpl; try apply Forall2_same_outside_refl;
      (apply Forall2_same_outside_trans with (rows df');
       [| apply set_month_outside_total_month]).
    + exact (set_total_outside _ _ _ _ _ Hin (enrol_total_rowwise df) Hset).
    + exact (set_total_outside _ _ _ _ _ Hin (bio_total_rowwise df) Hset).
    + exact (set_total_outside _ _ _ _ _ Hin (demo_total_rowwise df) Hset).
  - unfold state_wise.
    destruct (String.eqb folder "api_data_aadhar_enrolment");
      [| destruct (String.eqb folder "api_data_aadhar_biometric");
         [| destruct (String.eqb folder "api_data_aadhar_demographic");
            [| apply Forall2_same_outside_refl]]];
      unfold dispatch;
      match goal with
      | |- context [set_total df ?t] => destruct (set_total df t) as [df' | err] eqn:Hset
      end; simpl; try apply Forall2_same_outside_refl.
    + exact (set_total_outside _ _ _ _ _ Hin (enrol_total_rowwise df) Hset).
    + exact (set_total_outside _ _ _ _ _ Hin (bio_total_rowwise df) Hset).
    + exact (set_total_outside _ _ _ _ _ Hin (demo_total_rowwise df) Hset).
Qed.
End FrameEffects.

(** ** [int64] arithmetic *)

Lemma pow63 : 2^63 = 9223372036854775808.
Proof. reflexivity. Qed.

Lemma pow64 : 2^64 = 18446744073709551616.
Proof. reflexivity. Qed.

#[global] Instance eqm64_equiv : Equivalence eqm64.
Proof.
  split.
  - intros a. reflexivity.
  - intros a b H. symmetry. exact H.
  - intros a b c H1 H2. unfold eqm64 in *. congruence.
Qed.

#[global] Instance eqm64_add : Proper (eqm64 ==> eqm64 ==> eqm64) Z.add.
Proof.
  intros a a' Ha b b' Hb. unfold eqm64 in *.
  rewrite (Zplus_mod a b), (Zplus_mod a' b'). now rewrite Ha, Hb.
Qed.

Lemma wrap64_eqm (z : Z) : eqm64 (wrap64 z) z.
Proof.
  unfold eqm64, wrap64.
  rewrite Zminus_mod_idemp_l. f_equal. lia.
Qed.

Lemma wrap64_range (z : Z) : - 2^63 <= wrap64 z < 2^63.
Proof.
  unfold wrap64. rewrite pow63, pow64.
  pose proof (Z.mod_pos_bound (z + 9223372036854775808) 18446744073709551616
                ltac:(lia)).
  lia.
Qed.

(** [wrap64] depends on its argument modulo [2^64] only. *)
#[global] Instance wrap64_proper : Proper (eqm64 ==> eq) wrap64.
Proof.
  intros a b H. unfold wrap64. f_equal.
  change (eqm64 (a + 2^63) (b + 2^63)). now rewrite H.
Qed.

Lemma wrap64_id (z : Z) : - 2^63 <= z < 2^63 -> wrap64 z = z.
Proof.
  unfold wrap64. rewrite pow63, pow64. intros H. rewrite Z.mod_small; lia.
Qed.

Lemma wrap64_idem (z : Z) : wrap64 (wrap64 z) = wrap64 z.
Proof. apply wrap64_id, wrap64_range. Qed.

Lemma add64_eqm (a b : Z) : eqm64 (add64 a b) (a + b).
Proof. apply wrap64_eqm. Qed.

#[global] Instance add64_proper : Proper (eqm64 ==> eqm64 ==> eq) add64.
Proof. intros a a' Ha b b' Hb. unfold add64. now rewrite Ha, Hb. Qed.

Lemma fold_add64_eqm (l : list Z) (acc : Z) : eqm64 (fold_left add64 l acc) (acc + zsum l).
Proof.
  revert acc. induction l as [| x l IH]; intros acc; simpl.
  - now rewrite Z.add_0_r.
  - rewrite IH, add64_eqm. now rewrite Z.add_assoc.
Qed.

Lemma sum64_eqm (l : list Z) : eqm64 (sum64 l) (zsum l).
Proof. unfold sum64. now rewrite fold_add64_eqm. Qed.

Lemma fold_add64_range (l : list Z) (acc : Z) :
  - 2^63 <= acc < 2^63 -> - 2^63 <= fold_left add64 l acc < 2^63.
Proof.
  revert acc. induction l as [| x l IH]; intros acc H; simpl; [exact H |].
  apply IH, wrap64_range.
Qed.

Lemma sum64_range (l : list Z) : - 2^63 <= sum64 l < 2^63.
Proof. apply fold_add64_range. rewrite pow63. lia. Qed.

Lemma zsum_eqm (l l' : list Z) : Forall2 eqm64 l l' -> eqm64 (zsum l) (zsum l').
Proof.
  induction 1 as [| x y l l' Hxy _ IH]; simpl; [reflexivity |]. now rewrite Hxy, IH.
Qed.

Lemma length_cumsum_from (l : list Z) (acc : Z) :
  List.length (cumsum_from acc l) = List.length l.
Proof. revert acc. induction l; intros acc; simpl; auto. Qed.

(** ** Group keys and group sums *)

Section GroupKeysFacts.
Context {K : Type} (eqb leb : K -> K -> bool).
Hypothesis eqb_spec : forall a b, eqb a b = true <-> a = b.

Lemma In_insert_key (k x : K) (ks : list K) :
  In x (insert_key eqb leb k ks) <-> x = k \/ In x ks.
Proof.
  induction ks as [| k' ks IH]; simpl.
  - intuition.
  - destruct (eqb k k') eqn:Heq.
    + apply eqb_spec in Heq. subst k'. simpl. intuition.
    + destruct (leb k k'); simpl; [intuition |].
      rewrite IH. intuition.
Qed.

(** The keys of the groups are exactly the keys that occur. *)
Lemma In_group_keys (x : K) (ks : list K) :
  In x (group_keys eqb leb ks) <-> In x ks.
Proof.
  induction ks as [| k ks IH]; simpl; [reflexivity |].
  rewrite In_insert_key, IH. intuition.
Qed.

Lemma group_keys_nil_inv (ks : list K) : group_keys eqb leb ks = [] -> ks = [].
Proof.
  destruct ks as [| k ks]; [reflexivity |]. intros H.
  assert (Hin : In k (group_keys eqb leb (k :: ks))) by (apply In_group_keys; now left).
  rewrite H in Hin. contradiction.
Qed.
End GroupKeysFacts.

Lemma insert_key_sorted (k : Z) (ks : list Z) :
  StronglySorted Z.lt ks -> StronglySorted Z.lt (insert_key Z.eqb Z.leb k ks).
Proof.
  induction 1 as [| a ks Hs IH Ha]; simpl.
  - repeat constructor.
  - destruct (Z.eqb_spec k a) as [-> | Hne]; [now constructor |].
    destruct (Z.leb_spec k a) as [Hle | Hgt].
    + constructor; [now constructor |].
      constructor; [lia |].
      eapply Forall_impl; [| exact Ha]. simpl. intros; lia.
    + constructor; [exact IH |].
      apply List.Forall_forall. intros x Hx.
      apply (proj1 (In_insert_key Z.eqb Z.leb Z.eqb_eq _ _ _)) in Hx as [-> | Hx]; [lia |].
      rewrite List.Forall_forall in Ha. now apply Ha.
Qed.

(** The month keys of a [groupby] come out strictly ascending. *)
Lemma group_keys_sorted (ks : list Z) : StronglySorted Z.lt (group_keys Z.eqb Z.leb ks).
Proof.
  induction ks as [| k ks IH]; simpl; [constructor |]. now apply insert_key_sorted.
Qed.

Lemma month_state_eqb_spec (a b : Z * string) : month_state_eqb a b = true <-> a = b.
Proof.
  destruct a as [m s], b as [m' s']. unfold month_state_eqb; simpl.
  rewrite andb_true_iff, Z.eqb_eq, String.eqb_eq. split.
  - intros [-> ->]. reflexivity.
  - intros [= -> ->]. now split.
Qed.

Lemma lookup_sum_cells {S D : Type} (cs : list string) (g : list (Row S D)) (c : string) :
  sum_cells cs g !! c
  = if existsb (String.eqb c) cs
    then Some (sum64 (List.map (fun r => cell r c) g)) else None.
Proof.
  unfold sum_cells. induction cs as [| c' cs IH]; simpl.
  - apply lookup_empty.
  - destruct (String.eqb_spec c c') as [-> | Hne].
    + simpl. apply lookup_insert_eq.
    + simpl. rewrite lookup_insert_ne by congruence. exact IH.
Qed.

Section GroupBySumFacts.
Context {S D K S' : Type}.
Variables (key : Row S D -> K) (eqb leb : K -> K -> bool)
          (out : K -> gmap string Z -> Row S' unit) (cs : list string).
Hypothesis eqb_spec : forall a b, eqb a b = true <-> a = b.

(** Every row of the result is built from the key and the sums of a group
    that has at least one row. *)
Lemma In_groupby_sum (rs : list (Row S D)) (r' : Row S' unit) :
  In r' (groupby_sum key eqb leb out cs rs)
  <-> exists r, In r rs
        /\ r' = out (key r)
                    (sum_cells cs (List.filter (fun x => eqb (key x) (key r)) rs)).
Proof.
  unfold groupby_sum. rewrite in_map_iff. split.
  - intros (k & <- & Hk). apply (proj1 (In_group_keys eqb leb eqb_spec _ _)) in Hk.
    apply in_map_iff in Hk as (r & <- & Hr). now exists r.
  - intros (r & Hr & ->). exists (key r). split; [reflexivity |].
    apply (In_group_keys eqb leb eqb_spec). now apply in_map.
Qed.

Lemma groupby_sum_nil_inv (rs : list (Row S D)) :
  groupby_sum key eqb leb out cs rs = [] -> rs = [].
Proof.
  unfold groupby_sum. intros H. apply map_eq_nil in H.
  apply (group_keys_nil_inv eqb leb eqb_spec) in H. now apply map_eq_nil in H.
Qed.
End GroupBySumFacts.

(** ** Unknown folders and default bounds, on sample data *)

Lemma C2_unknown_folder_witness :
  date_wise "api_data_aadhar_update" example_records "" = (Ret None, example_records)
  /\ state_wise parse_iso "api_data_aadhar_update" example_records "" ""
     = (Ret None, example_records).
Proof.
  apply (C2_unknown_folder_returns_none parse_iso "api_data_aadhar_update"
           example_records "" "" ""); discriminate.
Defined.

(** C2, as the specification states it, fails: on an unknown folder name
    neither dispatcher ends in an exception. *)
Lemma C2_unknown_folder_does_not_raise :
  ~ (exists err, fst (date_wise "api_data_aadhar_update" example_records "") = Raise err)
  /\ ~ (exists err,
          fst (state_wise parse_iso "api_data_aadhar_update" example_records "" "")
          = Raise err).
Proof.
  split; intros [err H]; vm_compute in H; discriminate H.
Qed.

Lemma C4_default_range_witness :
  state_wise parse_iso "api_data_aadhar_enrolment" example_records
             "2024-01-05" "2024-02-10"
  = state_wise parse_iso "api_data_aadhar_enrolment" example_records "" "".
Proof.
  apply (C4_default_range_is_full_range parse_iso "api_data_aadhar_enrolment"
           example_records "2024-01-05" "2024-02-10").
  - vm_compute. reflexivity.
  - vm_compute. reflexivity.
Defined.

(** ** Columns of a frame after assignments *)

Section ColumnFacts.
Context {S D : Type}.
Implicit Types (df : DataFrame S D).

Lemma length_column df c : List.length (column df c) = List.length (rows df).
Proof. unfold column. apply List.length_map. Qed.

Lemma has_column_setitem df c vs c' :
  has_column (setitem df c vs) c' = has_column df c' || String.eqb c' c.
Proof.
  unfold setitem, has_column; cbn [columns].
  destruct (existsb (String.eqb c) (columns df)) eqn:Hc.
  - destruct (String.eqb_spec c' c) as [-> | Hne].
    + rewrite Hc. reflexivity.
    + now rewrite orb_false_r.
  - rewrite existsb_app. cbn [existsb]. now rewrite orb_false_r.
Qed.

Lemma length_rows_setitem df c vs :
  List.length vs = List.length (rows df) ->
  List.length (rows (setitem df c vs)) = List.length (rows df).
Proof.
  unfold setitem; cbn [rows]. revert vs.
  induction (rows df) as [| r rs IH]; intros [| v vs] H; simpl in *; try lia.
  f_equal. apply IH. lia.
Qed.

(** Reading a column after an assignment of as many values as the frame has
    rows. *)
Lemma column_setitem df c vs c' :
  List.length vs = List.length (rows df) ->
  column (setitem df c vs) c' = if String.eqb c' c then vs else column df c'.
Proof.
  unfold column, setitem; cbn [rows]. revert vs.
  induction (rows df) as [| r rs IH]; intros [| v vs] H; simpl in *; try lia.
  - now destruct (String.eqb c' c).
  - specialize (IH vs ltac:(lia)).
    destruct (String.eqb_spec c' c) as [-> | Hne].
    + f_equal; [apply cell_set_cell_eq | exact IH].
    + f_equal; [apply cell_set_cell_ne; congruence | exact IH].
Qed.

Lemma project_ret df cs :
  forallb (has_column df) cs = true ->
  project cs df
  = Ret (mkDF cs (List.map (fun r =>
             mkRow (state r) (date r)
                   (list_to_map (List.map (fun c => (c, cell r c)) cs))) (rows df))).
Proof. intros H. unfold project. now rewrite H. Qed.

Lemma lookup_projected_cells (r : Row S D) (cs : list string) (c : string) :
  existsb (String.eqb c) cs = true ->
  (list_to_map (List.map (fun c => (c, cell r c)) cs) : gmap string Z) !! c
  = Some (cell r c).
Proof.
  induction cs as [| c' cs IH]; simpl; [discriminate |].
  destruct (String.eqb_spec c c') as [-> | Hne]; simpl.
  - intros _. apply lookup_insert_eq.
  - intros H. rewrite lookup_insert_ne by congruence. now apply IH.
Qed.

(** A projection keeps the values of the columns it selects. *)
Lemma column_project df cs tbl c :
  project cs df = Ret tbl ->
  existsb (String.eqb c) cs = true ->
  column tbl c = column df c.
Proof.
  unfold project. destruct (forallb (has_column df) cs); [| discriminate].
  intros [= <-] Hc. unfold column; cbn [rows].
  rewrite List.map_map. apply List.map_ext. intros r.
  unfold cell at 1; cbn [cells]. now rewrite lookup_projected_cells.
Qed.

Lemma rows_project_length df cs tbl :
  project cs df = Ret tbl -> List.length (rows tbl) = List.length (rows df).
Proof.
  unfold project. destruct (forallb (has_column df) cs); [| discriminate].
  intros [= <-]. cbn [rows]. apply List.length_map.
Qed.
End ColumnFacts.

Lemma length_scalar_add (c : Z) (s : list Z) :
  List.length (scalar_add c s) = List.length s.
Proof. apply List.length_map. Qed.

Lemma length_cumsum (l : list Z) : List.length (cumsum l) = List.length l.
Proof. apply length_cumsum_from. Qed.

Lemma length_series_add (a b : list Z) :
  List.length a = List.length b -> List.length (series_add a b) = List.length a.
Proof.
  unfold series_add. revert b.
  induction a as [| x a IH]; intros [| y b] H; simpl in *; try lia.
  f_equal. apply IH. lia.
Qed.

Lemma nth_series_add (a b : list Z) (i : nat) :
  List.length a = List.length b ->
  nth i (series_add a b) 0 = add64 (nth i a 0) (nth i b 0).
Proof.
  unfold series_add. revert b i.
  induction a as [| x a IH]; intros [| y b] i H; simpl in *; try lia.
  - destruct i; reflexivity.
  - destruct i as [| i]; [reflexivity |]. apply IH. lia.
Qed.

(** Side conditions on lengths. *)
Ltac lengths :=
  repeat first
    [ reflexivity
    | rewrite length_scalar_add
    | rewrite length_cumsum
    | rewrite length_column
    | rewrite length_series_add
    | rewrite length_rows_setitem ].

(** ** The date-wise analyses, without their control flow *)

Lemma has_column_set_month (df : Records) : has_column (set_month df) "month" = true.
Proof.
  unfold set_month. rewrite has_column_setitem. apply orb_true_r.
Qed.

Lemma enrol_date_wise_eq (df : Records) (stv : string) :
  enrol_date_wise df stv
  = (if forallb (has_column (set_month df)) enrol_cols
     then tbl ← project ["month"; "age_0_5"; "age_5_17"; "age_18_greater"; "total"]
                  (enrol_series df stv);
          Ret (tbl,
               mkFigure (enrol_series df stv)
                 ["age_0_5"; "age_5_17"; "age_18_greater"; "total"]
                 ["c_age_0_5"; "c_age_5_17"; "c_age_18_greater"; "c_total"],
               ("plots/" ++ plot_name stv)%string)
     else Raise KeyError,
     set_month df).
Proof.
  unfold enrol_date_wise. f_equal. unfold groupby_month_state.
  rewrite has_column_set_month. cbn [andb].
  change ["age_0_5"; "age_5_17"; "age_18_greater"; "total"] with enrol_cols.
  destruct (forallb (has_column (set_month df)) enrol_cols); [| reflexivity].
  unfold enrol_series, monthly, monthly_rows, plot_name.
  destruct (negb (String.eqb stv "")); reflexivity.
Qed.

Lemma bio_date_wise_eq (df : Records) (stv : string) :
  bio_date_wise df stv
  = (if forallb (has_column (set_month df)) bio_cols
     then tbl ← project ["month"; "bio_age_5_17"; "bio_age_17_"; "total"]
                  (bio_series df stv);
          Ret (tbl,
               mkFigure (bio_series df stv)
                 ["bio_age_5_17"; "bio_age_17_"; "total"]
                 ["c_bio_age_5_17"; "c_bio_age_17_"; "c_total"],
               ("plots/" ++ plot_name stv)%string)
     else Raise KeyError,
     set_month df).
Proof.
  unfold bio_date_wise. f_equal. unfold groupby_month_state.
  rewrite has_column_set_month. cbn [andb].
  change ["bio_age_5_17"; "bio_age_17_"; "total"] with bio_cols.
  destruct (forallb (has_column (set_month df)) bio_cols); [| reflexivity].
  unfold bio_series, monthly, monthly_rows, plot_name.
  destruct (negb (String.eqb stv "")); reflexivity.
Qed.

Lemma demo_date_wise_eq (df : Records) (stv : string) :
  demo_date_wise df stv
  = (if forallb (has_column (set_month df)) demo_cols
     then tbl ← project ["month"; "demo_age_5_17"; "demo_age_17_"; "total"]
                  (demo_series df stv);
          Ret (tbl,
               mkFigure (demo_series df stv)
                 ["demo_age_5_17"; "demo_age_17_"; "total"]
                 ["c_demo_age_5_17"; "c_demo_age_17_"; "c_total"],
               ("plots/" ++ plot_name stv)%string)
     else Raise KeyError,
     set_month df).
Proof.
  unfold demo_date_wise. f_equal. unfold groupby_month_state.
  rewrite has_column_set_month. cbn [andb].
  change ["demo_age_5_17"; "demo_age_17_"; "total"] with demo_cols.
  destruct (forallb (has_column (set_month df)) demo_cols); [| reflexivity].
  unfold demo_series, monthly, monthly_rows, plot_name.
  destruct (negb (String.eqb stv "")); reflexivity.
Qed.

Ltac series_columns :=
  cbv zeta;
  repeat (rewrite column_setitem by lengths; cbn [String.eqb Ascii.eqb Bool.eqb]);
  repeat split; reflexivity.

Lemma enrol_series_columns (df : Records) (stv : string) :
  let dts := monthly enrol_cols stv df in
  let cA := scalar_add 0 (cumsum (column dts "age_0_5")) in
  let cB := scalar_add 0 (cumsum (column dts "age_5_17")) in
  let cC := scalar_add 0 (cumsum (column dts "age_18_greater")) in
  column (enrol_series df stv) "month" = column dts "month"
  /\ column (enrol_series df stv) "total" = column dts "total"
  /\ column (enrol_series df stv) "c_age_0_5" = cA
  /\ column (enrol_series df stv) "c_age_5_17" = cB
  /\ column (enrol_series df stv) "c_age_18_greater" = cC
  /\ column (enrol_series df stv) "c_total" = series_add (series_add cA cB) cC.
Proof. intros dts cA cB cC. unfold enrol_series. fold dts. series_columns. Qed.

Lemma bio_series_columns (df : Records) (stv : string) :
  let dts := monthly bio_cols stv df in
  let cA := scalar_add 0 (cumsum (column dts "bio_age_5_17")) in
  let cB := scalar_add 0 (cumsum (column dts "bio_age_17_")) in
  column (bio_series df stv) "month" = column dts "month"
  /\ column (bio_series df stv) "total" = column dts "total"
  /\ column (bio_series df stv) "c_bio_age_5_17" = cA
  /\ column (bio_series df stv) "c_bio_age_17_" = cB
  /\ column (bio_series df stv) "c_total" = series_add cA cB.
Proof. intros dts cA cB. unfold bio_series. fold dts. series_columns. Qed.

Lemma demo_series_columns (df : Records) (stv : string) :
  let dts := monthly demo_cols stv df in
  let cA := scalar_add 0 (cumsum (column dts "demo_age_5_17")) in
  let cB := scalar_add 0 (cumsum (column dts "demo_age_17_")) in
  column (demo_series df stv) "month" = column dts "month"
  /\ column (demo_series df stv) "total" = column dts "total"
  /\ column (demo_series df stv) "c_demo_age_5_17" = cA
  /\ column (demo_series df stv) "c_demo_age_17_" = cB
  /\ column (demo_series df stv) "c_total" = series_add cA cB.
Proof. intros dts cA cB. unfold demo_series. fold dts. series_columns. Qed.

(** ** The months of a time series *)

Lemma column_month_groupby {S D : Type} (cs : list string) (rs : list (Row S D)) :
  List.map (fun r => cell r "month")
    (groupby_sum (fun r => cell r "month") Z.eqb Z.leb
                 (fun k sums => mkRow tt tt (<["month" := k]> sums)) cs rs)
  = group_keys Z.eqb Z.leb (List.map (fun r => cell r "month") rs).
Proof.
  unfold groupby_sum. rewrite List.map_map.
  rewrite <- (List.map_id (group_keys _ _ _)) at 2.
  apply List.map_ext. intros k. unfold cell; cbn [cells].
  now rewrite lookup_insert_eq.
Qed.

(** The rows of the sums per month and state, one for each pair that
    occurs. *)
Lemma In_month_state_groups (cs : list string) (rs : list (Row string Timestamp))
    (r' : Row string unit) :
  In r' (groupby_sum (fun r => (cell r "month", state r)) month_state_eqb month_state_leb
           (fun k sums => mkRow (snd k) tt (<["month" := fst k]> sums)) cs rs) ->
  exists r, In r rs /\ state r' = state r /\ cell r' "month" = cell r "month".
Proof.
  intros H. apply (In_groupby_sum _ _ _ _ _ month_state_eqb_spec) in H.
  destruct H as (r & Hr & ->). exists r. split; [exact Hr |]. split; [reflexivity |].
  unfold cell at 1; cbn [cells fst]. now rewrite lookup_insert_eq.
Qed.

Lemma month_state_groups_cover (cs : list string) (rs : list (Row string Timestamp))
    (r : Row string Timestamp) :
  In r rs ->
  exists r', In r' (groupby_sum (fun r => (cell r "month", state r))
                      month_state_eqb month_state_leb
                      (fun k sums => mkRow (snd k) tt (<["month" := fst k]> sums)) cs rs)
             /\ state r' = state r /\ cell r' "month" = cell r "month".
Proof.
  intros Hr. eexists. split.
  - apply (In_groupby_sum _ _ _ _ _ month_state_eqb_spec). exists r. split; [exact Hr |].
    reflexivity.
  - split; [reflexivity |]. unfold cell at 1; cbn [cells fst]. now rewrite lookup_insert_eq.
Qed.

Lemma In_set_month_rows (df : Records) (r : Row string Timestamp) :
  In r (rows (set_month df))
  <-> exists r0, In r0 (rows df)
        /\ r = set_cell r0 "month" (to_period_M (date r0)).
Proof.
  rewrite set_month_rows, in_map_iff. split.
  - intros (r0 & <- & H0). now exists r0.
  - intros (r0 & H0 & ->). now exists r0.
Qed.

Lemma monthly_months (cs : list string) (stv : string) (df : Records) :
  column (monthly cs stv df) "month"
  = group_keys Z.eqb Z.leb
      (List.map (fun r => cell r "month")
         (let mt := groupby_sum (fun r => (cell r "month", state r))
                      month_state_eqb month_state_leb
                      (fun k sums => mkRow (snd k) tt (<["month" := fst k]> sums))
                      cs (rows (set_month df)) in
          if negb (String.eqb stv "")
          then List.filter (fun r => String.eqb (state r) stv) mt else mt)).
Proof. unfold column, monthly, monthly_rows; cbn [rows]. apply column_month_groupby. Qed.

(** The months of the series are strictly ascending. *)
Lemma monthly_months_sorted (cs : list string) (stv : string) (df : Records) :
  StronglySorted Z.lt (column (monthly cs stv df) "month").
Proof. rewrite monthly_months. apply group_keys_sorted. Qed.

(** The months of the series are the months of the records that pass the
    filter. *)
Lemma In_monthly_months (cs : list string) (stv : string) (df : Records) (m : Z) :
  In m (column (monthly cs stv df) "month")
  <-> exists r, In r (rows df) /\ (stv = "" \/ state r = stv)
                /\ to_period_M (date r) = m.
Proof.
  rewrite monthly_months, (In_group_keys Z.eqb Z.leb Z.eqb_eq), in_map_iff.
  cbv zeta. split.
  - intros (r' & <- & Hr').
    assert (Hmt : In r' (groupby_sum (fun r => (cell r "month", state r))
                           month_state_eqb month_state_leb
                           (fun k sums => mkRow (snd k) tt (<["month" := fst k]> sums))
                           cs (rows (set_month df)))
                  /\ (stv = "" \/ state r' = stv)).
    { destruct (String.eqb_spec stv "") as [-> | Hne]; cbn [negb] in Hr'.
      - split; [exact Hr' | now left].
      - apply filter_In in Hr' as [Hin Hst]. apply String.eqb_eq in Hst.
        split; [exact Hin | now right]. }
    destruct Hmt as [Hin Hst].
    apply In_month_state_groups in Hin as (r & Hr & Hs & Hm).
    apply In_set_month_rows in Hr as (r0 & Hr0 & ->).
    exists r0. split; [exact Hr0 |]. split.
    + cbn [state set_cell] in Hs.
      destruct Hst as [Hst | Hst]; [now left | right; congruence].
    + rewrite Hm. symmetry. apply cell_set_cell_eq.
  - intros (r0 & Hr0 & Hst & <-).
    destruct (month_state_groups_cover cs (rows (set_month df))
                (set_cell r0 "month" (to_period_M (date r0)))) as (r' & Hin & Hs & Hm).
    { apply In_set_month_rows. now exists r0. }
    exists r'. split.
    + rewrite Hm. apply cell_set_cell_eq.
    + destruct (String.eqb_spec stv "") as [-> | Hne]; cbn [negb]; [exact Hin |].
      apply filter_In. split; [exact Hin |]. apply String.eqb_eq.
      rewrite Hs. cbn [state set_cell]. destruct Hst; congruence.
Qed.

(** A region filter that matches no record leaves no row. *)
Lemma monthly_rows_nil (cs : list string) (stv : string) (df : Records) :
  stv <> "" ->
  (forall r, In r (rows df) -> state r <> stv) ->
  rows (monthly cs stv df) = [].
Proof.
  intros Hne Hnone. unfold monthly, monthly_rows; cbn [rows].
  destruct (String.eqb_spec stv "") as [-> | _]; [contradiction |]. cbn [negb].
  match goal with
  | |- groupby_sum _ _ _ _ _ ?sel = [] => assert (Hsel : sel = [])
  end.
  { match goal with |- ?sel = [] => destruct sel as [| r' l] eqn:Hsel end;
      [reflexivity |].
    assert (Hin : In r' (r' :: l)) by now left.
    rewrite <- Hsel in Hin. apply filter_In in Hin as [Hin Hst].
    apply String.eqb_eq in Hst.
    apply In_month_state_groups in Hin as (r & Hr & Hs & _).
    apply In_set_month_rows in Hr as (r0 & Hr0 & ->).
    exfalso. apply (Hnone r0 Hr0). rewrite <- Hst, Hs. reflexivity. }
  rewrite Hsel. reflexivity.
Qed.

(** Within the year range of the calendar, two dates fall in the same month
    exactly when their period ordinals agree. *)
Lemma to_period_M_inj (a b : Timestamp) :
  1 <= ts_month a <= 12 -> 1 <= ts_month b <= 12 ->
  (to_period_M a = to_period_M b <-> ts_year a = ts_year b /\ ts_month a = ts_month b).
Proof. unfold to_period_M. intros Ha Hb. split; [lia | intros [-> ->]; reflexivity]. Qed.

(** ** The dispatchers, case by case *)

Lemma dispatch_inv {A : Type} (df df' : Records) (total : outcome (list Z))
    (analysis : Records -> outcome A * Records) (a : A) :
  dispatch df total analysis = (Ret (Some a), df') ->
  exists df1, set_total df total = Ret df1 /\ analysis df1 = (Ret a, df').
Proof.
  unfold dispatch. destruct (set_total df total) as [df1 | err]; [| discriminate].
  destruct (analysis df1) as [[x | err] d] eqn:Han; simpl; [| discriminate].
  intros [= -> ->]. exists df1. split; [reflexivity | exact Han].
Qed.

Ltac folder_cases folder :=
  destruct (String.eqb_spec folder "api_data_aadhar_enrolment") as [-> | ?];
  [| destruct (String.eqb_spec folder "api_data_aadhar_biometric") as [-> | ?];
     [| destruct (String.eqb_spec folder "api_data_aadhar_demographic") as [-> | ?]]].

(** What a date-wise dispatch that returns a result has computed. *)
Lemma date_wise_inv (folder : string) (df df' : Records) (stv : string)
    (tbl : DataFrame unit unit) (fig : Figure unit) (path : string) :
  date_wise folder df stv = (Ret (Some (tbl, fig, path)), df') ->
  known_folder folder
  /\ fig_data fig = series_of folder (with_total folder df) stv
  /\ project ("month" :: measures_of folder ++ ["total"])
       (series_of folder (with_total folder df) stv) = Ret tbl
  /\ df' = set_month (with_total folder df).
Proof.
  unfold date_wise, known_folder. intros H.
  folder_cases folder; [| | | discriminate H];
    apply dispatch_inv in H as (df1 & Hset & Han).
  - apply (set_total_ret _ _ _ _ (enrol_total_rowwise df)) in Hset. subst df1.
    rewrite enrol_date_wise_eq in Han.
    change (mkDF _ _) with (with_total "api_data_aadhar_enrolment" df) in Han.
    destruct (forallb _ enrol_cols); [| discriminate].
    destruct (project _ _) as [t | err] eqn:Hp; [| discriminate].
    injection Han as <- <- <- <-. auto.
  - apply (set_total_ret _ _ _ _ (bio_total_rowwise df)) in Hset. subst df1.
    rewrite bio_date_wise_eq in Han.
    change (mkDF _ _) with (with_total "api_data_aadhar_biometric" df) in Han.
    destruct (forallb _ bio_cols); [| discriminate].
    destruct (project _ _) as [t | err] eqn:Hp; [| discriminate].
    injection Han as <- <- <- <-. auto 6.
  - apply (set_total_ret _ _ _ _ (demo_total_rowwise df)) in Hset. subst df1.
    rewrite demo_date_wise_eq in Han.
    change (mkDF _ _) with (with_total "api_data_aadhar_demographic" df) in Han.
    destruct (forallb _ demo_cols); [| discriminate].
    destruct (project _ _) as [t | err] eqn:Hp; [| discriminate].
    injection Han as <- <- <- <-. auto 6.
Qed.

Lemma series_of_month (folder : string) (df : Records) (stv : string) :
  known_folder folder ->
  column (series_of folder df stv) "month"
  = column (monthly (measures_of folder ++ ["total"]) stv df) "month".
Proof.
  intros [-> | [-> | ->]].
  - apply (enrol_series_columns df stv).
  - apply (bio_series_columns df stv).
  - apply (demo_series_columns df stv).
Qed.

Lemma In_with_total_rows (folder : string) (df : Records) (P : string -> Timestamp -> Prop) :
  (exists r, In r (rows (with_total folder df)) /\ P (state r) (date r))
  <-> exists r, In r (rows df) /\ P (state r) (date r).
Proof.
  unfold with_total; cbn [rows]. split.
  - intros (r & Hr & HP). apply in_map_iff in Hr as (r0 & <- & Hr0). now exists r0.
  - intros (r0 & Hr0 & HP). eexists. split; [apply in_map; exact Hr0 | exact HP].
Qed.

(** ** Time series *)

(** The months of the table a date-wise analysis returns, as ordinals. *)
Lemma date_table_months (folder : string) (df df' : Records) (stv : string)
    (tbl : DataFrame unit unit) (fig : Figure unit) (path : string) :
  date_wise folder df stv = (Ret (Some (tbl, fig, path)), df') ->
  StronglySorted Z.lt (column tbl "month")
  /\ List.length (rows tbl) = List.length (column tbl "month")
  /\ forall m : Z,
       In m (column tbl "month")
       <-> exists r, In r (rows df) /\ (stv = "" \/ state r = stv)
                     /\ to_period_M (date r) = m.
Proof.
  intros H.
  apply date_wise_inv in H as (Hk & _ & Hp & _).
  assert (Hcol : column tbl "month"
                 = column (monthly (measures_of folder ++ ["total"]) stv
                             (with_total folder df)) "month").
  { rewrite (column_project _ _ _ "month" Hp) by reflexivity.
    now apply series_of_month. }
  rewrite Hcol. split; [apply monthly_months_sorted |]. split.
  - rewrite <- Hcol. symmetry. apply length_column.
  - intros m. rewrite In_monthly_months.
    apply (In_with_total_rows folder df
             (fun s d => (stv = "" \/ s = stv) /\ to_period_M d = m)).
Qed.

Lemma calendar_month_period (t : Timestamp) :
  1 <= ts_month t <= 12 -> calendar_month (to_period_M t) = (ts_year t, ts_month t).
Proof.
  intros Hm. unfold calendar_month, to_period_M. f_equal.
  - rewrite Z.div_add_l by lia. rewrite Z.div_small by lia. lia.
  - rewrite (Z.add_comm ((ts_year t - 1970) * 12)), Z.mod_add by lia.
    rewrite Z.mod_small by lia. lia.
Qed.

Lemma month_ordinal_calendar (m : Z) : month_ordinal (calendar_month m) = m.
Proof.
  unfold month_ordinal, calendar_month; cbn [fst snd].
  pose proof (Z.div_mod m 12). lia.
Qed.

Lemma calendar_month_lt (a b : Z) :
  a < b -> calendar_lt (calendar_month a) (calendar_month b).
Proof.
  intros Hab. unfold calendar_lt, calendar_month; cbn [fst snd].
  pose proof (Z.div_mod a 12). pose proof (Z.div_mod b 12).
  pose proof (Z.mod_pos_bound a 12). pose proof (Z.mod_pos_bound b 12).
  assert (a / 12 <= b / 12) by (apply Z.div_le_mono; lia).
  lia.
Qed.

Lemma calendar_lt_irrefl (a : Z * Z) : ~ calendar_lt a a.
Proof. unfold calendar_lt. lia. Qed.

Lemma calendar_sorted_NoDup (l : list (Z * Z)) :
  StronglySorted calendar_lt l -> List.NoDup l.
Proof.
  induction 1 as [| a l _ IH Ha]; constructor; [| exact IH].
  intros Hin. rewrite List.Forall_forall in Ha. exact (calendar_lt_irrefl a (Ha a Hin)).
Qed.

Lemma StronglySorted_map {A B : Type} (R : A -> A -> Prop) (R' : B -> B -> Prop)
    (f : A -> B) (l : list A) :
  (forall a b, R a b -> R' (f a) (f b)) ->
  StronglySorted R l -> StronglySorted R' (List.map f l).
Proof.
  intros Hf. induction 1 as [| a l _ IH Ha]; cbn [List.map]; constructor; [exact IH |].
  apply List.Forall_forall. intros y Hy. apply in_map_iff in Hy as (x & <- & Hx).
  rewrite List.Forall_forall in Ha. apply Hf. now apply Ha.
Qed.

(** C5: the table of a date-wise analysis has one row for each calendar
    month in which a record passes the region filter and no other row, in
    chronological order: its rows stand for a strictly ascending list of
    calendar months (year, month), which are exactly the months of the
    dates of the records that pass the filter, each held in the column
    [month] as its ordinal. *)
Theorem C5_one_row_per_month_present :
  forall (selected_folder : string) (df df' : Records) (stv : string)
         (tbl : DataFrame unit unit) (fig : Figure unit) (path : string),
    date_wise selected_folder df stv = (Ret (Some (tbl, fig, path)), df') ->
    Forall (fun r => 1 <= ts_month (date r) <= 12) (rows df) ->
    exists yms : list (Z * Z),
      column tbl "month" = List.map month_ordinal yms
      /\ List.length (rows tbl) = List.length yms
      /\ StronglySorted calendar_lt yms
      /\ forall y m : Z,
           In (y, m) yms
           <-> exists r, In r (rows df) /\ (stv = "" \/ state r = stv)
                         /\ ts_year (date r) = y /\ ts_month (date r) = m.
Proof.
  intros folder df df' stv tbl fig path H Hvalid.
  destruct (date_table_months _ _ _ _ _ _ _ H) as (Hs & Hlen & Hin).
  rewrite List.Forall_forall in Hvalid.
  exists (List.map calendar_month (column tbl "month")). repeat split.
  - rewrite List.map_map. rewrite <- (List.map_id (column tbl "month")) at 1.
    apply List.map_ext. intros m. symmetry. apply month_ordinal_calendar.
  - now rewrite List.length_map.
  - apply (StronglySorted_map Z.lt); [apply calendar_month_lt | exact Hs].
  - intros Hy. apply in_map_iff in Hy as (x & Hx & Hcol).
    apply Hin in Hcol as (r & Hr & Hp & <-). exists r.
    rewrite (calendar_month_period _ (Hvalid r Hr)) in Hx. injection Hx as <- <-. auto.
  - intros (r & Hr & Hp & <- & <-). apply in_map_iff.
    exists (to_period_M (date r)). split; [now apply calendar_month_period, Hvalid |].
    apply Hin. now exists r.
Qed.

(** Records for January and March 2024 only: the table has exactly two
    rows. *)
Lemma C5_sparse_months_witness :
  List.length (rows (fst (fst sparse_result))) = 2%nat.
Proof.
  destruct (C5_one_row_per_month_present "api_data_aadhar_enrolment" sparse_records
              (snd (date_wise "api_data_aadhar_enrolment" sparse_records "")) ""
              (fst (fst sparse_result)) (snd (fst sparse_result)) (snd sparse_result))
    as (yms & _ & Hlen & Hs & Hin).
  - vm_compute. reflexivity.
  - repeat constructor; cbn; lia.
  - rewrite Hlen. apply Nat.le_antisymm.
    + apply (List.NoDup_incl_length (l' := [(2024, 1); (2024, 3)])).
      * exact (calendar_sorted_NoDup yms Hs).
      * intros [y m] Hy. apply Hin in Hy as (r & Hr & _ & <- & <-).
        cbn in Hr. destruct Hr as [<- | [<- | [<- | []]]]; cbn; auto.
    + apply (List.NoDup_incl_length (l := [(2024, 1); (2024, 3)])).
      * repeat constructor; cbn; intuition congruence.
      * intros p [<- | [<- | []]]; apply Hin.
        -- eexists. split; [right; left; reflexivity |]. cbn. auto.
        -- eexists. split; [left; reflexivity |]. cbn. auto.
Defined.

(** Records for January and March only give two rows, for January and for
    March. *)
Example sparse_months_two_rows :
  column (fst (fst sparse_result)) "month"
  = [to_period_M (mkTs 2024 1 1); to_period_M (mkTs 2024 3 1)]
  /\ List.length (rows (fst (fst sparse_result))) = 2%nat.
Proof. split; vm_compute; reflexivity. Qed.

(** ** Order of timestamps *)

Ltac ts_order :=
  unfold ts_lt, ts_le, ts_eq, ts_leb, ts_ltb, ts_eqb, ts_compare in *;
  repeat match goal with
         | |- context [?a ?= ?b] => destruct (Z.compare_spec a b)
         | H : context [?a ?= ?b] |- _ => destruct (Z.compare_spec a b)
         end;
  try discriminate; try lia; auto.

Lemma ts_leb_trans (a b c : Timestamp) :
  ts_leb a b = true -> ts_leb b c = true -> ts_leb a c = true.
Proof. intros H1 H2. ts_order. Qed.

Lemma ts_ltb_false_leb (a b : Timestamp) : ts_ltb a b = false -> ts_leb b a = true.
Proof. intros H. ts_order. Qed.

Lemma ts_leb_refl (a : Timestamp) : ts_leb a a = true.
Proof. ts_order. Qed.

Lemma fold_min_spec (l : list Timestamp) (x : Timestamp) :
  let m := fold_left (fun m y => if ts_ltb y m then y else m) l x in
  (m = x \/ In m l) /\ ts_leb m x = true /\ forall y, In y l -> ts_leb m y = true.
Proof.
  revert x. induction l as [| y l IH]; intros x; cbn [fold_left].
  - split; [now left |]. split; [apply ts_leb_refl | intros y []].
  - specialize (IH (if ts_ltb y x then y else x)). cbv zeta in IH.
    destruct IH as (Hin & Hle & Hall).
    set (m := fold_left _ l _) in *.
    destruct (ts_ltb y x) eqn:Hyx.
    + split; [destruct Hin as [-> | Hin]; right; [now left | now right] |].
      split.
      * apply ts_leb_trans with y; [exact Hle |]. clear - Hyx. ts_order.
      * intros z [<- | Hz]; [exact Hle | now apply Hall].
    + split; [destruct Hin as [-> | Hin]; [now left | right; now right] |].
      split; [exact Hle |].
      intros z [<- | Hz]; [| now apply Hall].
      apply ts_leb_trans with x; [exact Hle | now apply ts_ltb_false_leb].
Qed.

Lemma fold_max_spec (l : list Timestamp) (x : Timestamp) :
  let m := fold_left (fun m y => if ts_ltb m y then y else m) l x in
  (m = x \/ In m l) /\ ts_leb x m = true /\ forall y, In y l -> ts_leb y m = true.
Proof.
  revert x. induction l as [| y l IH]; intros x; cbn [fold_left].
  - split; [now left |]. split; [apply ts_leb_refl | intros y []].
  - specialize (IH (if ts_ltb x y then y else x)). cbv zeta in IH.
    destruct IH as (Hin & Hle & Hall).
    set (m := fold_left _ l _) in *.
    destruct (ts_ltb x y) eqn:Hxy.
    + split; [destruct Hin as [-> | Hin]; right; [now left | now right] |].
      split.
      * apply ts_leb_trans with y; [| exact Hle]. clear - Hxy. ts_order.
      * intros z [<- | Hz]; [exact Hle | now apply Hall].
    + split; [destruct Hin as [-> | Hin]; [now left | right; now right] |].
      split; [exact Hle |].
      intros z [<- | Hz]; [| now apply Hall].
      apply ts_leb_trans with x; [now apply ts_ltb_false_leb | exact Hle].
Qed.

(** The smallest date is one of the dates and is below each of them; the
    same for the largest. *)
Lemma ts_min_spec (l : list Timestamp) (m : Timestamp) :
  ts_min l = Some m -> In m l /\ forall y, In y l -> ts_leb m y = true.
Proof.
  destruct l as [| x l]; [discriminate |]. cbn [ts_min]. intros [= <-].
  destruct (fold_min_spec l x) as (Hin & Hle & Hall). split.
  - destruct Hin as [-> | Hin]; [now left | now right].
  - intros y [<- | Hy]; [exact Hle | now apply Hall].
Qed.

Lemma ts_max_spec (l : list Timestamp) (m : Timestamp) :
  ts_max l = Some m -> In m l /\ forall y, In y l -> ts_leb y m = true.
Proof.
  destruct l as [| x l]; [discriminate |]. cbn [ts_max]. intros [= <-].
  destruct (fold_max_spec l x) as (Hin & Hle & Hall). split.
  - destruct Hin as [-> | Hin]; [now left | now right].
  - intros y [<- | Hy]; [exact Hle | now apply Hall].
Qed.

(** ** Filters that match nothing *)

Lemma with_total_setitem (folder : string) (df : Records) :
  with_total folder df = setitem df "total" (List.map (total_of folder) (rows df)).
Proof.
  unfold with_total, setitem. f_equal. symmetry. apply zip_with_map_r_same.
Qed.

Lemma has_column_with_total (folder : string) (df : Records) (c : string) :
  has_column (with_total folder df) c = has_column df c || String.eqb c "total".
Proof. rewrite with_total_setitem. apply has_column_setitem. Qed.

Lemma has_column_set_month_or (df : Records) (c : string) :
  has_column (set_month df) c = has_column df c || String.eqb c "month".
Proof. unfold set_month. apply has_column_setitem. Qed.

Lemma dates_with_total (folder : string) (df : Records) :
  List.map date (rows (with_total folder df)) = List.map date (rows df).
Proof. unfold with_total; cbn [rows]. apply map_date_set_cell. Qed.

(** With its measure columns present, a record set gets its [total]. *)
Lemma set_total_enrol (df : Records) :
  forallb (has_column df) ["age_0_5"; "age_5_17"; "age_18_greater"] = true ->
  set_total df (a ← getitem df "age_0_5"; b ← getitem df "age_5_17";
                c ← getitem df "age_18_greater"; Ret (series_add (series_add a b) c))
  = Ret (with_total "api_data_aadhar_enrolment" df).
Proof.
  cbn [forallb]. rewrite !andb_true_iff. intros (Ha & Hb & Hc & _).
  unfold set_total, getitem. rewrite Ha, Hb, Hc. cbn.
  unfold column. rewrite !series_add_map. now rewrite with_total_setitem.
Qed.

Lemma set_total_bio (df : Records) :
  forallb (has_column df) ["bio_age_5_17"; "bio_age_17_"] = true ->
  set_total df (a ← getitem df "bio_age_5_17"; b ← getitem df "bio_age_17_";
                Ret (series_add a b))
  = Ret (with_total "api_data_aadhar_biometric" df).
Proof.
  cbn [forallb]. rewrite !andb_true_iff. intros (Ha & Hb & _).
  unfold set_total, getitem. rewrite Ha, Hb. cbn.
  unfold column. rewrite !series_add_map. now rewrite with_total_setitem.
Qed.

Lemma set_total_demo (df : Records) :
  forallb (has_column df) ["demo_age_5_17"; "demo_age_17_"] = true ->
  set_total df (a ← getitem df "demo_age_5_17"; b ← getitem df "demo_age_17_";
                Ret (series_add a b))
  = Ret (with_total "api_data_aadhar_demographic" df).
Proof.
  cbn [forallb]. rewrite !andb_true_iff. intros (Ha & Hb & _).
  unfold set_total, getitem. rewrite Ha, Hb. cbn.
  unfold column. rewrite !series_add_map. now rewrite with_total_setitem.
Qed.

(** The columns an analysis sums are present once [total] and [month] are
    assigned. *)
Lemma analysis_columns_present (folder : string) (df : Records) :
  forallb (has_column df) (measures_of folder) = true ->
  forallb (has_column (with_total folder df)) (measures_of folder ++ ["total"]) = true
  /\ forallb (has_column (set_month (with_total folder df)))
             (measures_of folder ++ ["total"]) = true.
Proof.
  intros H. pose proof (proj1 (List.forallb_forall _ _) H) as Hall.
  split; rewrite List.forallb_app; apply andb_true_iff; split.
  - apply List.forallb_forall. intros c Hc.
    now rewrite has_column_with_total, (Hall c Hc).
  - cbn [forallb]. rewrite has_column_with_total.
    now rewrite orb_true_r.
  - apply List.forallb_forall. intros c Hc.
    now rewrite has_column_set_month_or, has_column_with_total, (Hall c Hc).
  - cbn [forallb]. rewrite has_column_set_month_or, has_column_with_total.
    now rewrite orb_true_r.
Qed.

Lemma rows_series_of_length (folder : string) (df : Records) (stv : string) :
  known_folder folder ->
  List.length (rows (series_of folder df stv))
  = List.length (rows (monthly (measures_of folder ++ ["total"]) stv df)).
Proof.
  intros [-> | [-> | ->]]; cbn [series_of measures_of String.eqb Ascii.eqb Bool.eqb app].
  - unfold enrol_series. cbv zeta. lengths.
  - unfold bio_series. cbv zeta. lengths.
  - unfold demo_series. cbv zeta. lengths.
Qed.

(** A date-wise dispatch returns a result whenever the measure columns of
    its data set are present. *)
Lemma date_wise_returns (folder : string) (df : Records) (stv : string) :
  known_folder folder ->
  forallb (has_column df) (measures_of folder) = true ->
  exists tbl fig path,
    date_wise folder df stv
    = (Ret (Some (tbl, fig, path)), set_month (with_total folder df)).
Proof.
  intros Hk Hcols.
  destruct (analysis_columns_present folder df Hcols) as [_ Hm].
  destruct Hk as [-> | [-> | ->]]; unfold date_wise;
    cbn [String.eqb Ascii.eqb Bool.eqb]; unfold dispatch.
  - rewrite (set_total_enrol df Hcols), enrol_date_wise_eq.
    change enrol_cols with (measures_of "api_data_aadhar_enrolment" ++ ["total"]).
    rewrite Hm, project_ret by reflexivity. cbn. eauto.
  - rewrite (set_total_bio df Hcols), bio_date_wise_eq.
    change bio_cols with (measures_of "api_data_aadhar_biometric" ++ ["total"]).
    rewrite Hm, project_ret by reflexivity. cbn. eauto.
  - rewrite (set_total_demo df Hcols), demo_date_wise_eq.
    change demo_cols with (measures_of "api_data_aadhar_demographic" ++ ["total"]).
    rewrite Hm, project_ret by reflexivity. cbn. eauto.
Qed.

Lemma project_of_no_rows {S D : Type} (df tbl : DataFrame S D) (cs : list string) :
  project cs df = Ret tbl -> rows df = [] -> tbl = mkDF cs [].
Proof.
  unfold project. destruct (forallb (has_column df) cs); [| discriminate].
  intros [= <-] ->. reflexivity.
Qed.

Lemma length_zero_nil {A : Type} (l : list A) : List.length l = 0%nat -> l = [].
Proof. destruct l; [reflexivity | discriminate]. Qed.

(** The table of a date-wise analysis is empty when the region filter
    matches no record. *)
Lemma date_wise_no_match (folder : string) (df : Records) (stv : string) :
  known_folder folder ->
  forallb (has_column df) (measures_of folder) = true ->
  stv <> "" ->
  (forall r, In r (rows df) -> state r <> stv) ->
  exists fig path df',
    date_wise folder df stv
    = (Ret (Some (mkDF ("month" :: measures_of folder ++ ["total"]) [], fig, path)), df').
Proof.
  intros Hk Hcols Hne Hnone.
  destruct (date_wise_returns folder df stv Hk Hcols) as (tbl & fig & path & Hret).
  exists fig, path, (set_month (with_total folder df)).
  rewrite Hret.
  enough (Htbl : tbl = mkDF ("month" :: measures_of folder ++ ["total"]) [])
    by now rewrite Htbl.
  apply date_wise_inv in Hret as (_ & _ & Hp & _).
  apply (project_of_no_rows _ _ _ Hp).
  apply length_zero_nil. rewrite (rows_series_of_length folder _ stv Hk).
  rewrite monthly_rows_nil; [reflexivity | exact Hne |].
  intros r Hr. unfold with_total in Hr; cbn [rows] in Hr.
  apply in_map_iff in Hr as (r0 & <- & Hr0). cbn [state set_cell]. now apply Hnone.
Qed.

Section StateWiseFacts.
Variable to_datetime : string -> outcome (option Timestamp).

Lemma groupby_state_ret (cs : list string) (df : Records) :
  forallb (has_column df) cs = true ->
  groupby_state cs df
  = Ret (mkDF cs (groupby_sum (fun r => state r) String.eqb String.leb
                              (fun k sums => mkRow k tt sums) cs (rows df))).
Proof. intros H. unfold groupby_state. now rewrite H. Qed.

Lemma filter_none {A : Type} (p : A -> bool) (l : list A) :
  (forall x, In x l -> p x = false) -> List.filter p l = [].
Proof.
  induction l as [| x l IH]; intros H; simpl; [reflexivity |].
  rewrite (H x) by now left. apply IH. intros y Hy. apply H. now right.
Qed.

(** When no record lies between the two bounds, the range is narrower than
    the record set, or the record set is empty. *)
Lemma narrower_or_empty (df : Records) (ts te : Timestamp) :
  (forall r, In r (rows df) -> between (Some ts) (Some te) r = false) ->
  ts_lt (date_min df) (Some ts) || ts_lt (Some te) (date_max df) = true
  \/ rows df = [].
Proof.
  intros Hnone. destruct (rows df) as [| r0 rs] eqn:Hrows; [now right |]. left.
  unfold date_min, date_max. rewrite Hrows.
  destruct (ts_min (List.map date (r0 :: rs))) as [m |] eqn:Hmin; [| discriminate].
  destruct (ts_max (List.map date (r0 :: rs))) as [M |] eqn:Hmax; [| discriminate].
  apply ts_min_spec in Hmin as [Hm_in Hm_le].
  apply ts_max_spec in Hmax as [HM_in _].
  pose proof (Hm_le M HM_in) as HmM.
  apply in_map_iff in Hm_in as (r & Hdate & Hr).
  rewrite <- Hrows in Hnone.
  assert (Hr' : In r (rows df)) by (rewrite Hrows; exact Hr).
  specialize (Hnone r Hr'). unfold between in Hnone. rewrite Hdate in Hnone.
  clear - Hnone HmM. cbn [ts_lt ts_le] in *.
  destruct (ts_ltb m ts) eqn:H1; [reflexivity |].
  destruct (ts_ltb te M) eqn:H2; [reflexivity |]. exfalso.
  apply ts_ltb_false_leb in H1, H2.
  rewrite H1 in Hnone. cbn [andb] in Hnone.
  rewrite (ts_leb_trans m M te HmM H2) in Hnone. discriminate.
Qed.

(** The table the state-wise analyses keep, when no record lies between the
    bounds. *)
Lemma state_table_no_match (cs : list string) (df : Records) (ts te : Timestamp) :
  forallb (has_column df) cs = true ->
  (forall r, In r (rows df) -> between (Some ts) (Some te) r = false) ->
  (if ts_lt (date_min df) (Some ts) || ts_lt (Some te) (date_max df)
   then groupby_state cs (select (between (Some ts) (Some te)) df)
   else Ret (mkDF cs (groupby_sum (fun r => state r) String.eqb String.leb
                                  (fun k sums => mkRow k tt sums) cs (rows df))))
  = Ret (mkDF cs []).
Proof.
  intros Hcols Hnone.
  assert (Hsel : groupby_state cs (select (between (Some ts) (Some te)) df)
                 = Ret (mkDF cs [])).
  { rewrite groupby_state_ret by exact Hcols.
    unfold select; cbn [rows]. now rewrite (filter_none _ _ Hnone). }
  destruct (narrower_or_empty df ts te Hnone) as [-> | Hnil]; [exact Hsel |].
  destruct (_ || _); [exact Hsel |]. now rewrite Hnil.
Qed.
End StateWiseFacts.

Section NoMatch.
Variable to_datetime : string -> outcome (option Timestamp).

Lemma start_bound_with_total (folder : string) (df : Records) (s : string) :
  start_bound to_datetime (with_total folder df) s = start_bound to_datetime df s.
Proof. unfold start_bound, date_min. now rewrite dates_with_total. Qed.

Lemma end_bound_with_total (folder : string) (df : Records) (e : string) :
  end_bound to_datetime (with_total folder df) e = end_bound to_datetime df e.
Proof. unfold end_bound, date_max. now rewrite dates_with_total. Qed.

Lemma between_with_total (folder : string) (df : Records) (s e : option Timestamp) :
  (forall r, In r (rows df) -> between s e r = false) ->
  forall r, In r (rows (with_total folder df)) -> between s e r = false.
Proof.
  intros H r Hr. unfold with_total in Hr; cbn [rows] in Hr.
  apply in_map_iff in Hr as (r0 & <- & Hr0). exact (H r0 Hr0).
Qed.

(** The table of a state-wise analysis is empty when no record lies between
    the two bounds. *)
Lemma state_wise_no_match (folder : string) (df : Records) (s e : string)
    (ts te : Timestamp) :
  known_folder folder ->
  forallb (has_column df) (measures_of folder) = true ->
  start_bound to_datetime df s = Ret (Some ts) ->
  end_bound to_datetime df e = Ret (Some te) ->
  (forall r, In r (rows df) -> between (Some ts) (Some te) r = false) ->
  exists fig path df',
    state_wise to_datetime folder df s e
    = (Ret (Some (mkDF (measures_of folder ++ ["total"]) [], fig, path)), df').
Proof.
  intros Hk Hcols Hs He Hnone.
  destruct (analysis_columns_present folder df Hcols) as [Hc _].
  pose proof (between_with_total folder df _ _ Hnone) as Hnone'.
  pose proof (state_table_no_match _ _ ts te Hc Hnone') as Hsts.
  pose proof (groupby_state_ret _ _ Hc) as Hall.
  rewrite <- (start_bound_with_total folder) in Hs.
  rewrite <- (end_bound_with_total folder) in He.
  destruct Hk as [-> | [-> | ->]]; unfold state_wise;
    cbn [String.eqb Ascii.eqb Bool.eqb]; unfold dispatch.
  - rewrite (set_total_enrol df Hcols). unfold enrol_state_wise.
    rewrite Hs, He. cbn [mbind outcome_bind bind].
    change ["age_0_5"; "age_5_17"; "age_18_greater"; "total"]
      with (measures_of "api_data_aadhar_enrolment" ++ ["total"]).
    rewrite Hall. cbn [mbind outcome_bind bind]. rewrite Hsts.
    cbn [mbind outcome_bind bind]. eauto.
  - rewrite (set_total_bio df Hcols). unfold bio_state_wise.
    rewrite Hs, He. cbn [mbind outcome_bind bind].
    change ["bio_age_5_17"; "bio_age_17_"; "total"]
      with (measures_of "api_data_aadhar_biometric" ++ ["total"]).
    rewrite Hall. cbn [mbind outcome_bind bind]. rewrite Hsts.
    cbn [mbind outcome_bind bind]. eauto.
  - rewrite (set_total_demo df Hcols). unfold demo_state_wise.
    rewrite Hs, He. cbn [mbind outcome_bind bind].
    change ["demo_age_5_17"; "demo_age_17_"; "total"]
      with (measures_of "api_data_aadhar_demographic" ++ ["total"]).
    rewrite Hall. cbn [mbind outcome_bind bind]. rewrite Hsts.
    cbn [mbind outcome_bind bind]. eauto.
Qed.

(** C8: on a record set that has the measure columns of its data set, a
    region filter that matches no record and a date range that contains no
    record make the analysis return an empty table; no exception is
    raised. *)
Theorem C8_filters_matching_nothing_give_empty_tables :
  forall (selected_folder : string) (df : Records),
    known_folder selected_folder ->
    forallb (has_column df) (measures_of selected_folder) = true ->
    (forall stv : string,
        stv <> "" ->
        (forall r, In r (rows df) -> state r <> stv) ->
        exists fig path df',
          date_wise selected_folder df stv
          = (Ret (Some (mkDF ("month" :: measures_of selected_folder ++ ["total"]) [],
                        fig, path)), df'))
    /\ (forall (s e : string) (ts te : Timestamp),
          start_bound to_datetime df s = Ret (Some ts) ->
          end_bound to_datetime df e = Ret (Some te) ->
          (forall r, In r (rows df) -> between (Some ts) (Some te) r = false) ->
          exists fig path df',
            state_wise to_datetime selected_folder df s e
            = (Ret (Some (mkDF (measures_of selected_folder ++ ["total"]) [],
                          fig, path)), df')).
Proof.
  intros folder df Hk Hcols. split.
  - intros stv Hne Hnone. now apply date_wise_no_match.
  - intros s e ts te Hs He Hnone. now apply state_wise_no_match with ts te.
Qed.
End NoMatch.

Lemma C8_no_match_witness :
  (exists fig path df',
      date_wise "api_data_aadhar_enrolment" example_records "goa"
      = (Ret (Some (mkDF ("month" :: measures_of "api_data_aadhar_enrolment" ++ ["total"])
                         [], fig, path)), df'))
  /\ (exists fig path df',
        state_wise parse_iso "api_data_aadhar_enrolment" example_records
                   "2025-01-01" "2025-12-31"
        = (Ret (Some (mkDF (measures_of "api_data_aadhar_enrolment" ++ ["total"]) [],
                      fig, path)), df')).
Proof.
  assert (Hk : known_folder "api_data_aadhar_enrolment") by now left.
  assert (Hc : forallb (has_column example_records)
                 (measures_of "api_data_aadhar_enrolment") = true)
    by (vm_compute; reflexivity).
  destruct (C8_filters_matching_nothing_give_empty_tables parse_iso
              "api_data_aadhar_enrolment" example_records Hk Hc) as [Hdate Hstate].
  split.
  - apply (Hdate "goa"); [discriminate |].
    intros r [<- | [<- | [<- | []]]]; discriminate.
  - apply (Hstate "2025-01-01" "2025-12-31" (mkTs 2025 1 1) (mkTs 2025 12 31)).
    + vm_compute. reflexivity.
    + vm_compute. reflexivity.
    + intros r [<- | [<- | [<- | []]]]; vm_compute; reflexivity.
Defined.

(** ** Cumulative columns *)

Arguments wrap64 : simpl never.
Arguments add64 : simpl never.

Lemma eqm64_of_eq (a b : Z) : a = b -> eqm64 a b.
Proof. intros ->. reflexivity. Qed.

Lemma add64_eq_of_eqm (x y u v : Z) : eqm64 (x + y) (u + v) -> add64 x y = add64 u v.
Proof. intros H. unfold add64. now apply wrap64_proper. Qed.

Lemma zsum_map_add {A : Type} (u v : A -> Z) (l : list A) :
  zsum (List.map (fun x => u x + v x) l) = zsum (List.map u l) + zsum (List.map v l).
Proof. induction l as [| x l IH]; simpl; [reflexivity | rewrite IH; lia]. Qed.

Lemma zsum_map_zero {A : Type} (l : list A) : zsum (List.map (fun _ => 0) l) = 0.
Proof. induction l as [| x l IH]; simpl; [reflexivity | exact IH]. Qed.

(** A sum over rows of sums over columns is the sum over columns of the
    sums over rows. *)
Lemma zsum_exchange {A B : Type} (f : A -> B -> Z) (g : list A) (ms : list B) :
  zsum (List.map (fun r => zsum (List.map (f r) ms)) g)
  = zsum (List.map (fun m => zsum (List.map (fun r => f r m) g)) ms).
Proof.
  induction g as [| r g IH]; simpl.
  - now rewrite zsum_map_zero.
  - rewrite IH. symmetry. apply zsum_map_add.
Qed.

Lemma Forall2_map_in {A B : Type} (R : B -> B -> Prop) (f h : A -> B) (l : list A) :
  (forall x, In x l -> R (f x) (h x)) -> Forall2 R (List.map f l) (List.map h l).
Proof.
  induction l as [| x l IH]; intros H; simpl; constructor.
  - apply H. now left.
  - apply IH. intros y Hy. apply H. now right.
Qed.

(** The row of the sums of a group of rows that satisfy [lin ms] satisfies
    it too. *)
Lemma lin_of_sums {S D S' D' : Type} (ms : list string) (g : list (Row S D))
    (r' : Row S' D') :
  (forall c, In c ("total" :: ms) -> cell r' c = sum64 (List.map (fun r => cell r c) g)) ->
  Forall (lin ms) g ->
  lin ms r'.
Proof.
  intros Hc Hg. unfold lin. rewrite (Hc "total") by now left.
  rewrite sum64_eqm.
  transitivity (zsum (List.map (fun r => zsum (List.map (cell r) ms)) g)).
  { apply zsum_eqm, Forall2_map_in. intros r Hr.
    rewrite List.Forall_forall in Hg. exact (Hg r Hr). }
  rewrite zsum_exchange. apply zsum_eqm, Forall2_map_in. intros m Hm.
  rewrite (Hc m) by now right. symmetry. apply sum64_eqm.
Qed.

Lemma lin_groupby {S D K S' : Type} (ms cs : list string)
    (key : Row S D -> K) (eqb leb : K -> K -> bool)
    (out : K -> gmap string Z -> Row S' unit) (rs : list (Row S D)) :
  (forall a b, eqb a b = true <-> a = b) ->
  (forall k sums c, c <> "month" -> cells (out k sums) !! c = sums !! c) ->
  (forall c, In c ("total" :: ms) -> c <> "month" /\ existsb (String.eqb c) cs = true) ->
  Forall (lin ms) rs ->
  Forall (lin ms) (groupby_sum key eqb leb out cs rs).
Proof.
  intros Heqb Hout Hcs Hrs. apply List.Forall_forall. intros r' Hr'.
  apply (In_groupby_sum key eqb leb out cs Heqb) in Hr' as (r & _ & ->).
  apply lin_of_sums with (g := List.filter (fun x => eqb (key x) (key r)) rs).
  - intros c Hc. destruct (Hcs c Hc) as [Hne Hin].
    unfold cell at 1. now rewrite Hout, lookup_sum_cells, Hin.
  - apply List.Forall_forall. intros x Hx. apply filter_In in Hx as [Hx _].
    rewrite List.Forall_forall in Hrs. now apply Hrs.
Qed.

Lemma monthly_rows_lin (ms cs : list string) (stv : string)
    (rs : list (Row string Timestamp)) :
  (forall c, In c ("total" :: ms) -> c <> "month" /\ existsb (String.eqb c) cs = true) ->
  Forall (lin ms) rs ->
  Forall (lin ms) (monthly_rows cs stv rs).
Proof.
  intros Hcs Hrs. unfold monthly_rows. cbv zeta.
  assert (Hmt : Forall (lin ms)
                  (groupby_sum (fun r => (cell r "month", state r))
                     month_state_eqb month_state_leb
                     (fun k sums => mkRow (snd k) tt (<["month" := fst k]> sums)) cs rs)).
  { apply lin_groupby; try assumption; [apply month_state_eqb_spec |].
    intros k sums c Hne. cbn [cells]. apply lookup_insert_ne. congruence. }
  apply lin_groupby; try assumption; [apply Z.eqb_eq | |].
  - intros k sums c Hne. cbn [cells]. apply lookup_insert_ne. congruence.
  - destruct (negb (String.eqb stv "")); [| exact Hmt].
    apply List.Forall_forall. intros x Hx. apply filter_In in Hx as [Hx _].
    rewrite List.Forall_forall in Hmt. now apply Hmt.
Qed.

Lemma measures_are_summed (folder : string) (c : string) :
  In c ("total" :: measures_of folder) ->
  c <> "month" /\ existsb (String.eqb c) (measures_of folder ++ ["total"]) = true.
Proof.
  unfold measures_of.
  destruct (String.eqb folder "api_data_aadhar_enrolment");
    [| destruct (String.eqb folder "api_data_aadhar_biometric");
       [| destruct (String.eqb folder "api_data_aadhar_demographic")]];
    cbn [In app]; intros H;
    repeat (destruct H as [<- | H]; [split; [discriminate | reflexivity] |]);
    contradiction.
Qed.

(** Once a dispatcher has assigned [total], every record satisfies [lin]
    for the measures of its data set. *)
Lemma with_total_lin (folder : string) (df : Records) :
  known_folder folder ->
  Forall (lin (measures_of folder)) (rows (set_month (with_total folder df))).
Proof.
  intros Hk. rewrite set_month_rows. unfold with_total; cbn [rows].
  rewrite List.map_map. apply List.Forall_forall. intros r' Hr'.
  apply in_map_iff in Hr' as (r & <- & _). unfold lin.
  destruct Hk as [-> | [-> | ->]];
    cbn [measures_of total_of String.eqb Ascii.eqb Bool.eqb List.map zsum fold_right];
    repeat first [rewrite cell_set_cell_eq | rewrite cell_set_cell_ne by discriminate];
    unfold enrol_total, bio_total, demo_total; rewrite !add64_eqm;
    apply eqm64_of_eq; lia.
Qed.

(** The sum of three cumulative columns is the cumulative column of
    [total]; the same for two. *)
Lemma cumulative_total_3 {S D : Type} (A B C : string) (l : list (Row S D)) :
  Forall (lin [A; B; C]) l ->
  forall sa sb sc st,
    eqm64 st (sa + sb + sc) ->
    series_add
      (series_add (scalar_add 0 (cumsum_from sa (List.map (fun r => cell r A) l)))
                  (scalar_add 0 (cumsum_from sb (List.map (fun r => cell r B) l))))
      (scalar_add 0 (cumsum_from sc (List.map (fun r => cell r C) l)))
    = cumsum_from st (List.map (fun r => cell r "total") l).
Proof.
  induction 1 as [| r l Hr _ IH]; intros sa sb sc st Hst; [reflexivity |].
  unfold lin in Hr. cbn [List.map zsum fold_right] in Hr.
  cbn [List.map cumsum_from scalar_add series_add zip_with].
  f_equal.
  - apply add64_eq_of_eqm. rewrite !add64_eqm, Hst, Hr. apply eqm64_of_eq. lia.
  - apply IH. rewrite !add64_eqm, Hst, Hr. apply eqm64_of_eq. lia.
Qed.

Lemma cumulative_total_2 {S D : Type} (A B : string) (l : list (Row S D)) :
  Forall (lin [A; B]) l ->
  forall sa sb st,
    eqm64 st (sa + sb) ->
    series_add (scalar_add 0 (cumsum_from sa (List.map (fun r => cell r A) l)))
               (scalar_add 0 (cumsum_from sb (List.map (fun r => cell r B) l)))
    = cumsum_from st (List.map (fun r => cell r "total") l).
Proof.
  induction 1 as [| r l Hr _ IH]; intros sa sb st Hst; [reflexivity |].
  unfold lin in Hr. cbn [List.map zsum fold_right] in Hr.
  cbn [List.map cumsum_from scalar_add series_add zip_with].
  f_equal.
  - apply add64_eq_of_eqm. rewrite !add64_eqm, Hst, Hr. apply eqm64_of_eq. lia.
  - apply IH. rewrite !add64_eqm, Hst, Hr. apply eqm64_of_eq. lia.
Qed.

Lemma add64_3_wrap (x y z : Z) : add64 (add64 x y) z = wrap64 (x + (y + (z + 0))).
Proof.
  unfold add64 at 1. apply wrap64_proper. rewrite add64_eqm. apply eqm64_of_eq. lia.
Qed.

Lemma add64_2_wrap (x y : Z) : add64 x y = wrap64 (x + (y + 0)).
Proof. unfold add64. f_equal. lia. Qed.

Lemma enrol_series_cumulative (df : Records) (stv : string) :
  Forall (lin ["age_0_5"; "age_5_17"; "age_18_greater"]) (rows (set_month df)) ->
  column (enrol_series df stv) "c_total" = cumsum (column (enrol_series df stv) "total")
  /\ forall i : nat,
       nth i (column (enrol_series df stv) "c_total") 0
       = wrap64 (zsum (List.map
                         (fun m => nth i (column (enrol_series df stv) ("c_" ++ m)%string) 0)
                         ["age_0_5"; "age_5_17"; "age_18_greater"])).
Proof.
  intros Hlin.
  destruct (enrol_series_columns df stv) as (_ & Ht & Ha & Hb & Hc & Hct).
  cbv zeta in *. split.
  - rewrite Hct, Ht. unfold cumsum, column, monthly; cbn [rows].
    apply cumulative_total_3; [| reflexivity].
    apply monthly_rows_lin; [| exact Hlin].
    apply (measures_are_summed "api_data_aadhar_enrolment").
  - intros i. cbv beta iota delta [List.map zsum fold_right String.append].
    rewrite Ha, Hb, Hc, Hct.
    rewrite !nth_series_add by lengths. apply add64_3_wrap.
Qed.

Lemma bio_series_cumulative (df : Records) (stv : string) :
  Forall (lin ["bio_age_5_17"; "bio_age_17_"]) (rows (set_month df)) ->
  column (bio_series df stv) "c_total" = cumsum (column (bio_series df stv) "total")
  /\ forall i : nat,
       nth i (column (bio_series df stv) "c_total") 0
       = wrap64 (zsum (List.map
                         (fun m => nth i (column (bio_series df stv) ("c_" ++ m)%string) 0)
                         ["bio_age_5_17"; "bio_age_17_"])).
Proof.
  intros Hlin.
  destruct (bio_series_columns df stv) as (_ & Ht & Ha & Hb & Hct).
  cbv zeta in *. split.
  - rewrite Hct, Ht. unfold cumsum, column, monthly; cbn [rows].
    apply cumulative_total_2; [| reflexivity].
    apply monthly_rows_lin; [| exact Hlin].
    apply (measures_are_summed "api_data_aadhar_biometric").
  - intros i. cbv beta iota delta [List.map zsum fold_right String.append].
    rewrite Ha, Hb, Hct.
    rewrite !nth_series_add by lengths. apply add64_2_wrap.
Qed.

Lemma demo_series_cumulative (df : Records) (stv : string) :
  Forall (lin ["demo_age_5_17"; "demo_age_17_"]) (rows (set_month df)) ->
  column (demo_series df stv) "c_total" = cumsum (column (demo_series df stv) "total")
  /\ forall i : nat,
       nth i (column (demo_series df stv) "c_total") 0
       = wrap64 (zsum (List.map
                         (fun m => nth i (column (demo_series df stv) ("c_" ++ m)%string) 0)
                         ["demo_age_5_17"; "demo_age_17_"])).
Proof.
  intros Hlin.
  destruct (demo_series_columns df stv) as (_ & Ht & Ha & Hb & Hct).
  cbv zeta in *. split.
  - rewrite Hct, Ht. unfold cumsum, column, monthly; cbn [rows].
    apply cumulative_total_2; [| reflexivity].
    apply monthly_rows_lin; [| exact Hlin].
    apply (measures_are_summed "api_data_aadhar_demographic").
  - intros i. cbv beta iota delta [List.map zsum fold_right String.append].
    rewrite Ha, Hb, Hct.
    rewrite !nth_series_add by lengths. apply add64_2_wrap.
Qed.

(** The worked example: January sums to (13, 6, 2, 21), February to
    (1, 1, 1, 3), and the cumulative total runs 21, 24. *)
Example worked_example_series :
  column (fst (fst example_result)) "month"
  = [to_period_M (mkTs 2024 1 1); to_period_M (mkTs 2024 2 1)]
  /\ column (fst (fst example_result)) "age_0_5" = [13; 1]
  /\ column (fst (fst example_result)) "age_5_17" = [6; 1]
  /\ column (fst (fst example_result)) "age_18_greater" = [2; 1]
  /\ column (fst (fst example_result)) "total" = [21; 3]
  /\ column (fig_data (snd (fst example_result))) "c_total" = [21; 24].
Proof. repeat split; vm_compute; reflexivity. Qed.

(** * Further properties of the code *)

(** ** Texts *)

Lemma all_chars_app (p : ascii -> bool) (s t : string) :
  all_chars p (s ++ t)%string = all_chars p s && all_chars p t.
Proof.
  induction s as [| c s IH]; cbn [all_chars]; [reflexivity |].
  change (String c s ++ t)%string with (String c (s ++ t)%string).
  cbn [all_chars]. now rewrite IH, andb_assoc.
Qed.

Lemma all_chars_impl (p q : ascii -> bool) (s : string) :
  (forall c, p c = true -> q c = true) -> all_chars p s = true -> all_chars q s = true.
Proof.
  intros H. induction s as [| c s IH]; cbn [all_chars]; [reflexivity |].
  rewrite !andb_true_iff. intros [Hc Hs]. auto.
Qed.

Lemma all_chars_and (p q : ascii -> bool) (s : string) :
  all_chars (fun c => p c && q c) s = all_chars p s && all_chars q s.
Proof.
  induction s as [| c s IH]; cbn [all_chars]; [reflexivity |].
  rewrite IH. destruct (p c), (q c), (all_chars p s); reflexivity.
Qed.

(** [replace] only writes characters of the text and of [new]. *)
Lemma all_chars_replace_from (p : ascii -> bool) (old new : string) (k : nat) (s : string) :
  all_chars p new = true -> all_chars p s = true ->
  all_chars p (Str.replace_from old new k s) = true.
Proof.
  intros Hnew. revert k. induction s as [| c s IH]; intros k; [reflexivity |].
  cbn [all_chars Str.replace_from]. rewrite andb_true_iff. intros [Hc Hs].
  destruct k as [| k]; [| now apply IH].
  destruct (String.prefix old (String c s)).
  - rewrite all_chars_app, Hnew. now apply IH.
  - cbn [all_chars]. rewrite Hc. now apply IH.
Qed.

Lemma all_chars_replace (p : ascii -> bool) (a : ascii) (old new s : string) :
  all_chars p new = true -> all_chars p s = true ->
  all_chars p (Str.replace (String a old) new s) = true.
Proof. intros Hnew Hs. cbn [Str.replace]. now apply all_chars_replace_from. Qed.

(** Replacing a character removes every occurrence of it. *)
Lemma replace_char_removes (a : ascii) (new s : string) :
  all_chars (fun c => negb (Ascii.eqb c a)) new = true ->
  all_chars (fun c => negb (Ascii.eqb c a)) (Str.replace (String a "") new s) = true.
Proof.
  intros Hnew. cbn [Str.replace]. induction s as [| c s IH]; [reflexivity |].
  cbn [Str.replace_from String.prefix String.length Nat.sub].
  destruct (ascii_dec a c) as [-> | Hne].
  - replace (String.prefix "" s) with true by (destruct s; reflexivity).
    rewrite all_chars_app, Hnew. exact IH.
  - cbn [all_chars]. rewrite IH, andb_true_r.
    destruct (Ascii.eqb_spec c a); [congruence | reflexivity].
Qed.

Lemma all_chars_split (p : ascii -> bool) (sep : ascii) (s : string) :
  all_chars p s = true -> Forall (fun t => all_chars p t = true) (Str.split sep s).
Proof.
  induction s as [| c s IH]; cbn [all_chars Str.split].
  - intros _. repeat constructor.
  - rewrite andb_true_iff. intros [Hc Hs]. specialize (IH Hs).
    destruct (Ascii.eqb c sep); [now constructor |].
    destruct (Str.split sep s) as [| h r]; [repeat constructor; cbn; now rewrite Hc |].
    inversion IH as [| ? ? Hh Hr]; subst. constructor; [| exact Hr].
    cbn [all_chars]. now rewrite Hc, Hh.
Qed.

(** The pieces of a split do not contain the separator. *)
Lemma split_pieces_without_sep (sep : ascii) (s : string) :
  Forall (fun t => all_chars (fun c => negb (Ascii.eqb c sep)) t = true) (Str.split sep s).
Proof.
  induction s as [| c s IH]; cbn [Str.split]; [repeat constructor |].
  destruct (Ascii.eqb c sep) eqn:Hc; [now constructor |].
  destruct (Str.split sep s) as [| h r]; [repeat constructor; cbn; now rewrite Hc |].
  inversion IH as [| ? ? Hh Hr]; subst. constructor; [| exact Hr].
  cbn [all_chars]. now rewrite Hc, Hh.
Qed.

Lemma all_chars_lstrip (p : ascii -> bool) (s : string) :
  all_chars p s = true -> all_chars p (Str.lstrip s) = true.
Proof.
  induction s as [| c s IH]; cbn [all_chars Str.lstrip]; [reflexivity |].
  rewrite andb_true_iff. intros [Hc Hs].
  destruct (Str.is_space c); [now apply IH |]. cbn [all_chars]. now rewrite Hc, Hs.
Qed.

Lemma all_chars_rstrip (p : ascii -> bool) (s : string) :
  all_chars p s = true -> all_chars p (Str.rstrip s) = true.
Proof.
  induction s as [| c s IH]; cbn [all_chars Str.rstrip]; [reflexivity |].
  rewrite andb_true_iff. intros [Hc Hs]. specialize (IH Hs).
  destruct (Str.rstrip s) as [| c' t'].
  - destruct (Str.is_space c); [reflexivity |]. cbn [all_chars]. now rewrite Hc.
  - cbn [all_chars] in *. now rewrite Hc, IH.
Qed.

Lemma all_chars_strip (p : ascii -> bool) (s : string) :
  all_chars p s = true -> all_chars p (Str.strip s) = true.
Proof. intros H. unfold Str.strip. now apply all_chars_rstrip, all_chars_lstrip. Qed.

Lemma length_lstrip (s : string) : (String.length (Str.lstrip s) <= String.length s)%nat.
Proof.
  induction s as [| c s IH]; cbn [Str.lstrip String.length]; [lia |].
  destruct (Str.is_space c); cbn [String.length]; lia.
Qed.

Lemma rstrip_cons (c : ascii) (t : string) :
  Str.rstrip (String c t)
  = match Str.rstrip t with
    | EmptyString => if Str.is_space c then EmptyString else String c EmptyString
    | t' => String c t'
    end.
Proof. reflexivity. Qed.

Lemma rstrip_idempotent (s : string) : Str.rstrip (Str.rstrip s) = Str.rstrip s.
Proof.
  induction s as [| c s IH]; [reflexivity |]. rewrite rstrip_cons.
  destruct (Str.rstrip s) as [| c' t'] eqn:Ht.
  - destruct (Str.is_space c) eqn:Hc; [reflexivity |]. cbn [Str.rstrip]. now rewrite Hc.
  - rewrite rstrip_cons, IH. reflexivity.
Qed.

(** Trimming the right end leaves a trimmed left end as it is. *)
Lemma lstrip_rstrip (s : string) :
  Str.lstrip s = s -> Str.lstrip (Str.rstrip s) = Str.rstrip s.
Proof.
  destruct s as [| c s]; [reflexivity |]. cbn [Str.lstrip].
  destruct (Str.is_space c) eqn:Hc.
  - intros H. pose proof (length_lstrip s) as Hlen. rewrite H in Hlen.
    cbn [String.length] in Hlen. lia.
  - intros _. rewrite rstrip_cons.
    destruct (Str.rstrip s); rewrite ?Hc; cbn [Str.lstrip]; now rewrite Hc.
Qed.

Lemma lstrip_idempotent (s : string) : Str.lstrip (Str.lstrip s) = Str.lstrip s.
Proof.
  induction s as [| c s IH]; [reflexivity |]. cbn [Str.lstrip].
  destruct (Str.is_space c) eqn:Hc; [exact IH |]. cbn [Str.lstrip]. now rewrite Hc.
Qed.

(** [str.strip] is idempotent. *)
Lemma strip_idempotent (s : string) : Str.strip (Str.strip s) = Str.strip s.
Proof.
  unfold Str.strip.
  rewrite (lstrip_rstrip (Str.lstrip s) (lstrip_idempotent s)).
  apply rstrip_idempotent.
Qed.

Lemma lower_char_idempotent (c : ascii) :
  Str.lower_char (Str.lower_char c) = Str.lower_char c.
Proof. destruct c as [[] [] [] [] [] [] [] []]; reflexivity. Qed.

Lemma lower_is_lowered (s : string) :
  all_chars (fun c => Ascii.eqb (Str.lower_char c) c) (Str.lower s) = true.
Proof.
  induction s as [| c s IH]; [reflexivity |]. cbn [Str.lower all_chars].
  rewrite lower_char_idempotent, Ascii.eqb_refl. exact IH.
Qed.

Lemma lowered_is_fixed (s : string) :
  all_chars (fun c => Ascii.eqb (Str.lower_char c) c) s = true -> Str.lower s = s.
Proof.
  induction s as [| c s IH]; [reflexivity |]. cbn [Str.lower all_chars].
  rewrite andb_true_iff. intros [Hc Hs]. apply Ascii.eqb_eq in Hc.
  now rewrite Hc, IH.
Qed.

(** [str.lower] is idempotent. *)
Lemma lower_idempotent (s : string) : Str.lower (Str.lower s) = Str.lower s.
Proof. apply lowered_is_fixed, lower_is_lowered. Qed.

(** ** The regions [create] leaves in the frame *)

Lemma candidates_are_trimmed_lower_pieces (s c : string) :
  In c (candidates s) ->
  Str.lower c = c /\ Str.strip c = c
  /\ all_chars (fun a => negb (is_separator a)) c = true.
Proof.
  unfold candidates. intros Hin. apply in_map_iff in Hin as (t & <- & Ht).
  set (u1 := Str.replace "&" "," (Str.lower s)) in *.
  set (u2 := Str.replace " and " "," u1) in *.
  set (u3 := Str.replace "/" "," u2) in *.
  split; [| split].
  - apply lowered_is_fixed, all_chars_strip.
    assert (H3 : all_chars (fun a => Ascii.eqb (Str.lower_char a) a) u3 = true).
    { repeat apply all_chars_replace; try reflexivity. apply lower_is_lowered. }
    pose proof (all_chars_split _ "," u3 H3) as Hall.
    rewrite List.Forall_forall in Hall. now apply Hall.
  - apply strip_idempotent.
  - apply all_chars_strip.
    assert (Hamp : all_chars (fun a => negb (Ascii.eqb a "&")) u3 = true).
    { unfold u3, u2. do 2 (apply all_chars_replace; [reflexivity |]).
      now apply replace_char_removes. }
    assert (Hsl : all_chars (fun a => negb (Ascii.eqb a "/")) u3 = true).
    { now apply replace_char_removes. }
    pose proof (all_chars_split _ "," u3 Hamp) as Ha.
    pose proof (all_chars_split _ "," u3 Hsl) as Hs.
    pose proof (split_pieces_without_sep "," u3) as Hc.
    rewrite List.Forall_forall in Ha, Hs, Hc.
    specialize (Ha t Ht). specialize (Hs t Ht). specialize (Hc t Ht).
    assert (H : all_chars (fun a => negb (Ascii.eqb a "&") && negb (Ascii.eqb a "/")
                                    && negb (Ascii.eqb a ",")) t = true)
      by now rewrite !all_chars_and, Ha, Hs, Hc.
    revert H. apply all_chars_impl. intros a. unfold is_separator.
    destruct (Ascii.eqb a "&"), (Ascii.eqb a "/"), (Ascii.eqb a ","); auto.
Qed.

Lemma st_corr_values_cleaned : map_Forall (fun _ v => cleaned v) st_corr.
Proof.
  apply map_Forall_to_list.
  let l := eval vm_compute in (map_to_list st_corr) in
  change (map_to_list st_corr) with l.
  repeat (constructor;
          [unfold cleaned; cbn [snd uncurry];
           repeat split; first [discriminate | vm_compute; reflexivity] |]).
  constructor.
Qed.

(** Every region [normalize] returns is cleaned. *)
Lemma normalize_cleaned (s x : string) : In x (normalize s) -> cleaned x.
Proof.
  unfold normalize. intros Hin. apply in_map_iff in Hin as (c & <- & Hc).
  apply filter_In in Hc as [Hc Hne].
  apply negb_true_iff, String.eqb_neq in Hne.
  unfold replace_value. destruct (st_corr !! c) as [v |] eqn:Hv; cbn [default].
  - exact (st_corr_values_cleaned c v Hv).
  - destruct (candidates_are_trimmed_lower_pieces s c Hc) as (Hl & Hs & Ha).
    repeat split; assumption.
Qed.

(** After the cleaning, every state is in lower case, trimmed, free of the
    separators and different from the sentinel. *)
Lemma clean_state_cleaned {D : Type} (df : DataFrame string D) :
  Forall (fun r => cleaned (state r)) (rows (clean_state df)).
Proof.
  rewrite clean_state_rows. apply List.Forall_forall. intros r Hr.
  apply in_flat_map in Hr as (r0 & _ & Hr). unfold records_of in Hr.
  apply in_map_iff in Hr as (x & <- & Hx). cbn [state with_state].
  now apply normalize_cleaned with (state r0).
Qed.

Lemma created_regions_cleaned (strptime : string -> option Timestamp) (data : DataFolder)
    (folder : string) (df : Records) :
  create strptime data folder = Ret df ->
  Forall (fun r => cleaned (state r)) (rows df).
Proof.
  intros H.
  apply create_inv in H as (listing & frames & raw & _ & _ & _ & Hparse).
  apply parse_dates_rows in Hparse as [_ HF].
  pose proof (clean_state_cleaned raw) as Hc.
  induction HF as [| r r' l l' (Hs & _ & _) _ IH]; [constructor |].
  inversion Hc; subst. constructor; [now rewrite Hs | now apply IH].
Qed.


(** ** Fan-out *)




(** ** Failures of the loader *)

Lemma collect_app_raise {A B : Type} (f : A -> outcome B) (good rest : list A) (a : A)
    (e : exn) :
  Forall (fun g => exists b, f g = Ret b) good ->
  f a = Raise e ->
  collect f (good ++ a :: rest) = Raise e.
Proof.
  intros Hgood Ha. induction Hgood as [| g good [b Hg] _ IH]; cbn [app collect].
  - now rewrite Ha.
  - rewrite Hg. cbn [mbind outcome_bind bind]. now rewrite IH.
Qed.

(** X3: the load fails as a whole with the exception of the first CSV file,
    in listing order, that cannot be read; nothing is merged from the files
    before it. *)
Theorem X3_first_unreadable_file_fails_the_load :
  forall (strptime : string -> option Timestamp) (data : DataFolder)
         (selected_folder : string) (listing good rest : list File) (f : File) (e : exn),
    data !! selected_folder = Some listing ->
    List.filter (fun g => Str.endswith (fname g) ".csv") listing = good ++ f :: rest ->
    Forall (fun g => exists frame, read_csv g = Ret frame) good ->
    read_csv f = Raise e ->
    create strptime data selected_folder = Raise e.
Proof.
  intros strptime data folder listing good rest f e Hdir Hcsv Hgood Hf.
  unfold create. rewrite Hdir, Hcsv.
  now rewrite (collect_app_raise read_csv good rest f e Hgood Hf).
Qed.

Lemma X3_first_unreadable_file_witness :
  create parse_dmy
    {[ "api_data_aadhar_enrolment" :=
         [mkFile "a.csv" (Ret (mkDF [] []));
          mkFile "notes.txt" (Raise FileNotFoundError);
          mkFile "b.csv" (Raise ParserError);
          mkFile "c.csv" (Ret (mkDF [] []))] ]}
    "api_data_aadhar_enrolment"
  = Raise ParserError.
Proof.
  apply (X3_first_unreadable_file_fails_the_load parse_dmy _ _
           [mkFile "a.csv" (Ret (mkDF [] []));
            mkFile "notes.txt" (Raise FileNotFoundError);
            mkFile "b.csv" (Raise ParserError);
            mkFile "c.csv" (Ret (mkDF [] []))]
           [mkFile "a.csv" (Ret (mkDF [] []))]
           [mkFile "c.csv" (Ret (mkDF [] []))]
           (mkFile "b.csv" (Raise ParserError))).
  - vm_compute. reflexivity.
  - vm_compute. reflexivity.
  - repeat constructor. eexists. reflexivity.
  - reflexivity.
Defined.

Lemma collect_total {A B : Type} (f : A -> outcome B) (g : A -> B) (l : list A) :
  Forall (fun a => f a = Ret (g a)) l -> collect f l = Ret (List.map g l).
Proof.
  induction 1 as [| a l Ha _ IH]; [reflexivity |]. cbn [collect List.map].
  rewrite Ha. cbn [mbind outcome_bind bind]. now rewrite IH.
Qed.

Lemma collect_some_raise {A B : Type} (f : A -> outcome B) (e : exn) (l : list A) :
  (forall a e', f a = Raise e' -> e' = e) ->
  Exists (fun a => exists e', f a = Raise e') l ->
  collect f l = Raise e.
Proof.
  intros He Hex. induction l as [| a l IH]; [inversion Hex |].
  cbn [collect]. destruct (f a) as [b | e'] eqn:Hfa.
  - cbn [mbind outcome_bind bind]. rewrite IH; [reflexivity |].
    inversion Hex as [? ? [e' H] | ? ? H]; subst; [congruence | exact H].
  - cbn [mbind outcome_bind bind]. now rewrite (He a e' Hfa).
Qed.

Lemma collect_raise_inv {A B : Type} (f : A -> outcome B) (e : exn) (l : list A) :
  collect f l = Raise e -> Exists (fun a => f a = Raise e) l.
Proof.
  induction l as [| a l IH]; cbn [collect]; [discriminate |].
  destruct (f a) as [b | e'] eqn:Hfa; cbn [mbind outcome_bind bind].
  - destruct (collect f l) as [bs | e'']; cbn [mbind outcome_bind bind]; [discriminate |].
    intros [= ->]. right. now apply IH.
  - intros [= ->]. now left.
Qed.

Lemma pd_concat_ret {S D : Type} (frames : list (DataFrame S D)) :
  frames <> [] -> pd_concat frames = Ret (concatenated frames).
Proof. destruct frames; [congruence | reflexivity]. Qed.

(** [parse_dates] only fails on a date that does not parse, with
    [ValueError]. *)
Lemma parse_dates_raise (strptime : string -> option Timestamp)
    (raw : DataFrame string string) (e : exn) :
  parse_dates strptime raw = Raise e ->
  Exists (fun r => strptime (date r) = None) (rows raw) /\ e = ValueError.
Proof.
  unfold parse_dates.
  destruct (collect _ (rows raw)) as [rs | e'] eqn:Hc;
    cbn [mbind outcome_bind bind]; [discriminate |].
  intros [= ->]. apply collect_raise_inv in Hc.
  apply List.Exists_exists in Hc as (r & Hr & Hbad).
  destruct (strptime (date r)) eqn:Hd; [discriminate Hbad |].
  injection Hbad as <-. split; [| reflexivity].
  apply List.Exists_exists. now exists r.
Qed.

(** X4: once the CSV files of a folder are read, each with a state column
    of texts, the dates of the rows that survive the cleaning decide
    whether the load returns: when each of these dates is parsed to a day,
    [create] returns the cleaned rows, in order, with their dates parsed.
    The date of a row that the cleaning drops is never parsed. *)
Theorem X4_surviving_dates_decide_the_load :
  forall (strptime : string -> option Timestamp) (data : DataFolder)
         (selected_folder : string) (listing : list File)
         (frames : list (DataFrame string string)),
    data !! selected_folder = Some listing ->
    collect read_csv (List.filter (fun f => Str.endswith (fname f) ".csv") listing)
    = Ret frames ->
    frames <> [] ->
    Forall (fun frame => text_states frame = true) frames ->
    Forall (fun r => strptime (date r) <> None)
           (rows (clean_state (concatenated frames))) ->
    exists df,
      create strptime data selected_folder = Ret df
      /\ columns df = columns (concatenated frames)
      /\ Forall2 (fun r r' => state r' = state r /\ strptime (date r) = Some (date r')
                              /\ cells r' = cells r)
                 (rows (clean_state (concatenated frames))) (rows df).
Proof.
  intros strptime data folder listing frames Hdir Hread Hne _ Hall.
  assert (Hcreate : create strptime data folder
                    = parse_dates strptime (clean_state (concatenated frames))).
  { unfold create. rewrite Hdir, Hread. cbn [mbind outcome_bind bind].
    now rewrite (pd_concat_ret frames Hne). }
  rewrite Hcreate.
  destruct (parse_dates strptime (clean_state (concatenated frames)))
    as [df | e] eqn:Hp.
  - exists df. split; [reflexivity |]. apply parse_dates_rows in Hp as [Hc HF].
    split; [exact Hc | exact HF].
  - exfalso. apply parse_dates_raise in Hp as [Hex _].
    apply List.Exists_exists in Hex as (r & Hr & Hbad).
    rewrite List.Forall_forall in Hall. exact (Hall r Hr Hbad).
Qed.

(** A file whose only row with a bad date is a sentinel row. *)
Lemma X4_surviving_dates_witness :
  exists df, create parse_dmy sentinel_folder "api_data_aadhar_enrolment" = Ret df
             /\ columns df = columns (concatenated [sentinel_frame])
             /\ Forall2 (fun r r' => state r' = state r
                                     /\ parse_dmy (date r) = Some (date r')
                                     /\ cells r' = cells r)
                        (rows (clean_state (concatenated [sentinel_frame]))) (rows df).
Proof.
  apply (X4_surviving_dates_decide_the_load parse_dmy sentinel_folder
           "api_data_aadhar_enrolment" [mkFile "a.csv" (Ret sentinel_frame)]
           [sentinel_frame]).
  - vm_compute. reflexivity.
  - vm_compute. reflexivity.
  - discriminate.
  - repeat constructor.
  - vm_compute. repeat constructor; discriminate.
Defined.

(** ** Order of texts and of group keys *)

Lemma ascii_compare_refl (a : ascii) : Ascii.compare a a = Eq.
Proof. unfold Ascii.compare. apply N.compare_refl. Qed.

Lemma string_compare_refl (a : string) : String.compare a a = Eq.
Proof.
  induction a as [| x a IH]; [reflexivity |]. cbn [String.compare].
  now rewrite ascii_compare_refl.
Qed.

Lemma string_lt_irrefl (a : string) : ~ string_lt a a.
Proof. unfold string_lt. now rewrite string_compare_refl. Qed.

Lemma string_lt_trans (a b c : string) : string_lt a b -> string_lt b c -> string_lt a c.
Proof.
  unfold string_lt. revert b c.
  induction a as [| x a IH]; intros [| y b] [| z c]; cbn [String.compare];
    try discriminate; auto.
  destruct (Ascii.compare x y) eqn:Hxy; try discriminate;
    destruct (Ascii.compare y z) eqn:Hyz; try discriminate; intros Hab Hbc.
  - apply Ascii.compare_eq_iff in Hxy, Hyz. subst.
    rewrite ascii_compare_refl. now apply IH with b.
  - apply Ascii.compare_eq_iff in Hxy. subst. now rewrite Hyz.
  - apply Ascii.compare_eq_iff in Hyz. subst. now rewrite Hxy.
  - unfold Ascii.compare in *. rewrite N.compare_lt_iff in Hxy, Hyz.
    replace (N_of_ascii x ?= N_of_ascii z)%N with Lt; [reflexivity |].
    symmetry. apply N.compare_lt_iff. lia.
Qed.

Lemma string_leb_lt (a b : string) : String.leb a b = true -> a <> b -> string_lt a b.
Proof.
  unfold String.leb, string_lt. destruct (String.compare a b) eqn:H; try discriminate.
  - apply String.compare_eq_iff in H. congruence.
  - reflexivity.
Qed.

Lemma string_leb_false_lt (a b : string) : String.leb a b = false -> string_lt b a.
Proof.
  unfold String.leb, string_lt. rewrite (String.compare_antisym b a).
  destruct (String.compare a b); try discriminate. reflexivity.
Qed.

Lemma month_state_lt_irrefl (a : Z * string) : ~ month_state_lt a a.
Proof. intros [H | [_ H]]; [lia | now apply string_lt_irrefl in H]. Qed.

Lemma month_state_lt_trans (a b c : Z * string) :
  month_state_lt a b -> month_state_lt b c -> month_state_lt a c.
Proof.
  unfold month_state_lt. intros [H1 | [H1 H1']] [H2 | [H2 H2']].
  - left. lia.
  - left. lia.
  - left. lia.
  - right. split; [lia |]. now apply string_lt_trans with (snd b).
Qed.

Lemma month_state_leb_lt (a b : Z * string) :
  month_state_leb a b = true -> a <> b -> month_state_lt a b.
Proof.
  destruct a as [m s], b as [m' s']. unfold month_state_leb, month_state_lt.
  cbn [fst snd]. intros H Hne.
  apply orb_true_iff in H as [H | H]; [left; lia |].
  apply andb_true_iff in H as [Hm Hs]. apply Z.eqb_eq in Hm. subst m'.
  right. split; [reflexivity |]. apply string_leb_lt; [exact Hs | congruence].
Qed.

Lemma month_state_leb_false_lt (a b : Z * string) :
  month_state_leb a b = false -> month_state_lt b a.
Proof.
  destruct a as [m s], b as [m' s']. unfold month_state_leb, month_state_lt.
  cbn [fst snd]. intros H.
  apply orb_false_iff in H as [H1 H2]. apply Z.ltb_ge in H1.
  destruct (Z.eqb_spec m m') as [-> | Hne].
  - right. split; [reflexivity |]. now apply string_leb_false_lt.
  - left. lia.
Qed.

Section SortedKeys.
Context {K : Type} (eqb leb : K -> K -> bool) (lt : K -> K -> Prop).
Hypothesis eqb_spec : forall a b, eqb a b = true <-> a = b.
Hypothesis lt_trans : forall a b c, lt a b -> lt b c -> lt a c.
Hypothesis lt_irrefl : forall a, ~ lt a a.
Hypothesis leb_lt : forall a b, leb a b = true -> a <> b -> lt a b.
Hypothesis leb_false_lt : forall a b, leb a b = false -> lt b a.

Lemma insert_key_sorted_lt (k : K) (ks : list K) :
  StronglySorted lt ks -> StronglySorted lt (insert_key eqb leb k ks).
Proof.
  induction 1 as [| a ks Hs IH Ha]; cbn [insert_key].
  - repeat constructor.
  - destruct (eqb k a) eqn:Heq; [now constructor |].
    assert (Hne : k <> a) by (intros ->; rewrite (proj2 (eqb_spec a a) eq_refl) in Heq;
                              discriminate).
    destruct (leb k a) eqn:Hle.
    + constructor; [now constructor |].
      constructor; [now apply leb_lt |].
      eapply Forall_impl; [| exact Ha]. cbn. intros x Hx.
      apply lt_trans with a; [now apply leb_lt | exact Hx].
    + constructor; [exact IH |].
      apply List.Forall_forall. intros x Hx.
      apply (proj1 (In_insert_key eqb leb eqb_spec _ _ _)) in Hx as [-> | Hx];
        [now apply leb_false_lt |].
      rewrite List.Forall_forall in Ha. now apply Ha.
Qed.

(** The keys of the groups come out strictly ascending. *)
Lemma group_keys_sorted_lt (ks : list K) : StronglySorted lt (group_keys eqb leb ks).
Proof.
  induction ks as [| k ks IH]; cbn [group_keys fold_right]; [constructor |].
  now apply insert_key_sorted_lt.
Qed.

Lemma sorted_NoDup (l : list K) : StronglySorted lt l -> List.NoDup l.
Proof.
  induction 1 as [| a l _ IH Ha]; constructor; [| exact IH].
  intros Hin. rewrite List.Forall_forall in Ha. exact (lt_irrefl a (Ha a Hin)).
Qed.

(** No group key is listed twice. *)
Lemma group_keys_NoDup (ks : list K) : List.NoDup (group_keys eqb leb ks).
Proof. apply sorted_NoDup, group_keys_sorted_lt. Qed.
End SortedKeys.

Lemma state_keys_sorted (ks : list string) :
  StronglySorted string_lt (group_keys String.eqb String.leb ks).
Proof.
  apply group_keys_sorted_lt.
  - apply String.eqb_eq.
  - apply string_lt_trans.
  - apply string_leb_lt.
  - apply string_leb_false_lt.
Qed.

Lemma state_keys_NoDup (ks : list string) :
  List.NoDup (group_keys String.eqb String.leb ks).
Proof.
  apply (sorted_NoDup string_lt string_lt_irrefl), state_keys_sorted.
Qed.

Lemma month_state_keys_NoDup (ks : list (Z * string)) :
  List.NoDup (group_keys month_state_eqb month_state_leb ks).
Proof.
  apply (sorted_NoDup month_state_lt month_state_lt_irrefl).
  apply group_keys_sorted_lt.
  - apply month_state_eqb_spec.
  - apply month_state_lt_trans.
  - apply month_state_leb_lt.
  - apply month_state_leb_false_lt.
Qed.

Lemma month_keys_NoDup (ks : list Z) : List.NoDup (group_keys Z.eqb Z.leb ks).
Proof.
  apply (sorted_NoDup Z.lt Z.lt_irrefl), group_keys_sorted.
Qed.

(** ** Sums over groups *)

Lemma sum64_wrap (l : list Z) : sum64 l = wrap64 (zsum l).
Proof.
  rewrite <- (wrap64_id (sum64 l)) by apply sum64_range.
  apply wrap64_proper, sum64_eqm.
Qed.

Lemma zsum_indicator {K : Type} (eqb : K -> K -> bool) (kr : K) (v : Z) (keys : list K) :
  (forall a b, eqb a b = true <-> a = b) ->
  List.NoDup keys ->
  zsum (List.map (fun k => if eqb kr k then v else 0) keys)
  = if existsb (eqb kr) keys then v else 0.
Proof.
  intros Heqb Hnd. induction Hnd as [| a l Ha _ IH]; [reflexivity |].
  cbn [List.map zsum fold_right existsb].
  fold (zsum (List.map (fun k => if eqb kr k then v else 0) l)). rewrite IH.
  destruct (eqb kr a) eqn:Hka; cbn [orb]; [| lia].
  apply Heqb in Hka. subst a.
  destruct (existsb (eqb kr) l) eqn:Hex; [| lia].
  apply existsb_exists in Hex as (x & Hx & Hkx). apply Heqb in Hkx. subst x.
  contradiction.
Qed.

(** Summing the sums of the groups of distinct keys is summing over the
    rows whose key is one of them. *)
Lemma zsum_groups {R K : Type} (f : R -> Z) (key : R -> K) (eqb : K -> K -> bool)
    (keys : list K) (rs : list R) :
  (forall a b, eqb a b = true <-> a = b) ->
  List.NoDup keys ->
  zsum (List.map (fun k => zsum (List.map f (List.filter (fun r => eqb (key r) k) rs))) keys)
  = zsum (List.map f (List.filter (fun r => existsb (eqb (key r)) keys) rs)).
Proof.
  intros Heqb Hnd. induction rs as [| r rs IH].
  - cbn [List.filter List.map zsum fold_right]. apply zsum_map_zero.
  - cbn [List.filter].
    rewrite (List.map_ext
               (fun k => zsum (List.map f (if eqb (key r) k
                                           then r :: List.filter (fun r0 => eqb (key r0) k) rs
                                           else List.filter (fun r0 => eqb (key r0) k) rs)))
               (fun k => (if eqb (key r) k then f r else 0)
                         + zsum (List.map f (List.filter (fun r0 => eqb (key r0) k) rs)))).
    2: { intros k. unfold zsum. destruct (eqb (key r) k); cbn [List.map fold_right]; lia. }
    rewrite zsum_map_add, IH, (zsum_indicator eqb (key r) (f r) keys Heqb Hnd).
    unfold zsum. destruct (existsb (eqb (key r)) keys); cbn [List.map fold_right]; lia.
Qed.

Lemma filter_all {A : Type} (p : A -> bool) (l : list A) :
  (forall x, In x l -> p x = true) -> List.filter p l = l.
Proof.
  induction l as [| x l IH]; intros H; [reflexivity |]. cbn [List.filter].
  rewrite (H x) by now left. f_equal. apply IH. intros y Hy. apply H. now right.
Qed.

(** ** State-wise tables *)

(** When the range is not narrower than the record set, every record lies
    between the two bounds. *)
Lemma not_narrower_all_between (df : Records) (ts te : Timestamp) :
  ts_lt (date_min df) (Some ts) || ts_lt (Some te) (date_max df) = false ->
  forall r, In r (rows df) -> between (Some ts) (Some te) r = true.
Proof.
  intros Hcond r Hr. apply orb_false_iff in Hcond as [H1 H2].
  unfold date_min, date_max in *.
  assert (Hd : In (date r) (List.map date (rows df))) by now apply in_map.
  destruct (ts_min (List.map date (rows df))) as [m |] eqn:Hmin.
  2: { destruct (List.map date (rows df)); [contradiction | discriminate]. }
  destruct (ts_max (List.map date (rows df))) as [M |] eqn:Hmax.
  2: { destruct (List.map date (rows df)); [contradiction | discriminate]. }
  apply ts_min_spec in Hmin as [_ Hm]. apply ts_max_spec in Hmax as [_ HM].
  specialize (Hm _ Hd). specialize (HM _ Hd).
  cbn [ts_lt] in H1, H2. apply ts_ltb_false_leb in H1, H2.
  unfold between. cbn [ts_le].
  rewrite (ts_leb_trans _ _ _ H1 Hm), (ts_leb_trans _ _ _ HM H2). reflexivity.
Qed.

(** Whether the range is narrower or not, the table is the one of the
    records between the bounds. *)
Lemma state_table_by_range (cs : list string) (df : Records) (ts te : Timestamp) :
  forallb (has_column df) cs = true ->
  (if ts_lt (date_min df) (Some ts) || ts_lt (Some te) (date_max df)
   then groupby_state cs (select (between (Some ts) (Some te)) df)
   else Ret (mkDF cs (groupby_sum (fun r => state r) String.eqb String.leb
                                  (fun k sums => mkRow k tt sums) cs (rows df))))
  = Ret (mkDF cs (groupby_sum (fun r => state r) String.eqb String.leb
                              (fun k sums => mkRow k tt sums) cs
                              (List.filter (between (Some ts) (Some te)) (rows df)))).
Proof.
  intros Hcols.
  destruct (ts_lt (date_min df) (Some ts) || ts_lt (Some te) (date_max df)) eqn:Hcond.
  - now rewrite groupby_state_ret by exact Hcols.
  - now rewrite (filter_all _ _ (not_narrower_all_between df ts te Hcond)).
Qed.

Section StateTables.
Variable to_datetime : string -> outcome (option Timestamp).

(** What a state-wise dispatch returns for bounds that are dates. *)
Lemma state_wise_ret (folder : string) (df : Records) (s e : string) (ts te : Timestamp) :
  known_folder folder ->
  forallb (has_column df) (measures_of folder) = true ->
  start_bound to_datetime df s = Ret (Some ts) ->
  end_bound to_datetime df e = Ret (Some te) ->
  state_wise to_datetime folder df s e
  = (Ret (Some (table_by_state folder df ts te,
                mkFigure (table_by_state folder df ts te) (measures_of folder) [],
                ("plots/" ++ state_plot_name (with_total folder df) (Some ts) (Some te))
                  %string)),
     with_total folder df).
Proof.
  intros Hk Hcols Hs He.
  destruct (analysis_columns_present folder df Hcols) as [Hc _].
  pose proof (state_table_by_range _ _ ts te Hc) as Hsts.
  pose proof (groupby_state_ret _ _ Hc) as Hall.
  rewrite <- (start_bound_with_total to_datetime folder) in Hs.
  rewrite <- (end_bound_with_total to_datetime folder) in He.
  unfold table_by_state.
  destruct Hk as [-> | [-> | ->]]; unfold state_wise;
    cbn [String.eqb Ascii.eqb Bool.eqb]; unfold dispatch.
  - rewrite (set_total_enrol df Hcols). unfold enrol_state_wise.
    rewrite Hs, He. cbn [mbind outcome_bind bind].
    change ["age_0_5"; "age_5_17"; "age_18_greater"; "total"]
      with (measures_of "api_data_aadhar_enrolment" ++ ["total"]).
    rewrite Hall. cbn [mbind outcome_bind bind]. rewrite Hsts. reflexivity.
  - rewrite (set_total_bio df Hcols). unfold bio_state_wise.
    rewrite Hs, He. cbn [mbind outcome_bind bind].
    change ["bio_age_5_17"; "bio_age_17_"; "total"]
      with (measures_of "api_data_aadhar_biometric" ++ ["total"]).
    rewrite Hall. cbn [mbind outcome_bind bind]. rewrite Hsts. reflexivity.
  - rewrite (set_total_demo df Hcols). unfold demo_state_wise.
    rewrite Hs, He. cbn [mbind outcome_bind bind].
    change ["demo_age_5_17"; "demo_age_17_"; "total"]
      with (measures_of "api_data_aadhar_demographic" ++ ["total"]).
    rewrite Hall. cbn [mbind outcome_bind bind]. rewrite Hsts. reflexivity.
Qed.
End StateTables.

Lemma filter_map_comm {A B : Type} (p : B -> bool) (f : A -> B) (l : list A) :
  List.filter p (List.map f l) = List.map f (List.filter (fun x => p (f x)) l).
Proof.
  induction l as [| x l IH]; [reflexivity |]. cbn [List.map List.filter].
  destruct (p (f x)); cbn [List.map]; now rewrite IH.
Qed.

Lemma filter_filter_and {A : Type} (p q : A -> bool) (l : list A) :
  List.filter p (List.filter q l) = List.filter (fun x => p x && q x) l.
Proof.
  induction l as [| x l IH]; [reflexivity |]. cbn [List.filter].
  destruct (q x); cbn [List.filter]; rewrite ?andb_true_r, ?andb_false_r;
    destruct (p x); now rewrite IH.
Qed.

Lemma states_of_state_groups {D : Type} (cs : list string) (rs : list (Row string D)) :
  List.map state
    (groupby_sum (fun r => state r) String.eqb String.leb
                 (fun k sums => mkRow k tt sums) cs rs)
  = group_keys String.eqb String.leb (List.map state rs).
Proof.
  unfold groupby_sum. rewrite List.map_map. cbn [state]. apply List.map_id.
Qed.

Lemma cell_with_total (folder : string) (r : Row string Timestamp) (c : string) :
  cell (set_cell r "total" (total_of folder r)) c = value_of folder r c.
Proof.
  unfold value_of. destruct (String.eqb_spec c "total") as [-> | Hne].
  - apply cell_set_cell_eq.
  - apply cell_set_cell_ne. congruence.
Qed.

Lemma in_cols_existsb (c : string) (cs : list string) :
  In c cs -> existsb (String.eqb c) cs = true.
Proof. intros H. apply existsb_exists. exists c. split; [exact H | apply String.eqb_refl]. Qed.

(** The records, with [total] assigned, between two bounds. *)
Lemma between_rows_with_total (folder : string) (df : Records) (ts te : Timestamp) :
  List.filter (between (Some ts) (Some te)) (rows (with_total folder df))
  = List.map (fun r => set_cell r "total" (total_of folder r))
             (List.filter (between (Some ts) (Some te)) (rows df)).
Proof. unfold with_total; cbn [rows]. now rewrite filter_map_comm. Qed.

Section StateTableContent.
Variable to_datetime : string -> outcome (option Timestamp).

(** X5: on a frame whose records hold a date and an [int64] in every
    measure column, for bounds that are dates, the table of a state-wise
    analysis has one row for each state with a record dated between the
    bounds, both included, in strictly ascending order of state, and each
    of its cells is the [int64] sum of the column over these records of the
    state. *)
Theorem X5_state_table_content :
  forall (selected_folder : string) (df : Records) (s e : string) (ts te : Timestamp),
    known_folder selected_folder ->
    forallb (has_column df) (measures_of selected_folder) = true ->
    int64_measures selected_folder df = true ->
    start_bound to_datetime df s = Ret (Some ts) ->
    end_bound to_datetime df e = Ret (Some te) ->
    exists tbl fig path df',
      state_wise to_datetime selected_folder df s e = (Ret (Some (tbl, fig, path)), df')
      /\ StronglySorted string_lt (List.map state (rows tbl))
      /\ (forall x : string,
             In x (List.map state (rows tbl))
             <-> exists r, In r (rows df) /\ state r = x
                           /\ between (Some ts) (Some te) r = true)
      /\ (forall (row : Row string unit) (c : string),
             In row (rows tbl) ->
             In c (measures_of selected_folder ++ ["total"]) ->
             cell row c
             = wrap64 (zsum (List.map (fun r => value_of selected_folder r c)
                               (List.filter
                                  (fun r => String.eqb (state r) (state row)
                                            && between (Some ts) (Some te) r)
                                  (rows df))))).
Proof.
  intros folder df s e ts te Hk Hcols _ Hs He.
  eexists _, _, _, _. split;
    [exact (state_wise_ret to_datetime folder df s e ts te Hk Hcols Hs He) |].
  unfold table_by_state; cbn [rows]. rewrite between_rows_with_total.
  split; [| split].
  - rewrite states_of_state_groups. apply state_keys_sorted.
  - intros x. rewrite states_of_state_groups.
    rewrite (In_group_keys String.eqb String.leb String.eqb_eq), List.map_map.
    cbn [state set_cell]. rewrite in_map_iff. split.
    + intros (r & <- & Hr). apply filter_In in Hr as [Hr Hb]. now exists r.
    + intros (r & Hr & <- & Hb). exists r. split; [reflexivity |].
      apply filter_In. now split.
  - intros row c Hrow Hc.
    apply (In_groupby_sum _ _ _ _ _ String.eqb_eq) in Hrow as (r1 & _ & ->).
    unfold cell at 1; cbn [cells state].
    rewrite lookup_sum_cells, (in_cols_existsb c _ Hc). cbn [default from_option id].
    rewrite sum64_wrap. f_equal. f_equal.
    rewrite filter_map_comm, List.map_map, filter_filter_and.
    cbn [state set_cell].
    apply List.map_ext. intros r. apply cell_with_total.
Qed.
End StateTableContent.

Lemma X5_state_table_witness :
  exists tbl fig path df',
    state_wise parse_iso "api_data_aadhar_enrolment" example_records
               "2024-01-10" "2024-02-10"
    = (Ret (Some (tbl, fig, path)), df')
    /\ StronglySorted string_lt (List.map state (rows tbl))
    /\ (forall x : string,
           In x (List.map state (rows tbl))
           <-> exists r, In r (rows example_records) /\ state r = x
                         /\ between (Some (mkTs 2024 1 10)) (Some (mkTs 2024 2 10)) r = true)
    /\ (forall (row : Row string unit) (c : string),
           In row (rows tbl) ->
           In c (measures_of "api_data_aadhar_enrolment" ++ ["total"]) ->
           cell row c
           = wrap64 (zsum (List.map (fun r => value_of "api_data_aadhar_enrolment" r c)
                             (List.filter
                                (fun r => String.eqb (state r) (state row)
                                          && between (Some (mkTs 2024 1 10))
                                                     (Some (mkTs 2024 2 10)) r)
                                (rows example_records))))).
Proof.
  apply (X5_state_table_content parse_iso "api_data_aadhar_enrolment" example_records
           "2024-01-10" "2024-02-10" (mkTs 2024 1 10) (mkTs 2024 2 10)).
  - now left.
  - vm_compute. reflexivity.
  - vm_compute. reflexivity.
  - vm_compute. reflexivity.
  - vm_compute. reflexivity.
Defined.

(** ** Date-wise tables *)

Lemma base_columns_of_series (folder : string) (df : Records) (stv : string) (c : string) :
  known_folder folder ->
  In c ("month" :: measures_of folder ++ ["total"]) ->
  column (series_of folder df stv) c
  = column (monthly (measures_of folder ++ ["total"]) stv df) c.
Proof.
  intros [-> | [-> | ->]] Hc;
    cbn [series_of measures_of String.eqb Ascii.eqb Bool.eqb app In] in *;
    repeat (destruct Hc as [<- | Hc]; [| ]); try contradiction;
    unfold enrol_series, bio_series, demo_series; cbv zeta;
    repeat (rewrite column_setitem by lengths; cbn [String.eqb Ascii.eqb Bool.eqb]);
    reflexivity.
Qed.

(** The rows kept for the second grouping are the rows whose state passes
    the filter. *)
Lemma selection_as_filter {D : Type} (stv : string) (mt : list (Row string D)) :
  (if negb (String.eqb stv "")
   then List.filter (fun r => String.eqb (state r) stv) mt else mt)
  = List.filter (fun r => passes stv (state r)) mt.
Proof.
  unfold passes. destruct (String.eqb stv ""); cbn [negb orb]; [| reflexivity].
  symmetry. now apply filter_all.
Qed.

Lemma filter_ext_In {A : Type} (p q : A -> bool) (l : list A) :
  (forall x, In x l -> p x = q x) -> List.filter p l = List.filter q l.
Proof.
  induction l as [| x l IH]; intros H; [reflexivity |]. cbn [List.filter].
  rewrite (H x) by now left. rewrite IH; [reflexivity |].
  intros y Hy. apply H. now right.
Qed.

(** A key of the first grouping is among the keys of month [m] that pass
    the filter exactly when its month is [m] and its state passes. *)
Lemma key_among_selected (stv : string) (m : Z) (keys : list (Z * string))
    (k : Z * string) :
  In k keys ->
  existsb (month_state_eqb k)
          (List.filter (fun k' => (fst k' =? m) && passes stv (snd k')) keys)
  = (fst k =? m) && passes stv (snd k).
Proof.
  intros Hk. destruct ((fst k =? m) && passes stv (snd k)) eqn:Hp.
  - apply existsb_exists. exists k. split.
    + apply filter_In. now split.
    + now apply month_state_eqb_spec.
  - apply not_true_is_false. intros Hex.
    apply existsb_exists in Hex as (k' & Hk' & Heq).
    apply month_state_eqb_spec in Heq. subst k'.
    apply filter_In in Hk' as [_ Hk']. congruence.
Qed.

(** The sums of the second grouping for month [m] are the sums over the
    rows of month [m] whose state passes the filter: grouping by month and
    state first changes nothing. *)
Lemma monthly_cell_one_step (cs : list string) (stv : string)
    (rs : list (Row string Timestamp)) (m : Z) (c : string) :
  In c cs -> c <> "month" ->
  sum64 (List.map (fun r => cell r c)
           (List.filter (fun r => Z.eqb (cell r "month") m)
              (if negb (String.eqb stv "")
               then List.filter (fun r => String.eqb (state r) stv)
                      (groupby_sum (fun r => (cell r "month", state r))
                         month_state_eqb month_state_leb
                         (fun k sums => mkRow (snd k) tt (<["month" := fst k]> sums)) cs rs)
               else groupby_sum (fun r => (cell r "month", state r))
                      month_state_eqb month_state_leb
                      (fun k sums => mkRow (snd k) tt (<["month" := fst k]> sums)) cs rs)))
  = wrap64 (zsum (List.map (fun r => cell r c)
                    (List.filter (fun r => (cell r "month" =? m) && passes stv (state r))
                                 rs))).
Proof.
  intros Hc Hne. rewrite selection_as_filter, filter_filter_and.
  unfold groupby_sum at 1.
  set (keys := group_keys month_state_eqb month_state_leb
                 (List.map (fun r => (cell r "month", state r)) rs)).
  rewrite filter_map_comm, List.map_map.
  rewrite (filter_ext_In _ (fun k => (fst k =? m) && passes stv (snd k))).
  2: { intros k _. unfold cell at 1; cbn [cells state].
       now rewrite lookup_insert_eq. }
  rewrite (List.map_ext _
             (fun k => sum64 (List.map (fun r => cell r c)
                                (List.filter (fun r => month_state_eqb
                                                         (cell r "month", state r) k) rs)))).
  2: { intros k. unfold cell at 1; cbn [cells].
       rewrite lookup_insert_ne by congruence.
       now rewrite lookup_sum_cells, (in_cols_existsb c cs Hc). }
  rewrite sum64_wrap. apply wrap64_proper.
  set (keysF := List.filter (fun k => (fst k =? m) && passes stv (snd k)) keys).
  transitivity
    (zsum (List.map
             (fun k => zsum (List.map (fun r => cell r c)
                               (List.filter (fun r => month_state_eqb
                                                        (cell r "month", state r) k) rs)))
             keysF)).
  { apply zsum_eqm, Forall2_map_in. intros k _. apply sum64_eqm. }
  rewrite (zsum_groups _ (fun r => (cell r "month", state r)) month_state_eqb keysF rs
             month_state_eqb_spec).
  2: { apply List.NoDup_filter, month_state_keys_NoDup. }
  apply eqm64_of_eq. f_equal. f_equal. apply filter_ext_In. intros r Hr.
  unfold keysF. rewrite key_among_selected; [reflexivity |].
  apply (In_group_keys _ _ month_state_eqb_spec).
  now apply (in_map (fun r => (cell r "month", state r))).
Qed.

(** The rows the date-wise analyses group: the records with [total] and
    [month] assigned. *)
Lemma analysed_rows (folder : string) (df : Records) :
  rows (set_month (with_total folder df))
  = List.map (fun r => set_cell (set_cell r "total" (total_of folder r))
                                "month" (to_period_M (date r)))
             (rows df).
Proof.
  rewrite set_month_rows. unfold with_total; cbn [rows]. now rewrite List.map_map.
Qed.

(** A column of the frame [dts], read off its column of months. *)
Lemma monthly_column_one_step (folder : string) (df : Records) (stv : string) (c : string) :
  In c (measures_of folder ++ ["total"]) -> c <> "month" ->
  column (monthly (measures_of folder ++ ["total"]) stv (with_total folder df)) c
  = List.map (fun m => month_sum folder df stv m c)
             (column (monthly (measures_of folder ++ ["total"]) stv (with_total folder df))
                     "month").
Proof.
  intros Hc Hne. rewrite monthly_months. cbv zeta.
  unfold column, monthly, monthly_rows; cbn [rows]. cbv zeta.
  unfold groupby_sum at 1. rewrite List.map_map.
  apply List.map_ext. intros m.
  unfold cell at 1; cbn [cells]. rewrite lookup_insert_ne by congruence.
  rewrite lookup_sum_cells, (in_cols_existsb c _ Hc). cbn [default from_option id].
  rewrite monthly_cell_one_step by assumption.
  unfold month_sum. f_equal. f_equal.
  rewrite analysed_rows, filter_map_comm, List.map_map.
  cbn [state set_cell].
  rewrite (filter_ext_In _ (fun r => (to_period_M (date r) =? m) && passes stv (state r))).
  2: { intros r _. now rewrite cell_set_cell_eq. }
  apply List.map_ext. intros r.
  rewrite cell_set_cell_ne by congruence. apply cell_with_total.
Qed.

Lemma measure_is_not_month (folder c : string) :
  In c (measures_of folder ++ ["total"]) -> c <> "month".
Proof.
  intros Hc.
  destruct (measures_are_summed folder c) as [Hne _]; [| exact Hne].
  apply in_app_or in Hc as [Hc | [<- | []]]; [now right | now left].
Qed.

(** X6: on a frame whose records hold an [int64] in every measure column,
    in the table of a date-wise analysis the cell of a row in a measure
    column or in [total] is the [int64] sum of that column over the records
    of the row's month that pass the region filter.  The intermediate sums
    per month and state do not show in the result. *)
Theorem X6_date_table_content :
  forall (selected_folder : string) (df df' : Records) (stv : string)
         (tbl : DataFrame unit unit) (fig : Figure unit) (path : string) (c : string),
    date_wise selected_folder df stv = (Ret (Some (tbl, fig, path)), df') ->
    int64_measures selected_folder df = true ->
    In c (measures_of selected_folder ++ ["total"]) ->
    column tbl c
    = List.map (fun m => month_sum selected_folder df stv m c) (column tbl "month").
Proof.
  intros folder df df' stv tbl fig path c H _ Hc.
  apply date_wise_inv in H as (Hk & _ & Hp & _).
  pose proof (measure_is_not_month folder c Hc) as Hne.
  rewrite (column_project _ _ _ c Hp), (column_project _ _ _ "month" Hp);
    [| reflexivity | apply in_cols_existsb; now right].
  rewrite !base_columns_of_series; [| exact Hk | now left | exact Hk | now right].
  now apply monthly_column_one_step.
Qed.

Lemma X6_date_table_witness :
  column (fst (fst example_result)) "total"
  = List.map (fun m => month_sum "api_data_aadhar_enrolment" example_records "" m "total")
             (column (fst (fst example_result)) "month").
Proof.
  apply (X6_date_table_content "api_data_aadhar_enrolment" example_records
           (snd (date_wise "api_data_aadhar_enrolment" example_records "")) ""
           (fst (fst example_result)) (snd (fst example_result)) (snd example_result)).
  - vm_compute. reflexivity.
  - vm_compute. reflexivity.
  - cbn. auto.
Defined.

(** ** Totals are kept by the grouping *)

Lemma passes_iff (stv x : string) : passes stv x = true <-> stv = "" \/ x = stv.
Proof.
  unfold passes. rewrite orb_true_iff, !String.eqb_eq. reflexivity.
Qed.

(** The column of sums of [dts] adds up to the sum over the records that
    pass the region filter, modulo [2^64]. *)
Lemma date_table_total (folder : string) (df : Records) (stv : string) (c : string) :
  eqm64
    (zsum (List.map (fun m => month_sum folder df stv m c)
             (column (monthly (measures_of folder ++ ["total"]) stv
                        (with_total folder df)) "month")))
    (zsum (List.map (fun r => value_of folder r c)
             (List.filter (fun r => passes stv (state r)) (rows df)))).
Proof.
  set (months := column _ "month").
  set (rs := List.filter (fun r => passes stv (state r)) (rows df)).
  transitivity
    (zsum (List.map
             (fun m => zsum (List.map (fun r => value_of folder r c)
                               (List.filter (fun r => Z.eqb (to_period_M (date r)) m) rs)))
             months)).
  { apply zsum_eqm, Forall2_map_in. intros m _. unfold month_sum.
    rewrite wrap64_eqm. unfold rs. rewrite filter_filter_and. reflexivity. }
  rewrite (zsum_groups _ (fun r => to_period_M (date r)) Z.eqb months rs Z.eqb_eq).
  2: { apply (sorted_NoDup Z.lt Z.lt_irrefl). apply monthly_months_sorted. }
  apply eqm64_of_eq. f_equal. f_equal. apply filter_all. intros r Hr.
  apply existsb_exists. exists (to_period_M (date r)). split; [| apply Z.eqb_refl].
  apply In_monthly_months.
  apply filter_In in Hr as [Hr Hp]. apply passes_iff in Hp.
  destruct (In_with_total_rows folder df
              (fun s d => (stv = "" \/ s = stv) /\ to_period_M d = to_period_M (date r)))
    as [_ Hback].
  destruct Hback as (r1 & Hr1 & Hp1 & Hm1); [now exists r |]. now exists r1.
Qed.

(** X7: on a frame whose records hold a date and an [int64] in every
    measure column, the values of a measure column (or of [total]) in the
    table of a date-wise analysis add up to the sum of that column over the
    records that pass the region filter, in [int64] arithmetic: no such
    record is counted twice and none is lost.  (A record without a date,
    which the code can hold and the groupings drop, is no record of
    [Records].) *)
Theorem X7_date_table_keeps_the_total :
  forall (selected_folder : string) (df df' : Records) (stv : string)
         (tbl : DataFrame unit unit) (fig : Figure unit) (path : string) (c : string),
    date_wise selected_folder df stv = (Ret (Some (tbl, fig, path)), df') ->
    int64_measures selected_folder df = true ->
    In c (measures_of selected_folder ++ ["total"]) ->
    wrap64 (zsum (column tbl c))
    = wrap64 (zsum (List.map (fun r => value_of selected_folder r c)
                      (List.filter (fun r => passes stv (state r)) (rows df)))).
Proof.
  intros folder df df' stv tbl fig path c H _ Hc.
  apply date_wise_inv in H as (Hk & _ & Hp & _).
  pose proof (measure_is_not_month folder c Hc) as Hne.
  rewrite (column_project _ _ _ c Hp) by (apply in_cols_existsb; now right).
  rewrite base_columns_of_series; [| exact Hk | now right].
  rewrite monthly_column_one_step by assumption.
  apply wrap64_proper, date_table_total.
Qed.

Lemma X7_date_table_total_witness :
  wrap64 (zsum (column (fst (fst example_result)) "age_0_5"))
  = wrap64 (zsum (List.map (fun r => value_of "api_data_aadhar_enrolment" r "age_0_5")
                    (List.filter (fun r => passes "" (state r)) (rows example_records)))).
Proof.
  apply (X7_date_table_keeps_the_total "api_data_aadhar_enrolment" example_records
           (snd (date_wise "api_data_aadhar_enrolment" example_records "")) ""
           (fst (fst example_result)) (snd (fst example_result)) (snd example_result)).
  - vm_compute. reflexivity.
  - vm_compute. reflexivity.
  - cbn. auto.
Defined.

(** The sums per state add up to the sum over all rows, modulo [2^64]. *)
Lemma state_groups_total {D : Type} (cs : list string) (rs : list (Row string D))
    (c : string) :
  In c cs ->
  eqm64
    (zsum (List.map (fun r => cell r c)
             (groupby_sum (fun r => state r) String.eqb String.leb
                          (fun k sums => mkRow k tt sums) cs rs)))
    (zsum (List.map (fun r => cell r c) rs)).
Proof.
  intros Hc. unfold groupby_sum. rewrite List.map_map.
  set (keys := group_keys String.eqb String.leb (List.map state rs)).
  transitivity
    (zsum (List.map
             (fun k => zsum (List.map (fun r => cell r c)
                               (List.filter (fun r => String.eqb (state r) k) rs)))
             keys)).
  { apply zsum_eqm, Forall2_map_in. intros k _.
    unfold cell at 1; cbn [cells].
    rewrite lookup_sum_cells, (in_cols_existsb c cs Hc). cbn [default from_option id].
    apply sum64_eqm. }
  rewrite (zsum_groups _ (fun r => state r) String.eqb keys rs String.eqb_eq).
  2: { apply state_keys_NoDup. }
  apply eqm64_of_eq. f_equal. f_equal. apply filter_all. intros r Hr.
  apply existsb_exists. exists (state r). split; [| apply String.eqb_refl].
  apply (In_group_keys _ _ String.eqb_eq). now apply in_map.
Qed.

Lemma state_table_total (folder : string) (df : Records) (ts te : Timestamp) (c : string) :
  In c (measures_of folder ++ ["total"]) ->
  wrap64 (zsum (column (table_by_state folder df ts te) c))
  = wrap64 (zsum (List.map (fun r => value_of folder r c)
                    (List.filter (between (Some ts) (Some te)) (rows df)))).
Proof.
  intros Hc. apply wrap64_proper. unfold column, table_by_state; cbn [rows].
  rewrite (state_groups_total _ _ c Hc), between_rows_with_total, List.map_map.
  apply eqm64_of_eq. f_equal. apply List.map_ext. intros r. apply cell_with_total.
Qed.

Section StateTotals.
Variable to_datetime : string -> outcome (option Timestamp).

(** X8: on a frame whose records hold a date and an [int64] in every
    measure column, for bounds that are dates, the values of a measure
    column (or of [total]) in the table of a state-wise analysis add up to
    the sum of that column over the records dated between the bounds, in
    [int64] arithmetic. *)
Theorem X8_state_table_keeps_the_total :
  forall (selected_folder : string) (df : Records) (s e : string) (ts te : Timestamp)
         (c : string),
    known_folder selected_folder ->
    forallb (has_column df) (measures_of selected_folder) = true ->
    int64_measures selected_folder df = true ->
    start_bound to_datetime df s = Ret (Some ts) ->
    end_bound to_datetime df e = Ret (Some te) ->
    In c (measures_of selected_folder ++ ["total"]) ->
    exists tbl fig path df',
      state_wise to_datetime selected_folder df s e = (Ret (Some (tbl, fig, path)), df')
      /\ wrap64 (zsum (column tbl c))
         = wrap64 (zsum (List.map (fun r => value_of selected_folder r c)
                           (List.filter (between (Some ts) (Some te)) (rows df)))).
Proof.
  intros folder df s e ts te c Hk Hcols _ Hs He Hc.
  eexists _, _, _, _. split;
    [exact (state_wise_ret to_datetime folder df s e ts te Hk Hcols Hs He) |].
  now apply state_table_total.
Qed.
End StateTotals.

Lemma X8_state_table_total_witness :
  exists tbl fig path df',
    state_wise parse_iso "api_data_aadhar_enrolment" example_records
               "2024-01-10" "2024-02-10"
    = (Ret (Some (tbl, fig, path)), df')
    /\ wrap64 (zsum (column tbl "total"))
       = wrap64 (zsum (List.map (fun r => value_of "api_data_aadhar_enrolment" r "total")
                         (List.filter (between (Some (mkTs 2024 1 10))
                                               (Some (mkTs 2024 2 10)))
                                      (rows example_records)))).
Proof.
  apply (X8_state_table_keeps_the_total parse_iso "api_data_aadhar_enrolment"
           example_records "2024-01-10" "2024-02-10" (mkTs 2024 1 10) (mkTs 2024 2 10)).
  - now left.
  - vm_compute. reflexivity.
  - vm_compute. reflexivity.
  - vm_compute. reflexivity.
  - vm_compute. reflexivity.
  - cbn. auto.
Defined.

(** ** Missing columns *)

Lemma known_folder_dec (folder : string) : known_folder folder \/ ~ known_folder folder.
Proof.
  unfold known_folder.
  destruct (String.eqb_spec folder "api_data_aadhar_enrolment"); [tauto |].
  destruct (String.eqb_spec folder "api_data_aadhar_biometric"); [tauto |].
  destruct (String.eqb_spec folder "api_data_aadhar_demographic"); tauto.
Qed.
Section MissingColumns.
Variable to_datetime : string -> outcome (option Timestamp).

Lemma missing_column_dispatch (folder : string) (df : Records) (stv s e : string) :
  known_folder folder ->
  forallb (has_column df) (measures_of folder) = false ->
  date_wise folder df stv = (Raise KeyError, df)
  /\ state_wise to_datetime folder df s e = (Raise KeyError, df).
Proof.
  intros Hk Hmiss.
  destruct Hk as [-> | [-> | ->]];
    unfold measures_of in Hmiss; cbn [String.eqb Ascii.eqb Bool.eqb forallb] in Hmiss;
    unfold date_wise, state_wise; cbn [String.eqb Ascii.eqb Bool.eqb];
    unfold dispatch, set_total, getitem;
    repeat match type of Hmiss with
           | context [has_column df ?c] =>
               destruct (has_column df c); cbn [andb] in Hmiss
           end;
    try discriminate Hmiss; split; reflexivity.
Qed.

(** X9: for one of the three data sets, when the record set lacks one of
    its measure columns both dispatchers raise [KeyError] while computing
    [total]: the frame is left as it was, no analysis runs and, state-wise,
    the bounds are not even parsed. *)
Theorem X9_missing_measure_column_raises :
  forall (selected_folder : string) (df : Records) (stv s e : string),
    known_folder selected_folder ->
    forallb (has_column df) (measures_of selected_folder) = false ->
    date_wise selected_folder df stv = (Raise KeyError, df)
    /\ state_wise to_datetime selected_folder df s e = (Raise KeyError, df).
Proof.
  intros folder df stv s e Hk Hmiss. now apply missing_column_dispatch.
Qed.

Lemma unknown_folder_dispatch (folder : string) (df : Records) (stv s e : string) :
  ~ known_folder folder ->
  date_wise folder df stv = (Ret None, df)
  /\ state_wise to_datetime folder df s e = (Ret None, df).
Proof.
  intros Hk. unfold date_wise, state_wise, known_folder in *.
  destruct (String.eqb_spec folder "api_data_aadhar_enrolment"); [tauto |].
  destruct (String.eqb_spec folder "api_data_aadhar_biometric"); [tauto |].
  destruct (String.eqb_spec folder "api_data_aadhar_demographic"); [tauto |].
  split; reflexivity.
Qed.

End MissingColumns.

Lemma X9_missing_measure_column_witness :
  date_wise "api_data_aadhar_biometric" example_records "" = (Raise KeyError, example_records)
  /\ state_wise (fun _ => Raise ValueError) "api_data_aadhar_biometric" example_records
       "not a date" ""
     = (Raise KeyError, example_records).
Proof.
  apply (X9_missing_measure_column_raises (fun _ => Raise ValueError)
           "api_data_aadhar_biometric" example_records "" "not a date" "").
  - right. now left.
  - vm_compute. reflexivity.
Defined.

(** ** Calling the dispatchers again *)

Lemma total_of_set_cell (folder : string) (r : Row string Timestamp) (c : string) (v : Z) :
  c = "total" \/ c = "month" ->
  total_of folder (set_cell r c v) = total_of folder r.
Proof.
  intros Hc. unfold total_of.
  destruct (String.eqb folder "api_data_aadhar_enrolment");
    [| destruct (String.eqb folder "api_data_aadhar_biometric")];
    unfold enrol_total, bio_total, demo_total;
    destruct Hc as [-> | ->]; now rewrite !cell_set_cell_ne by discriminate.
Qed.

Lemma set_cell_fixed {S D : Type} (r : Row S D) (c : string) (v : Z) :
  cells r !! c = Some v -> set_cell r c v = r.
Proof.
  intros H. destruct r as [s d m]. unfold set_cell; cbn [state date cells] in *.
  f_equal. now apply insert_id.
Qed.

Lemma map_fixed {A : Type} (f : A -> A) (l : list A) :
  (forall x, In x l -> f x = x) -> List.map f l = l.
Proof.
  intros H. rewrite <- (List.map_id l) at 2. now apply List.map_ext_in.
Qed.

(** Assigning [total] to a frame that holds it already changes nothing. *)
Lemma with_total_fixed (folder : string) (x : Records) :
  has_column x "total" = true ->
  (forall r, In r (rows x) -> cells r !! "total" = Some (total_of folder r)) ->
  with_total folder x = x.
Proof.
  intros Hc Hr. unfold with_total. rewrite Hc. destruct x as [cs rs]; cbn [columns rows] in *.
  f_equal. apply map_fixed. intros r Hin. apply set_cell_fixed. now apply Hr.
Qed.

Lemma set_month_eq (x : Records) :
  set_month x
  = mkDF (if has_column x "month" then columns x else columns x ++ ["month"])
         (List.map (fun r => set_cell r "month" (to_period_M (date r))) (rows x)).
Proof.
  unfold set_month, setitem. f_equal. apply zip_with_map_r_same.
Qed.

(** Assigning [month] to a frame that holds it already changes nothing. *)
Lemma set_month_fixed (x : Records) :
  has_column x "month" = true ->
  (forall r, In r (rows x) -> cells r !! "month" = Some (to_period_M (date r))) ->
  set_month x = x.
Proof.
  intros Hc Hr. rewrite set_month_eq, Hc. destruct x as [cs rs]; cbn [columns rows] in *.
  f_equal. apply map_fixed. intros r Hin. apply set_cell_fixed. now apply Hr.
Qed.

Lemma with_total_idempotent (folder : string) (df : Records) :
  with_total folder (with_total folder df) = with_total folder df.
Proof.
  apply with_total_fixed.
  - rewrite has_column_with_total. apply orb_true_r.
  - intros r Hr. unfold with_total in Hr; cbn [rows] in Hr.
    apply in_map_iff in Hr as (r0 & <- & _).
    rewrite total_of_set_cell by now left.
    unfold set_cell; cbn [cells]. apply lookup_insert_eq.
Qed.

Lemma with_total_after_month (folder : string) (df : Records) :
  with_total folder (set_month (with_total folder df)) = set_month (with_total folder df).
Proof.
  apply with_total_fixed.
  - rewrite has_column_set_month_or, has_column_with_total.
    rewrite orb_true_r. reflexivity.
  - intros r Hr. rewrite set_month_rows in Hr.
    apply in_map_iff in Hr as (r1 & <- & Hr1).
    unfold with_total in Hr1; cbn [rows] in Hr1.
    apply in_map_iff in Hr1 as (r0 & <- & _).
    rewrite !total_of_set_cell by auto.
    unfold set_cell; cbn [cells state date].
    rewrite lookup_insert_ne by discriminate. apply lookup_insert_eq.
Qed.

Lemma set_month_idempotent (x : Records) : set_month (set_month x) = set_month x.
Proof.
  apply set_month_fixed.
  - rewrite has_column_set_month_or. rewrite orb_true_r. reflexivity.
  - intros r Hr. rewrite set_month_rows in Hr.
    apply in_map_iff in Hr as (r0 & <- & _).
    unfold set_cell; cbn [cells date]. apply lookup_insert_eq.
Qed.

(** A date-wise dispatch reads the frame only through the frame it leaves. *)
Lemma date_wise_by_frame (folder : string) (df df2 : Records) (stv : string) :
  known_folder folder ->
  forallb (has_column df) (measures_of folder) = true ->
  forallb (has_column df2) (measures_of folder) = true ->
  set_month (with_total folder df2) = set_month (with_total folder df) ->
  date_wise folder df2 stv = date_wise folder df stv.
Proof.
  intros Hk Hc Hc2 Hfr.
  destruct Hk as [-> | [-> | ->]]; unfold date_wise;
    cbn [String.eqb Ascii.eqb Bool.eqb]; unfold dispatch.
  - rewrite (set_total_enrol df Hc), (set_total_enrol df2 Hc2).
    unfold enrol_date_wise. now rewrite Hfr.
  - rewrite (set_total_bio df Hc), (set_total_bio df2 Hc2).
    unfold bio_date_wise. now rewrite Hfr.
  - rewrite (set_total_demo df Hc), (set_total_demo df2 Hc2).
    unfold demo_date_wise. now rewrite Hfr.
Qed.

Lemma date_wise_frame (folder : string) (df : Records) (stv : string) :
  known_folder folder ->
  forallb (has_column df) (measures_of folder) = true ->
  snd (date_wise folder df stv) = set_month (with_total folder df).
Proof.
  intros Hk Hc. destruct (date_wise_returns folder df stv Hk Hc) as (tbl & fig & path & ->).
  reflexivity.
Qed.

Lemma measures_after (folder : string) (df : Records) :
  forallb (has_column df) (measures_of folder) = true ->
  forallb (has_column (with_total folder df)) (measures_of folder) = true
  /\ forallb (has_column (set_month (with_total folder df))) (measures_of folder) = true.
Proof.
  intros Hc. rewrite !List.forallb_forall in *.
  split; intros c Hin; [| rewrite has_column_set_month_or];
    rewrite has_column_with_total, (Hc c Hin); reflexivity.
Qed.

Section Repeating.
Variable to_datetime : string -> outcome (option Timestamp).

(** A state-wise dispatch reads the frame only through the frame it leaves. *)
Lemma state_wise_by_frame (folder : string) (df df2 : Records) (s e : string) :
  known_folder folder ->
  forallb (has_column df) (measures_of folder) = true ->
  forallb (has_column df2) (measures_of folder) = true ->
  with_total folder df2 = with_total folder df ->
  state_wise to_datetime folder df2 s e = state_wise to_datetime folder df s e.
Proof.
  intros Hk Hc Hc2 Hfr.
  destruct Hk as [-> | [-> | ->]]; unfold state_wise;
    cbn [String.eqb Ascii.eqb Bool.eqb]; unfold dispatch.
  - rewrite (set_total_enrol df Hc), (set_total_enrol df2 Hc2). now rewrite Hfr.
  - rewrite (set_total_bio df Hc), (set_total_bio df2 Hc2). now rewrite Hfr.
  - rewrite (set_total_demo df Hc), (set_total_demo df2 Hc2). now rewrite Hfr.
Qed.

Lemma state_wise_frame (folder : string) (df : Records) (s e : string) :
  known_folder folder ->
  forallb (has_column df) (measures_of folder) = true ->
  snd (state_wise to_datetime folder df s e) = with_total folder df.
Proof.
  intros Hk Hc.
  destruct Hk as [-> | [-> | ->]]; unfold state_wise;
    cbn [String.eqb Ascii.eqb Bool.eqb]; unfold dispatch.
  - now rewrite (set_total_enrol df Hc).
  - now rewrite (set_total_bio df Hc).
  - now rewrite (set_total_demo df Hc).
Qed.

(** The sums per state do not read a column that is not summed. *)
Lemma state_groups_set_cell {D : Type} (cs : list string) (rs : list (Row string D))
    (c : string) (f : Row string D -> Z) :
  ~ In c cs ->
  groupby_sum (fun r => state r) String.eqb String.leb (fun k sums => mkRow k tt sums) cs
              (List.map (fun r => set_cell r c (f r)) rs)
  = groupby_sum (fun r => state r) String.eqb String.leb (fun k sums => mkRow k tt sums) cs rs.
Proof.
  intros Hc. unfold groupby_sum. rewrite List.map_map. cbn [state set_cell].
  apply List.map_ext. intros k. f_equal. unfold sum_cells. f_equal.
  apply List.map_ext_in. intros c' Hc'. f_equal. f_equal.
  rewrite filter_map_comm, List.map_map. cbn [state set_cell].
  apply List.map_ext. intros r. apply cell_set_cell_ne. intros <-. contradiction.
Qed.

Lemma groupby_state_without_month (cs : list string) (x : Records)
    (rs : list (Row string Timestamp)) :
  ~ In "month" cs ->
  groupby_state cs
    (mkDF (columns (set_month x))
          (List.map (fun r => set_cell r "month" (to_period_M (date r))) rs))
  = groupby_state cs (mkDF (columns x) rs).
Proof.
  intros Hc. unfold groupby_state.
  assert (Hcols : forall rs1 rs2 : list (Row string Timestamp),
             forallb (has_column (mkDF (columns (set_month x)) rs1)) cs
             = forallb (has_column (mkDF (columns x) rs2)) cs).
  { intros rs1 rs2. induction cs as [| c cs IH]; [reflexivity |]. cbn [forallb].
    rewrite IH by (intros Hin; apply Hc; now right). f_equal.
    change (has_column (set_month x) c = has_column x c).
    rewrite has_column_set_month_or.
    destruct (String.eqb_spec c "month") as [-> | _]; [| apply orb_false_r].
    exfalso. apply Hc. now left. }
  rewrite (Hcols _ rs). clear Hcols.
  destruct (forallb (has_column (mkDF (columns x) rs)) cs); [| reflexivity].
  f_equal. f_equal. cbn [rows]. now apply state_groups_set_cell.
Qed.

Lemma groupby_state_set_month (cs : list string) (x : Records) :
  ~ In "month" cs ->
  groupby_state cs (set_month x) = groupby_state cs x.
Proof.
  intros Hc. transitivity (groupby_state cs (mkDF (columns x) (rows x))).
  - rewrite <- (groupby_state_without_month cs x (rows x) Hc).
    f_equal. rewrite set_month_eq. reflexivity.
  - now destruct x.
Qed.

Lemma groupby_state_select_set_month (cs : list string) (s e : option Timestamp)
    (x : Records) :
  ~ In "month" cs ->
  groupby_state cs (select (between s e) (set_month x))
  = groupby_state cs (select (between s e) x).
Proof.
  intros Hc. transitivity (groupby_state cs (mkDF (columns x)
                                               (List.filter (between s e) (rows x))));
    [| reflexivity].
  rewrite <- (groupby_state_without_month cs x _ Hc).
  f_equal. unfold select. f_equal. rewrite set_month_rows, filter_map_comm.
  reflexivity.
Qed.

Lemma date_min_set_month (x : Records) : date_min (set_month x) = date_min x.
Proof. unfold date_min. now rewrite set_month_rows, map_date_set_cell. Qed.

Lemma date_max_set_month (x : Records) : date_max (set_month x) = date_max x.
Proof. unfold date_max. now rewrite set_month_rows, map_date_set_cell. Qed.

Ltac without_month :=
  cbn [In]; intros Hin; repeat destruct Hin as [Hin | Hin];
  discriminate Hin || contradiction.

(** The state-wise analyses do not read the column [month]. *)
Lemma state_analyses_set_month (x : Records) (s e : string) :
  fst (enrol_state_wise to_datetime (set_month x) s e)
  = fst (enrol_state_wise to_datetime x s e)
  /\ fst (bio_state_wise to_datetime (set_month x) s e)
     = fst (bio_state_wise to_datetime x s e)
  /\ fst (demo_state_wise to_datetime (set_month x) s e)
     = fst (demo_state_wise to_datetime x s e).
Proof.
  unfold enrol_state_wise, bio_state_wise, demo_state_wise; cbn [fst].
  unfold start_bound, end_bound, state_plot_name.
  rewrite date_min_set_month, date_max_set_month.
  rewrite !groupby_state_set_month by without_month.
  repeat split.
  all: destruct (if negb (String.eqb s "") then to_datetime s else Ret (date_min x))
         as [s' |]; [| reflexivity]; cbn [mbind outcome_bind bind].
  all: destruct (if negb (String.eqb e "") then to_datetime e else Ret (date_max x))
         as [e' |]; [| reflexivity]; cbn [mbind outcome_bind bind].
  all: now rewrite groupby_state_select_set_month by without_month.
Qed.

Lemma dispatch_ret {A : Type} (df df1 : Records) (total : outcome (list Z))
    (analysis : Records -> outcome A * Records) :
  set_total df total = Ret df1 ->
  dispatch df total analysis
  = (a ← fst (analysis df1); Ret (Some a), snd (analysis df1)).
Proof.
  intros H. unfold dispatch. rewrite H. now destruct (analysis df1).
Qed.

(** After a date-wise dispatch, a state-wise one returns what it returns on
    the frame as loaded. *)
Lemma state_wise_after_date_wise (folder : string) (df : Records) (s e : string) :
  known_folder folder ->
  forallb (has_column df) (measures_of folder) = true ->
  fst (state_wise to_datetime folder (set_month (with_total folder df)) s e)
  = fst (state_wise to_datetime folder df s e).
Proof.
  intros Hk Hc.
  destruct (measures_after folder df Hc) as [_ Hc2].
  destruct (state_analyses_set_month (with_total folder df) s e) as (He & Hb & Hd).
  destruct Hk as [-> | [-> | ->]]; unfold state_wise;
    cbn [String.eqb Ascii.eqb Bool.eqb].
  - rewrite (dispatch_ret _ _ _ _ (set_total_enrol _ Hc)),
            (dispatch_ret _ _ _ _ (set_total_enrol _ Hc2)).
    cbn [fst]. now rewrite with_total_after_month, He.
  - rewrite (dispatch_ret _ _ _ _ (set_total_bio _ Hc)),
            (dispatch_ret _ _ _ _ (set_total_bio _ Hc2)).
    cbn [fst]. now rewrite with_total_after_month, Hb.
  - rewrite (dispatch_ret _ _ _ _ (set_total_demo _ Hc)),
            (dispatch_ret _ _ _ _ (set_total_demo _ Hc2)).
    cbn [fst]. now rewrite with_total_after_month, Hd.
Qed.

(** X10: what a dispatcher returns does not depend on the columns [total]
    and [month] that an earlier call for the same data set left in the
    frame, and a second call of the same kind leaves the frame as the first
    one left it. *)
Theorem X10_dispatchers_can_be_called_again :
  forall (selected_folder : string) (df : Records) (stv0 stv s0 e0 s e : string),
    date_wise selected_folder (snd (date_wise selected_folder df stv0)) stv
    = (fst (date_wise selected_folder df stv), snd (date_wise selected_folder df stv0))
    /\ state_wise to_datetime selected_folder
         (snd (state_wise to_datetime selected_folder df s0 e0)) s e
       = (fst (state_wise to_datetime selected_folder df s e),
          snd (state_wise to_datetime selected_folder df s0 e0))
    /\ date_wise selected_folder (snd (state_wise to_datetime selected_folder df s0 e0)) stv
       = date_wise selected_folder df stv
    /\ fst (state_wise to_datetime selected_folder
              (snd (date_wise selected_folder df stv0)) s e)
       = fst (state_wise to_datetime selected_folder df s e).
Proof.
  intros folder df stv0 stv s0 e0 s e.
  destruct (known_folder_dec folder) as [Hk | Hk].
  2: { pose proof (fun x a b c => unknown_folder_dispatch to_datetime folder x a b c Hk) as Hu.
       destruct (Hu df stv0 s0 e0) as [-> ->]. cbn [snd].
       destruct (Hu df stv s e) as [-> ->]. repeat split. }
  destruct (forallb (has_column df) (measures_of folder)) eqn:Hc.
  2: { pose proof (fun a b c => missing_column_dispatch to_datetime folder df a b c Hk Hc)
         as Hm.
       destruct (Hm stv0 s0 e0) as [-> ->]. cbn [snd].
       destruct (Hm stv s e) as [-> ->]. repeat split. }
  destruct (measures_after folder df Hc) as [Hc1 Hc2].
  rewrite (date_wise_frame folder df stv0 Hk Hc),
          (state_wise_frame folder df s0 e0 Hk Hc).
  repeat split.
  - rewrite (date_wise_by_frame folder df _ stv Hk Hc Hc2)
      by now rewrite with_total_after_month, set_month_idempotent.
    rewrite <- (date_wise_frame folder df stv Hk Hc).
    now destruct (date_wise folder df stv).
  - rewrite (state_wise_by_frame folder df _ s e Hk Hc Hc1)
      by apply with_total_idempotent.
    rewrite <- (state_wise_frame folder df s e Hk Hc).
    now destruct (state_wise to_datetime folder df s e).
  - apply (date_wise_by_frame folder df _ stv Hk Hc Hc1).
    now rewrite with_total_idempotent.
  - now apply state_wise_after_date_wise.
Qed.
End Repeating.

(** ** The file of the state-wise figure *)

Lemma ts_eq_eq (a b : option Timestamp) : ts_eq a b = true -> a = b.
Proof.
  destruct a as [[y m d] |], b as [[y' m' d'] |]; try discriminate.
  unfold ts_eq, ts_eqb, ts_compare; cbn [ts_year ts_month ts_day]. intros H.
  destruct (Z.compare_spec y y'); try discriminate.
  destruct (Z.compare_spec m m'); try discriminate.
  destruct (Z.compare_spec d d'); try discriminate.
  now subst.
Qed.

Section PlotFile.
Variable to_datetime : string -> outcome (option Timestamp).

Lemma plot_file_bounds (df : Records) (s e : option Timestamp) :
  ("plots/" ++ state_plot_name df s e)%string = "plots/state_plot.png" ->
  s = date_min df /\ e = date_max df.
Proof.
  unfold state_plot_name.
  destruct (ts_eq s (date_min df) && ts_eq e (date_max df)) eqn:Hc; [| discriminate].
  intros _. apply andb_true_iff in Hc as [Hs He]. split; now apply ts_eq_eq.
Qed.

Ltac full_file H :=
  match type of H with
  | (_ ← ?sb; _, _) = _ => destruct sb as [s' |] eqn:Hs; [| discriminate H]
  end;
  cbn [mbind outcome_bind bind] in H;
  match type of H with
  | (_ ← ?eb; _, _) = _ => destruct eb as [e' |] eqn:He; [| discriminate H]
  end;
  cbn [mbind outcome_bind bind] in H;
  match type of H with
  | (_ ← ?g; _, _) = _ => destruct g as [sts |]; [| discriminate H]
  end;
  cbn [mbind outcome_bind bind] in H;
  match type of H with
  | (_ ← ?g; _, _) = _ => destruct g as [sts' |]; [| discriminate H]
  end;
  cbn [mbind outcome_bind bind] in H.

(** An analysis that wrote [state_plot.png] was given the smallest and the
    largest date of the frame as bounds. *)
Lemma state_analysis_full_file (df df' : Records) (s e : string)
    (tbl : DataFrame string unit) (fig : Figure string) :
  (enrol_state_wise to_datetime df s e = (Ret (tbl, fig, "plots/state_plot.png"), df')
   \/ bio_state_wise to_datetime df s e = (Ret (tbl, fig, "plots/state_plot.png"), df')
   \/ demo_state_wise to_datetime df s e = (Ret (tbl, fig, "plots/state_plot.png"), df')) ->
  start_bound to_datetime df s = start_bound to_datetime df ""
  /\ end_bound to_datetime df e = end_bound to_datetime df "".
Proof.
  intros H.
  assert (Hb : exists s' e', start_bound to_datetime df s = Ret s'
                             /\ end_bound to_datetime df e = Ret e'
                             /\ ("plots/" ++ state_plot_name df s' e')%string
                                = "plots/state_plot.png").
  { destruct H as [H | [H | H]];
      unfold enrol_state_wise, bio_state_wise, demo_state_wise in H;
      full_file H; exists s', e'; repeat split; congruence. }
  destruct Hb as (s' & e' & Hs & He & Hp).
  apply plot_file_bounds in Hp as [-> ->]. now rewrite Hs, He.
Qed.

(** X11: a state-wise dispatch that wrote its figure to [state_plot.png]
    returns exactly what the call without bounds returns: that file never
    holds the figure of a narrower range. *)
Theorem X11_state_plot_file_is_the_full_range :
  forall (selected_folder : string) (df df' : Records) (s e : string)
         (tbl : DataFrame string unit) (fig : Figure string),
    state_wise to_datetime selected_folder df s e
    = (Ret (Some (tbl, fig, "plots/state_plot.png")), df') ->
    state_wise to_datetime selected_folder df "" ""
    = (Ret (Some (tbl, fig, "plots/state_plot.png")), df').
Proof.
  intros folder df df' s e tbl fig H. rewrite <- H.
  unfold state_wise in *.
  destruct (String.eqb folder "api_data_aadhar_enrolment");
    [| destruct (String.eqb folder "api_data_aadhar_biometric");
       [| destruct (String.eqb folder "api_data_aadhar_demographic");
          [| discriminate H]]];
    apply dispatch_inv in H as (df1 & Hset & Han);
    unfold dispatch; rewrite Hset;
    destruct (state_analysis_full_file df1 df' s e tbl fig) as [Hs He]; auto;
    destruct (state_wise_by_bounds to_datetime df1 s e "" "" Hs He) as (H1 & H2 & H3);
    now rewrite ?H1, ?H2, ?H3.
Qed.
End PlotFile.

Lemma X11_state_plot_file_witness :
  state_wise parse_iso "api_data_aadhar_enrolment" example_records "" ""
  = (Ret (Some (fst (fst (result_of
                 (fst (state_wise parse_iso "api_data_aadhar_enrolment" example_records
                         "2024-01-05" "2024-02-10"))
                 (empty_table, mkFigure empty_table [] [], ""))),
                snd (fst (result_of
                 (fst (state_wise parse_iso "api_data_aadhar_enrolment" example_records
                         "2024-01-05" "2024-02-10"))
                 (empty_table, mkFigure empty_table [] [], ""))),
                "plots/state_plot.png")),
     snd (state_wise parse_iso "api_data_aadhar_enrolment" example_records
            "2024-01-05" "2024-02-10")).
Proof.
  apply (X11_state_plot_file_is_the_full_range parse_iso "api_data_aadhar_enrolment"
           example_records _ "2024-01-05" "2024-02-10").
  vm_compute. reflexivity.
Defined.

(** ** The home page *)

Lemma In_unique_from (l seen : list string) (x : string) :
  In x (fold_left (fun seen x => if existsb (String.eqb x) seen then seen else seen ++ [x])
                  l seen)
  <-> In x seen \/ In x l.
Proof.
  revert seen. induction l as [| y l IH]; intros seen; cbn [fold_left].
  - cbn [In]. tauto.
  - rewrite IH. cbn [In]. destruct (existsb (String.eqb y) seen) eqn:Hex.
    + apply existsb_exists in Hex as (z & Hz & Heq). apply String.eqb_eq in Heq. subst z.
      intuition (subst; auto).
    + rewrite in_app_iff. cbn [In]. tauto.
Qed.

Lemma In_unique (l : list string) (x : string) : In x (unique l) <-> In x l.
Proof. unfold unique. rewrite In_unique_from. cbn [In]. tauto. Qed.

Lemma NoDup_unique_from (l seen : list string) :
  List.NoDup seen ->
  List.NoDup (fold_left (fun seen x => if existsb (String.eqb x) seen
                                       then seen else seen ++ [x]) l seen).
Proof.
  revert seen. induction l as [| y l IH]; intros seen Hnd; cbn [fold_left]; [exact Hnd |].
  apply IH. destruct (existsb (String.eqb y) seen) eqn:Hex; [exact Hnd |].
  apply List.NoDup_app; [exact Hnd | repeat constructor; intros [] |].
  intros x Hx [<- | []].
  assert (existsb (String.eqb y) seen = true); [| congruence].
  apply existsb_exists. exists y. split; [exact Hx | apply String.eqb_refl].
Qed.

Lemma NoDup_unique (l : list string) : List.NoDup (unique l).
Proof. apply NoDup_unique_from. constructor. Qed.

Lemma In_insort (k x : string) (l : list string) : In x (insort k l) <-> x = k \/ In x l.
Proof.
  induction l as [| y l IH]; cbn [insort].
  - cbn [In]. intuition.
  - destruct (String.leb k y); cbn [In]; [intuition |]. rewrite IH. intuition.
Qed.

Lemma In_sorted (l : list string) (x : string) : In x (sorted l) <-> In x l.
Proof.
  induction l as [| y l IH]; cbn [sorted fold_right]; [reflexivity |].
  fold (sorted l). rewrite In_insort, IH. cbn [In]. intuition.
Qed.

Lemma insort_sorted (k : string) (l : list string) :
  ~ In k l -> StronglySorted string_lt l -> StronglySorted string_lt (insort k l).
Proof.
  intros Hk Hs. induction Hs as [| a l Hs IH Ha]; cbn [insort].
  - repeat constructor.
  - assert (Hne : k <> a) by (intros ->; apply Hk; now left).
    destruct (String.leb k a) eqn:Hle.
    + constructor; [now constructor |].
      constructor; [now apply string_leb_lt |].
      eapply Forall_impl; [| exact Ha]. cbn. intros x Hx.
      apply string_lt_trans with a; [now apply string_leb_lt | exact Hx].
    + constructor; [apply IH; intros Hin; apply Hk; now right |].
      apply List.Forall_forall. intros x Hx.
      apply In_insort in Hx as [-> | Hx]; [now apply string_leb_false_lt |].
      rewrite List.Forall_forall in Ha. now apply Ha.
Qed.

(** Sorting values that are distinct gives a strictly ascending list. *)
Lemma sorted_sorted (l : list string) :
  List.NoDup l -> StronglySorted string_lt (sorted l).
Proof.
  induction 1 as [| x l Hx _ IH]; cbn [sorted fold_right]; [constructor |].
  fold (sorted l). apply insort_sorted; [| exact IH]. now rewrite In_sorted.
Qed.

Lemma dates_of_rows (df : Records) :
  rows df <> [] -> exists lo hi, date_min df = Some lo /\ date_max df = Some hi.
Proof.
  unfold date_min, date_max. destruct (rows df) as [| r rs]; [congruence |].
  intros _. cbn [List.map ts_min ts_max]. eauto.
Qed.

Lemma dates_of_no_rows (df : Records) : rows df = [] -> date_min df = None.
Proof. unfold date_min. now intros ->. Qed.

Lemma date_min_rows (df : Records) (lo : Timestamp) : date_min df = Some lo -> rows df <> [].
Proof. unfold date_min. destruct (rows df); [discriminate | discriminate]. Qed.

Section HomePage.
Variable strptime : string -> option Timestamp.
Variable to_datetime : string -> outcome (option Timestamp).
Variable to_html : forall S : Type, DataFrame S unit -> string.
Variable data : DataFolder.

(** X12: a request to generate either view for a folder that loads but is
    none of the three data sets does not render a page: the dispatcher
    returns [None] and unpacking it raises [TypeError]. *)
Theorem X12_unknown_folder_fails_the_request :
  forall (names : list (string * bool)) (req : Request) (df : Records),
    method req = "POST" ->
    form_get req "action" "load" = "generate" ->
    form_get req "view_type" "date" = "date" \/ form_get req "view_type" "date" = "state" ->
    create strptime data (form_get req "datafolder" "") = Ret df ->
    rows df <> [] ->
    ~ known_folder (form_get req "datafolder" "") ->
    index strptime to_datetime to_html (Ret names) data req = RaisedTypeError.
Proof.
  intros names req df Hm Ha Hv Hcr Hrows Hk.
  destruct (dates_of_rows df Hrows) as (lo & hi & Hlo & Hhi).
  unfold index. rewrite Hm, Hcr, Hlo, Hhi, Ha.
  cbn [String.eqb Ascii.eqb Bool.eqb].
  destruct (unknown_folder_dispatch to_datetime _ df
              (form_get req "state_filter" "")
              (form_get req "start_date" "") (form_get req "end_date" "") Hk) as [Hd Hs].
  destruct Hv as [-> | ->]; cbn [String.eqb Ascii.eqb Bool.eqb].
  - now rewrite Hd.
  - now rewrite Hs.
Qed.

(** X13: a request that loads a folder whose files yield no record fails
    with [ValueError], whatever was asked for: the smallest date of an
    empty frame is [NaT], which cannot be formatted. *)
Theorem X13_empty_data_fails_the_request :
  forall (names : list (string * bool)) (req : Request) (df : Records),
    method req = "POST" ->
    create strptime data (form_get req "datafolder" "") = Ret df ->
    rows df = [] ->
    index strptime to_datetime to_html (Ret names) data req = Raised ValueError.
Proof.
  intros names req df Hm Hcr Hrows.
  unfold index. rewrite Hm, Hcr, (dates_of_no_rows df Hrows). reflexivity.
Qed.

Lemma index_post (listdir : outcome (list (string * bool))) (req : Request) (page : Page) :
  index strptime to_datetime to_html listdir data req = Rendered page ->
  method req = "POST" ->
  exists df lo hi,
    create strptime data (form_get req "datafolder" "") = Ret df
    /\ date_min df = Some lo /\ date_max df = Some hi
    /\ selected_folder page = Some (form_get req "datafolder" "")
    /\ states page = sorted (unique (List.map state (rows df)))
    /\ min_date page = Some (strftime lo) /\ max_date page = Some (strftime hi)
    /\ view_type page = form_get req "view_type" "date".
Proof.
  intros H Hm. unfold index in H. rewrite Hm in H.
  destruct listdir as [names | err]; [| discriminate H].
  cbn [String.eqb Ascii.eqb Bool.eqb] in H.
  destruct (create strptime data (form_get req "datafolder" "")) as [df | err] eqn:Hcr;
    [| discriminate H].
  destruct (date_min df) as [lo |] eqn:Hlo; [| discriminate H].
  destruct (date_max df) as [hi |] eqn:Hhi; [| discriminate H].
  exists df, lo, hi. split; [reflexivity |]. split; [exact Hlo |]. split; [exact Hhi |].
  destruct (String.eqb (form_get req "action" "load") "generate").
  - destruct (String.eqb (form_get req "view_type" "date") "date").
    + destruct (fst (date_wise _ df _)) as [[[[tbl fig] path] |] | err];
        try discriminate H.
      injection H as <-. cbn. repeat split.
    + destruct (String.eqb (form_get req "view_type" "date") "state").
      * destruct (fst (state_wise _ _ df _ _)) as [[[[tbl fig] path] |] | err];
          try discriminate H.
        injection H as <-. cbn. repeat split.
      * injection H as <-. cbn. repeat split.
  - injection H as <-. cbn. repeat split.
Qed.

(** X14: when the load of a POST request returns a frame in which every
    date has been parsed to a day, on the page rendered the list of regions
    is strictly ascending and holds exactly the regions of the loaded
    records, each of them cleaned; the two dates are the formatted dates of
    two loaded records, and the date of every loaded record lies between
    them. *)
Theorem X14_page_lists_the_loaded_regions_and_dates :
  forall (listdir : outcome (list (string * bool))) (req : Request) (page : Page)
         (df : Records),
    index strptime to_datetime to_html listdir data req = Rendered page ->
    method req = "POST" ->
    create strptime data (form_get req "datafolder" "") = Ret df ->
    exists lo hi : Timestamp,
      StronglySorted string_lt (states page)
      /\ (forall x, In x (states page) <-> exists r, In r (rows df) /\ state r = x)
      /\ Forall cleaned (states page)
      /\ min_date page = Some (strftime lo) /\ max_date page = Some (strftime hi)
      /\ (exists r, In r (rows df) /\ date r = lo)
      /\ (exists r, In r (rows df) /\ date r = hi)
      /\ forall r, In r (rows df) ->
           ts_leb lo (date r) = true /\ ts_leb (date r) hi = true.
Proof.
  intros listdir req page df H Hm Hload.
  destruct (index_post listdir req page H Hm)
    as (df0 & lo & hi & Hcr & Hlo & Hhi & _ & Hst & Hmin & Hmax & _).
  assert (df0 = df) by congruence. subst df0.
  exists lo, hi.
  assert (Hin : forall x, In x (states page) <-> exists r, In r (rows df) /\ state r = x).
  { intros x. rewrite Hst, In_sorted, In_unique, in_map_iff.
    split; intros (r & H1 & H2); exists r; tauto. }
  apply ts_min_spec in Hlo as [Hlo1 Hlo2]. apply ts_max_spec in Hhi as [Hhi1 Hhi2].
  repeat split; try assumption.
  - rewrite Hst. apply sorted_sorted, NoDup_unique.
  - now apply Hin.
  - now apply Hin.
  - apply List.Forall_forall. intros x Hx. apply Hin in Hx as (r & Hr & <-).
    pose proof (created_regions_cleaned _ _ _ _ Hcr) as Hc.
    rewrite List.Forall_forall in Hc. now apply Hc.
  - apply in_map_iff in Hlo1 as (r & Hr & Hin1). now exists r.
  - apply in_map_iff in Hhi1 as (r & Hr & Hin1). now exists r.
  - apply Hlo2. now apply in_map.
  - apply Hhi2. now apply in_map.
Qed.
End HomePage.

Lemma X12_unknown_folder_witness :
  index parse_dmy parse_iso (fun _ _ => "") (Ret [("aadhar_saturation", true)]) other_data
        (post [("datafolder", "aadhar_saturation"); ("action", "generate");
               ("view_type", "state")])
  = RaisedTypeError.
Proof.
  apply (X12_unknown_folder_fails_the_request parse_dmy parse_iso (fun _ _ => "") other_data
           [("aadhar_saturation", true)] _
           (mkDF ["persons"]
                 [mkRow "goa" (mkTs 2025 3 1) (list_to_map [("persons", 7)])])).
  - reflexivity.
  - vm_compute. reflexivity.
  - right. vm_compute. reflexivity.
  - vm_compute. reflexivity.
  - discriminate.
  - vm_compute. intros [H | [H | H]]; discriminate H.
Defined.

Lemma X13_empty_data_witness :
  index parse_dmy parse_iso (fun _ _ => "") (Ret [("api_data_aadhar_biometric", true)])
        other_data (post [("datafolder", "api_data_aadhar_biometric")])
  = Raised ValueError.
Proof.
  apply (X13_empty_data_fails_the_request parse_dmy parse_iso (fun _ _ => "") other_data
           [("api_data_aadhar_biometric", true)] _
           (mkDF ["bio_age_5_17"; "bio_age_17_"] [])).
  - reflexivity.
  - vm_compute. reflexivity.
  - reflexivity.
Defined.

Lemma X14_page_witness :
  exists lo hi : Timestamp,
    StronglySorted string_lt ["daman and diu"]
    /\ (forall x, In x ["daman and diu"]
                  <-> exists r, In r (rows daman_records) /\ state r = x)
    /\ Forall cleaned ["daman and diu"]
    /\ Some "2025-03-01" = Some (strftime lo) /\ Some "2025-03-01" = Some (strftime hi)
    /\ (exists r, In r (rows daman_records) /\ date r = lo)
    /\ (exists r, In r (rows daman_records) /\ date r = hi)
    /\ forall r, In r (rows daman_records) ->
         ts_leb lo (date r) = true /\ ts_leb (date r) hi = true.
Proof.
  apply (X14_page_lists_the_loaded_regions_and_dates parse_dmy parse_iso (fun _ _ => "")
           daman_folder (Ret [("api_data_aadhar_enrolment", true); ("notes.txt", false)])
           (post [("datafolder", "api_data_aadhar_enrolment")])
           (mkPage ["api_data_aadhar_enrolment"] (Some "api_data_aadhar_enrolment")
                   None None None None ["daman and diu"]
                   (Some "2025-03-01") (Some "2025-03-01") "date")).
  - vm_compute. reflexivity.
  - reflexivity.
  - vm_compute. reflexivity.
Defined.

Section PageTables.
Variable strptime : string -> option Timestamp.
Variable to_datetime : string -> outcome (option Timestamp).
Variable to_html : forall S : Type, DataFrame S unit -> string.
Variable data : DataFolder.

Lemma returned_for_known_folder (folder : string) (df : Records) (stv s e : string) :
  (exists a, fst (date_wise folder df stv) = Ret (Some a))
  \/ (exists a, fst (state_wise to_datetime folder df s e) = Ret (Some a)) ->
  known_folder folder.
Proof.
  intros H. destruct (known_folder_dec folder) as [Hk | Hk]; [exact Hk |].
  destruct (unknown_folder_dispatch to_datetime folder df stv s e Hk) as [Hd Hs].
  rewrite Hd, Hs in H. destruct H as [[a H] | [a H]]; discriminate H.
Qed.

(** X15: a rendered page holds a table or a figure of the date-wise view
    only when the request asked to generate the view "date" for one of the
    three data sets, and then it holds nothing of the state-wise view; and
    the other way round. *)
Theorem X15_page_holds_only_the_view_asked_for :
  forall (listdir : outcome (list (string * bool))) (req : Request) (page : Page),
    index strptime to_datetime to_html listdir data req = Rendered page ->
    (date_table page <> None \/ date_plot page <> None ->
     form_get req "action" "load" = "generate"
     /\ form_get req "view_type" "date" = "date"
     /\ known_folder (form_get req "datafolder" "")
     /\ state_table page = None /\ state_plot page = None)
    /\ (state_table page <> None \/ state_plot page <> None ->
        form_get req "action" "load" = "generate"
        /\ form_get req "view_type" "date" = "state"
        /\ known_folder (form_get req "datafolder" "")
        /\ date_table page = None /\ date_plot page = None).
Proof.
  intros listdir req page H. unfold index in H.
  destruct listdir as [names | err]; [| discriminate H].
  destruct (String.eqb (method req) "POST").
  2: { injection H as <-. cbn. split; intros [F | F]; congruence. }
  destruct (create strptime data (form_get req "datafolder" "")) as [df | err];
    [| discriminate H].
  destruct (date_min df) as [lo |]; [| discriminate H].
  destruct (date_max df) as [hi |]; [| discriminate H].
  destruct (String.eqb_spec (form_get req "action" "load") "generate") as [Ha | _].
  2: { injection H as <-. cbn. split; intros [F | F]; congruence. }
  destruct (String.eqb_spec (form_get req "view_type" "date") "date") as [Hv | Hnv].
  - destruct (fst (date_wise _ df _)) as [[[[tbl fig] path] |] | err] eqn:Hd;
      try discriminate H.
    injection H as <-. cbn. split; [| intros [F | F]; congruence].
    intros _. repeat split; try assumption.
    eapply returned_for_known_folder with (s := "") (e := ""). left. eauto.
  - destruct (String.eqb_spec (form_get req "view_type" "date") "state") as [Hs | _].
    2: { injection H as <-. cbn. split; intros [F | F]; congruence. }
    destruct (fst (state_wise _ _ df _ _)) as [[[[tbl fig] path] |] | err] eqn:Hd;
      try discriminate H.
    injection H as <-. cbn. split; [intros [F | F]; congruence |].
    intros _. repeat split; try assumption.
    eapply returned_for_known_folder with (stv := ""). right. eauto.
Qed.
End PageTables.

Lemma X15_page_tables_witness :
  (date_table generated_page <> None \/ date_plot generated_page <> None ->
   form_get generate_request "action" "load" = "generate"
   /\ form_get generate_request "view_type" "date" = "date"
   /\ known_folder (form_get generate_request "datafolder" "")
   /\ state_table generated_page = None /\ state_plot generated_page = None)
  /\ (state_table generated_page <> None \/ state_plot generated_page <> None ->
      form_get generate_request "action" "load" = "generate"
      /\ form_get generate_request "view_type" "date" = "state"
      /\ known_folder (form_get generate_request "datafolder" "")
      /\ date_table generated_page = None /\ date_plot generated_page = None).
Proof.
  apply (X15_page_holds_only_the_view_asked_for parse_dmy parse_iso (fun _ _ => "<table>")
           daman_folder (Ret [("api_data_aadhar_enrolment", true)])
           generate_request generated_page).
  vm_compute. reflexivity.
Defined.

(** ** The figure of a date-wise analysis *)

Lemma cumsum_from_range (l : list Z) (acc : Z) :
  Forall (fun x => - 2^63 <= x < 2^63) (cumsum_from acc l).
Proof.
  revert acc. induction l as [| x l IH]; intros acc; cbn [cumsum_from]; constructor.
  - apply wrap64_range.
  - apply IH.
Qed.

(** Adding the scalar 0 to a running sum changes nothing. *)
Lemma scalar_add_cumsum (l : list Z) : scalar_add 0 (cumsum l) = cumsum l.
Proof.
  unfold scalar_add, cumsum. apply map_fixed. intros x Hx.
  pose proof (cumsum_from_range l 0) as Hr. rewrite List.Forall_forall in Hr.
  unfold add64. rewrite Z.add_0_l. apply wrap64_id. now apply Hr.
Qed.

Lemma nth_cumsum_from (l : list Z) (acc : Z) (i : nat) :
  (i < List.length l)%nat ->
  nth i (cumsum_from acc l) 0 = wrap64 (acc + zsum (firstn (S i) l)).
Proof.
  revert acc i. induction l as [| x l IH]; intros acc i Hi; simpl in Hi; [inversion Hi |].
  cbn [cumsum_from]. destruct i as [| i].
  - cbn [nth]. change (firstn 1 (x :: l)) with [x].
    unfold add64, zsum. cbn [fold_right]. f_equal. lia.
  - cbn [nth]. rewrite IH by lia. apply wrap64_proper.
    change (firstn (S (S i)) (x :: l)) with (x :: firstn (S i) l).
    unfold zsum at 2. cbn [fold_right]. fold (zsum (firstn (S i) l)).
    rewrite add64_eqm. apply eqm64_of_eq. lia.
Qed.

(** The value of a running sum at each position: the sum of the values up
    to there, in [int64] arithmetic. *)
Lemma nth_cumsum (l : list Z) (i : nat) :
  (i < List.length l)%nat -> nth i (cumsum l) 0 = wrap64 (zsum (firstn (S i) l)).
Proof. intros Hi. unfold cumsum. now rewrite nth_cumsum_from. Qed.

Lemma date_wise_figure (folder : string) (df df' : Records) (stv : string)
    (tbl : DataFrame unit unit) (fig : Figure unit) (path : string) :
  date_wise folder df stv = (Ret (Some (tbl, fig, path)), df') ->
  fig_bars fig = measures_of folder ++ ["total"]
  /\ fig_lines fig = List.map (String.append "c_") (measures_of folder ++ ["total"])
  /\ path = ("plots/" ++ plot_name stv)%string.
Proof.
  unfold date_wise. intros H.
  folder_cases folder; [| | | discriminate H];
    apply dispatch_inv in H as (df1 & Hset & Han).
  - rewrite enrol_date_wise_eq in Han.
    destruct (forallb _ enrol_cols); [| discriminate].
    destruct (project _ _) as [t | err] eqn:Hp; [| discriminate].
    injection Han as <- <- <- <-. repeat split.
  - rewrite bio_date_wise_eq in Han.
    destruct (forallb _ bio_cols); [| discriminate].
    destruct (project _ _) as [t | err] eqn:Hp; [| discriminate].
    injection Han as <- <- <- <-. repeat split.
  - rewrite demo_date_wise_eq in Han.
    destruct (forallb _ demo_cols); [| discriminate].
    destruct (project _ _) as [t | err] eqn:Hp; [| discriminate].
    injection Han as <- <- <- <-. repeat split.
Qed.

(** Each cumulative column of the drawn frame is the running sum of the
    monthly column it is named after. *)
Lemma cumulative_columns (folder : string) (df : Records) (stv : string) (c : string) :
  known_folder folder ->
  In c (measures_of folder ++ ["total"]) ->
  column (series_of folder (with_total folder df) stv) ("c_" ++ c)%string
  = cumsum (column (series_of folder (with_total folder df) stv) c).
Proof.
  intros Hk Hc.
  rewrite (base_columns_of_series folder _ stv c Hk) by now right.
  pose proof (with_total_lin folder df Hk) as Hlin.
  destruct Hk as [-> | [-> | ->]];
    cbn [series_of measures_of String.eqb Ascii.eqb Bool.eqb app In] in *.
  - destruct (enrol_series_columns (with_total "api_data_aadhar_enrolment" df) stv)
      as (_ & Ht & Ha & Hb & Hcc & _).
    destruct (enrol_series_cumulative _ stv Hlin) as [Hct _]. cbv zeta in *.
    destruct Hc as [<- | [<- | [<- | [<- | []]]]];
      cbv beta iota delta [String.append];
      rewrite ?Ha, ?Hb, ?Hcc, ?Hct, ?Ht; try apply scalar_add_cumsum; reflexivity.
  - destruct (bio_series_columns (with_total "api_data_aadhar_biometric" df) stv)
      as (_ & Ht & Ha & Hb & _).
    destruct (bio_series_cumulative _ stv Hlin) as [Hct _]. cbv zeta in *.
    destruct Hc as [<- | [<- | [<- | []]]];
      cbv beta iota delta [String.append];
      rewrite ?Ha, ?Hb, ?Hct, ?Ht; try apply scalar_add_cumsum; reflexivity.
  - destruct (demo_series_columns (with_total "api_data_aadhar_demographic" df) stv)
      as (_ & Ht & Ha & Hb & _).
    destruct (demo_series_cumulative _ stv Hlin) as [Hct _]. cbv zeta in *.
    destruct Hc as [<- | [<- | [<- | []]]];
      cbv beta iota delta [String.append];
      rewrite ?Ha, ?Hb, ?Hct, ?Ht; try apply scalar_add_cumsum; reflexivity.
Qed.

(** C3: for a frame whose records hold an [int64] in every measure column,
    in the series a date-wise analysis draws the cumulative total of every
    row is the sum of the cumulative measures of that row, in [int64]
    arithmetic, and it is also the running sum of the column [total]: the
    sum of the totals of the rows up to that row.  Each cumulative measure
    is the running sum of its measure in the same way. *)
Theorem C3_cumulative_total_agrees :
  forall (selected_folder : string) (df df' : Records) (stv : string)
         (tbl : DataFrame unit unit) (fig : Figure unit) (path : string),
    date_wise selected_folder df stv = (Ret (Some (tbl, fig, path)), df') ->
    int64_measures selected_folder df = true ->
    (forall i : nat,
        nth i (column (fig_data fig) "c_total") 0
        = wrap64 (zsum (List.map
                          (fun m => nth i (column (fig_data fig) ("c_" ++ m)%string) 0)
                          (measures_of selected_folder))))
    /\ column (fig_data fig) "c_total" = cumsum (column (fig_data fig) "total")
    /\ forall i : nat,
         (i < List.length (column (fig_data fig) "total"))%nat ->
         nth i (column (fig_data fig) "c_total") 0
         = wrap64 (zsum (firstn (S i) (column (fig_data fig) "total")))
         /\ forall m, In m (measures_of selected_folder) ->
              nth i (column (fig_data fig) ("c_" ++ m)%string) 0
              = wrap64 (zsum (firstn (S i) (column (fig_data fig) m))).
Proof.
  intros folder df df' stv tbl fig path H _.
  apply date_wise_inv in H as (Hk & -> & _ & _).
  pose proof (with_total_lin folder df Hk) as Hlin.
  assert (Hrun : forall c i,
             In c (measures_of folder ++ ["total"]) ->
             (i < List.length (column (series_of folder (with_total folder df) stv)
                                 "total"))%nat ->
             nth i (column (series_of folder (with_total folder df) stv)
                      ("c_" ++ c)%string) 0
             = wrap64 (zsum (firstn (S i)
                               (column (series_of folder (with_total folder df) stv) c)))).
  { intros c i Hc Hi. rewrite cumulative_columns by assumption.
    apply nth_cumsum. now rewrite length_column in *. }
  assert (Hpaths :
            (forall i : nat,
                nth i (column (series_of folder (with_total folder df) stv) "c_total") 0
                = wrap64 (zsum (List.map
                     (fun m => nth i (column (series_of folder (with_total folder df) stv)
                                        ("c_" ++ m)%string) 0)
                     (measures_of folder))))
            /\ column (series_of folder (with_total folder df) stv) "c_total"
               = cumsum (column (series_of folder (with_total folder df) stv) "total")).
  { destruct Hk as [-> | [-> | ->]];
      cbn [series_of measures_of String.eqb Ascii.eqb Bool.eqb] in *.
    - destruct (enrol_series_cumulative _ stv Hlin) as [Hc Hi]. now split.
    - destruct (bio_series_cumulative _ stv Hlin) as [Hc Hi]. now split.
    - destruct (demo_series_cumulative _ stv Hlin) as [Hc Hi]. now split. }
  destruct Hpaths as [Hsum Hcum]. split; [exact Hsum |]. split; [exact Hcum |].
  intros i Hi. split.
  - apply (Hrun "total" i); [| exact Hi]. apply in_or_app. right. now left.
  - intros m Hm. apply (Hrun m i); [| exact Hi]. apply in_or_app. now left.
Qed.

Lemma C3_cumulative_total_witness :
  (forall i : nat,
      nth i (column (fig_data (snd (fst example_result))) "c_total") 0
      = wrap64 (zsum (List.map
                        (fun m => nth i (column (fig_data (snd (fst example_result)))
                                           ("c_" ++ m)%string) 0)
                        (measures_of "api_data_aadhar_enrolment"))))
  /\ column (fig_data (snd (fst example_result))) "c_total"
     = cumsum (column (fig_data (snd (fst example_result))) "total")
  /\ forall i : nat,
       (i < List.length (column (fig_data (snd (fst example_result))) "total"))%nat ->
       nth i (column (fig_data (snd (fst example_result))) "c_total") 0
       = wrap64 (zsum (firstn (S i)
                         (column (fig_data (snd (fst example_result))) "total")))
       /\ forall m, In m (measures_of "api_data_aadhar_enrolment") ->
            nth i (column (fig_data (snd (fst example_result))) ("c_" ++ m)%string) 0
            = wrap64 (zsum (firstn (S i)
                              (column (fig_data (snd (fst example_result))) m))).
Proof.
  apply (C3_cumulative_total_agrees "api_data_aadhar_enrolment" example_records
           (snd (date_wise "api_data_aadhar_enrolment" example_records "")) ""
           (fst (fst example_result)) (snd (fst example_result)) (snd example_result)).
  - vm_compute. reflexivity.
  - vm_compute. reflexivity.
Defined.

(** X16: on a frame whose records hold an [int64] in every measure column,
    the figure of a date-wise analysis draws what the returned table holds:
    the months and, as bars, every measure and [total] are the columns of
    the table; each line is the running sum of the column it is named
    after, so that its value for a month is the sum of the table's values
    up to that month, in [int64] arithmetic.  The file is named after the
    region filter alone. *)
Theorem X16_date_figure_draws_the_table :
  forall (selected_folder : string) (df df' : Records) (stv : string)
         (tbl : DataFrame unit unit) (fig : Figure unit) (path : string),
    date_wise selected_folder df stv = (Ret (Some (tbl, fig, path)), df') ->
    int64_measures selected_folder df = true ->
    path = ("plots/" ++ plot_name stv)%string
    /\ fig_bars fig = measures_of selected_folder ++ ["total"]
    /\ fig_lines fig
       = List.map (String.append "c_") (measures_of selected_folder ++ ["total"])
    /\ column (fig_data fig) "month" = column tbl "month"
    /\ forall c, In c (measures_of selected_folder ++ ["total"]) ->
         column (fig_data fig) c = column tbl c
         /\ column (fig_data fig) ("c_" ++ c)%string = cumsum (column tbl c)
         /\ forall i : nat, (i < List.length (column tbl c))%nat ->
              nth i (column (fig_data fig) ("c_" ++ c)%string) 0
              = wrap64 (zsum (firstn (S i) (column tbl c))).
Proof.
  intros folder df df' stv tbl fig path H _.
  destruct (date_wise_figure _ _ _ _ _ _ _ H) as (Hb & Hl & Hp).
  apply date_wise_inv in H as (Hk & Hfig & Hproj & _).
  assert (Hcol : forall c, In c ("month" :: measures_of folder ++ ["total"]) ->
                           column tbl c = column (fig_data fig) c).
  { intros c Hc. rewrite Hfig. apply (column_project _ _ _ c Hproj).
    now apply in_cols_existsb. }
  repeat split; try assumption.
  - symmetry. apply Hcol. now left.
  - symmetry. apply Hcol. now right.
  - rewrite (Hcol c) by now right. rewrite Hfig. now apply cumulative_columns.
  - intros Hi. rewrite (Hcol c) in * by now right.
    rewrite Hfig in *. rewrite cumulative_columns by assumption. now apply nth_cumsum.
Qed.

Lemma X16_date_figure_witness :
  snd example_result = ("plots/" ++ plot_name "")%string
  /\ fig_bars (snd (fst example_result))
     = measures_of "api_data_aadhar_enrolment" ++ ["total"]
  /\ fig_lines (snd (fst example_result))
     = List.map (String.append "c_") (measures_of "api_data_aadhar_enrolment" ++ ["total"])
  /\ column (fig_data (snd (fst example_result))) "month"
     = column (fst (fst example_result)) "month"
  /\ forall c, In c (measures_of "api_data_aadhar_enrolment" ++ ["total"]) ->
       column (fig_data (snd (fst example_result))) c = column (fst (fst example_result)) c
       /\ column (fig_data (snd (fst example_result))) ("c_" ++ c)%string
          = cumsum (column (fst (fst example_result)) c)
       /\ forall i : nat, (i < List.length (column (fst (fst example_result)) c))%nat ->
            nth i (column (fig_data (snd (fst example_result))) ("c_" ++ c)%string) 0
            = wrap64 (zsum (firstn (S i) (column (fst (fst example_result)) c))).
Proof.
  apply (X16_date_figure_draws_the_table "api_data_aadhar_enrolment" example_records
           (snd (date_wise "api_data_aadhar_enrolment" example_records "")) "").
  - vm_compute. reflexivity.
  - vm_compute. reflexivity.
Defined.

(** ** Ranges that cover every record *)

Lemma table_by_state_covering (folder : string) (df : Records) (ts te : Timestamp) :
  (forall r, In r (rows df) -> between (Some ts) (Some te) r = true) ->
  table_by_state folder df ts te
  = mkDF (measures_of folder ++ ["total"])
         (groupby_sum (fun r => state r) String.eqb String.leb
                      (fun k sums => mkRow k tt sums)
                      (measures_of folder ++ ["total"])
                      (rows (with_total folder df))).
Proof.
  intros Hall. unfold table_by_state. f_equal. f_equal.
  apply filter_all. intros r Hr. unfold with_total in Hr; cbn [rows] in Hr.
  apply in_map_iff in Hr as (r0 & <- & Hr0). exact (Hall r0 Hr0).
Qed.

Lemma between_min_max (df : Records) (lo hi : Timestamp) :
  date_min df = Some lo -> date_max df = Some hi ->
  forall r, In r (rows df) -> between (Some lo) (Some hi) r = true.
Proof.
  intros Hlo Hhi r Hr. unfold date_min, date_max in *.
  apply ts_min_spec in Hlo as [_ Hlo]. apply ts_max_spec in Hhi as [_ Hhi].
  unfold between, ts_le. apply andb_true_iff. split.
  - apply Hlo. now apply in_map.
  - apply Hhi. now apply in_map.
Qed.

Section CoveringRange.
Variable to_datetime : string -> outcome (option Timestamp).

(** X17: on a frame with records, a state-wise dispatch for a date range
    that covers every record returns the table and the figure of the call
    without bounds; only the path of the figure may differ. *)
Theorem X17_covering_range_gives_the_full_table :
  forall (selected_folder : string) (df : Records) (s e : string) (ts te : Timestamp),
    known_folder selected_folder ->
    forallb (has_column df) (measures_of selected_folder) = true ->
    start_bound to_datetime df s = Ret (Some ts) ->
    end_bound to_datetime df e = Ret (Some te) ->
    rows df <> [] ->
    (forall r, In r (rows df) -> between (Some ts) (Some te) r = true) ->
    exists tbl fig path path' df',
      state_wise to_datetime selected_folder df s e = (Ret (Some (tbl, fig, path)), df')
      /\ state_wise to_datetime selected_folder df "" ""
         = (Ret (Some (tbl, fig, path')), df').
Proof.
  intros folder df s e ts te Hk Hcols Hs He Hne Hall.
  destruct (dates_of_rows df Hne) as (lo & hi & Hlo & Hhi).
  assert (Hs0 : start_bound to_datetime df "" = Ret (Some lo))
    by (unfold start_bound; cbn [String.eqb negb]; now rewrite Hlo).
  assert (He0 : end_bound to_datetime df "" = Ret (Some hi))
    by (unfold end_bound; cbn [String.eqb negb]; now rewrite Hhi).
  rewrite (state_wise_ret to_datetime folder df s e ts te Hk Hcols Hs He).
  rewrite (state_wise_ret to_datetime folder df "" "" lo hi Hk Hcols Hs0 He0).
  rewrite (table_by_state_covering folder df ts te Hall).
  rewrite (table_by_state_covering folder df lo hi (between_min_max df lo hi Hlo Hhi)).
  eexists _, _, _, _, _. split; reflexivity.
Qed.
End CoveringRange.

Lemma X17_covering_range_witness :
  exists tbl fig path path' df',
    state_wise parse_iso "api_data_aadhar_enrolment" example_records
               "2023-12-01" "2024-03-31"
    = (Ret (Some (tbl, fig, path)), df')
    /\ state_wise parse_iso "api_data_aadhar_enrolment" example_records "" ""
       = (Ret (Some (tbl, fig, path')), df').
Proof.
  apply (X17_covering_range_gives_the_full_table parse_iso "api_data_aadhar_enrolment"
           example_records "2023-12-01" "2024-03-31" (mkTs 2023 12 1) (mkTs 2024 3 31)).
  - now left.
  - vm_compute. reflexivity.
  - vm_compute. reflexivity.
  - vm_compute. reflexivity.
  - discriminate.
  - intros r [<- | [<- | [<- | []]]]; vm_compute; reflexivity.
Defined.
